(** * Gatekeeper: a shallow embedding of the gate engine and its properties

    The development follows the Go packages of the repository:
    [parser], [git], [llm], [formatter], [config], [gate], [pool],
    [runner] and [commands].  Go values are embedded as follows.

    - [string] and [[]byte] are byte strings: Rocq's [string].
    - [int] is a 64-bit two's complement integer: a [Z] together with
      [wrap64] wherever the source computes with it.
    - A Go multi-value return [(v, err)] is a pair of options (pointers
      and interfaces may each be nil independently); a slice result is a
      list, the nil slice being the empty list.
    - A nil pointer dereference is a panic: functions that can panic
      return an [option] whose [None] is the panic.
    - Interfaces (ports) are records of functions or plain functions.
    - Clock readings, the interleaving of goroutines and the outcome of a
      [select] are explicit arguments (oracles). *)

From stdpp Require Import base option list gmap strings.
From Stdlib Require Import ZArith Ascii String DecimalString.
From Stdlib Require DecimalZ DecimalPos.

Local Open Scope string_scope.
Local Open Scope list_scope.
Local Open Scope Z_scope.

Set Warnings "-register-all".

(** ** Go's built-in [error] interface *)

Module errors.

(** The error values that occur in the repository: the sentinel
    [ErrGatesFailed] (an [errors.New] value compared by identity), error
    values of the ports (any text), and [fmt.Errorf("...: %w", err)]
    wrappers. *)
Inductive error : Type :=
| ErrGatesFailed
| New (msg : string)
| Wrap (pre : string) (inner : error).

(** [err.Error()] *)
Fixpoint Error (e : error) : string :=
  match e with
  | ErrGatesFailed => "gates failed"
  | New msg => msg
  | Wrap pre inner => pre +:+ Error inner
  end.

(** [errors.Is(err, ErrGatesFailed)]: follows the [Unwrap] chain. *)
Fixpoint Is_ErrGatesFailed (e : error) : bool :=
  match e with
  | ErrGatesFailed => true
  | New _ => false
  | Wrap _ inner => Is_ErrGatesFailed inner
  end.

End errors.

Abbreviation error := errors.error.

(** ** Go's [int] on a 64-bit platform *)

Module goint.

Definition MaxInt64 : Z := 9223372036854775807.
Definition MinInt64 : Z := -9223372036854775808.
Definition MaxUint64 : Z := 18446744073709551615.

(** Two's complement wrap-around of an arithmetic result. *)
Definition wrap64 (z : Z) : Z :=
  (z + 9223372036854775808) mod 18446744073709551616 - 9223372036854775808.

Definition add (a b : Z) : Z := wrap64 (a + b).
Definition mul (a b : Z) : Z := wrap64 (a * b).

Definition in_range (z : Z) : Prop := MinInt64 <= z <= MaxInt64.

End goint.

(** ** The functions of Go's [strings], [bytes] and [strconv] that the
       repository calls *)

Module gostrings.

Definition bytes_of (s : string) : list ascii := list_ascii_of_string s.
Definition of_bytes (l : list ascii) : string := string_of_list_ascii l.

Definition code (a : ascii) : Z := Z.of_nat (nat_of_ascii a).

(** [asciiSpace]: tab, newline, vertical tab, form feed, carriage
    return, space. *)
Definition asciiSpace (a : ascii) : bool :=
  let c := code a in
  (c =? 9) || (c =? 10) || (c =? 11) || (c =? 12) || (c =? 13) || (c =? 32).

(** The two-byte UTF-8 encodings on which [unicode.IsSpace] holds:
    U+0085 and U+00A0. *)
Definition space2 (a b : ascii) : bool :=
  (code a =? 194) && ((code b =? 133) || (code b =? 160)).

(** The three-byte encodings: U+1680, U+2000..U+200A, U+2028, U+2029,
    U+202F, U+205F, U+3000. *)
Definition space3 (a b c : ascii) : bool :=
  let x := code a in let y := code b in let z := code c in
  ((x =? 225) && (y =? 154) && (z =? 128))
  || ((x =? 226) && (y =? 128)
        && (((128 <=? z) && (z <=? 138)) || (z =? 168) || (z =? 169) || (z =? 175)))
  || ((x =? 226) && (y =? 129) && (z =? 159))
  || ((x =? 227) && (y =? 128) && (z =? 128)).

(** Leading white space, rune by rune ([strings.TrimLeftFunc] with
    [unicode.IsSpace]); an invalid or non-space rune stops the scan. *)
Fixpoint trimLeft (l : list ascii) : list ascii :=
  match l with
  | [] => []
  | a :: r =>
      if asciiSpace a then trimLeft r
      else match r with
           | [] => l
           | b :: r2 =>
               if space2 a b then trimLeft r2
               else match r2 with
                    | [] => l
                    | c :: r3 => if space3 a b c then trimLeft r3 else l
                    end
           end
  end.

(** The same scan from the end ([utf8.DecodeLastRune]), on the reversed
    byte sequence. *)
Fixpoint trimLeftRev (l : list ascii) : list ascii :=
  match l with
  | [] => []
  | a :: r =>
      if asciiSpace a then trimLeftRev r
      else match r with
           | [] => l
           | b :: r2 =>
               if space2 b a then trimLeftRev r2
               else match r2 with
                    | [] => l
                    | c :: r3 => if space3 c b a then trimLeftRev r3 else l
                    end
           end
  end.

(** [strings.TrimSpace] and [bytes.TrimSpace] *)
Definition TrimSpace (s : string) : string :=
  of_bytes (rev (trimLeftRev (rev (trimLeft (bytes_of s))))).

(** [strings.HasPrefix] and [strings.HasSuffix] *)
Definition HasPrefix (s pre : string) : bool := String.prefix pre s.

Definition HasSuffix (s suf : string) : bool :=
  let n := String.length s in
  let m := String.length suf in
  (m <=? n)%nat && String.eqb (substring (n - m) m s) suf.

(** [strings.Index(s, c)] for a one-byte separator: the index of the
    first occurrence, or -1. *)
Fixpoint IndexByte (s : string) (c : ascii) : Z :=
  match s with
  | EmptyString => -1
  | String a r =>
      if Ascii.eqb a c then 0
      else let i := IndexByte r c in if i <? 0 then -1 else i + 1
  end.

(** The slice expressions [s[i:]] and [s[:j]] for indices in range. *)
Definition from (s : string) (i : Z) : string :=
  substring (Z.to_nat i) (String.length s - Z.to_nat i) s.

Definition upto (s : string) (j : Z) : string :=
  substring 0 (Z.to_nat j) s.

(** [strings.Split(s, sep)] for a one-byte separator; never empty. *)
Fixpoint Split (s : string) (c : ascii) : list string :=
  match s with
  | EmptyString => [EmptyString]
  | String a r =>
      if Ascii.eqb a c then EmptyString :: Split r c
      else match Split r c with
           | [] => [String a EmptyString]
           | w :: ws => String a w :: ws
           end
  end.

(** [strings.SplitN(s, sep, 2)] for a one-byte separator: [parts[0]],
    and [parts[1]] when there are two parts. *)
Definition SplitN2 (s : string) (c : ascii) : string * option string :=
  let i := IndexByte s c in
  if i <? 0 then (s, None) else (upto s i, Some (from s (i + 1))).

(** [strings.Join(elems, "")] *)
Definition Join (elems : list string) : string :=
  foldr String.append EmptyString elems.

(** [strings.ReplaceAll(s, "'", new)]: every occurrence of one byte. *)
Fixpoint ReplaceAllByte (s : string) (c : ascii) (new : string) : string :=
  match s with
  | EmptyString => EmptyString
  | String a r =>
      if Ascii.eqb a c then new +:+ ReplaceAllByte r c new
      else String a (ReplaceAllByte r c new)
  end.

End gostrings.

Module strconv.

Import gostrings.

Inductive numError := ErrSyntax | ErrRange.

Definition isDigit (a : ascii) : bool := (48 <=? code a) && (code a <=? 57).

(** The digit loop of [strconv.ParseUint(s, 10, 64)]: a non-digit is a
    syntax error at the byte where it is met, an overflow is a range
    error returning the maximal value. *)
Fixpoint parseUintLoop (l : list ascii) (n : Z) : Z * option numError :=
  match l with
  | [] => (n, None)
  | a :: r =>
      if isDigit a then
        if n >=? goint.MaxUint64 / 10 + 1 then (goint.MaxUint64, Some ErrRange)
        else
          let n1 := n * 10 + (code a - 48) in
          if n1 >? goint.MaxUint64 then (goint.MaxUint64, Some ErrRange)
          else parseUintLoop r n1
      else (0, Some ErrSyntax)
  end.

Definition ParseUint (l : list ascii) : Z * option numError :=
  match l with
  | [] => (0, Some ErrSyntax)
  | _ => parseUintLoop l 0
  end.

(** [strconv.ParseInt(s, 10, 0)] *)
Definition ParseInt (s : string) : Z * option numError :=
  match bytes_of s with
  | [] => (0, Some ErrSyntax)
  | a :: r =>
      let neg := code a =? 45 in
      let digits := if (code a =? 43) || (code a =? 45) then r else a :: r in
      match ParseUint digits with
      | (_, Some ErrSyntax) => (0, Some ErrSyntax)
      | (un, _) =>
          let cutoff := 9223372036854775808 in
          if negb neg && (un >=? cutoff) then (cutoff - 1, Some ErrRange)
          else if neg && (un >? cutoff) then (- cutoff, Some ErrRange)
          else ((if neg then - un else un), None)
      end
  end.

(** [strconv.Atoi]: its fast path for short inputs computes the same
    value and the same kind of error as [ParseInt]. *)
Definition Atoi (s : string) : Z * option numError := ParseInt s.

End strconv.

(** ** Package [parser] *)

Module parser.

Import gostrings.

(** [StructuredError]: a single issue found by a tool. *)
Record StructuredError : Type := mkStructuredError {
  File : string;
  Line : Z;
  Column : Z;
  Severity : string;
  Rule : string;
  Message : string;
  Hint : string;
  Tool : string
}.

(** [ParseResult] *)
Record ParseResult : Type := mkParseResult {
  Passed : bool;
  Errors : list StructuredError
}.

(** The [Parser] interface: [Parse(ctx, stdout, stderr, exitCode)]
    returns a [ParseResult] pointer and an [error].  The outer [None] is
    a panic. *)
Definition Parser : Type :=
  string -> string -> Z -> option (option ParseResult * option error).

(** *** generic.go *)

Definition GenericParser_Parse : Parser := fun stdout stderr exitCode =>
  if exitCode =? 0 then Some (Some (mkParseResult true []), None)
  else
    let msg := stderr in
    let msg := if String.eqb (TrimSpace msg) "" then stdout else msg in
    let msg :=
      if String.eqb (TrimSpace msg) "" then "Tool failed with no output" else msg in
    Some (Some (mkParseResult false
                  [mkStructuredError "" 0 0 "error" "" (TrimSpace msg) "" "generic"]),
          None).

(** *** sarif.go *)

(** The part of the go-sarif report that [SarifParser.Parse] reads.
    Pointer fields and pointer elements are options. *)
Module sarif.
Record Region := { StartLine : option Z; StartColumn : option Z }.
Record ArtifactLocation := { URI : option string }.
Record PhysicalLocation := {
  ArtifactLocation_ : option ArtifactLocation;
  Region_ : option Region
}.
Record Location := { PhysicalLocation_ : option PhysicalLocation }.
Record Result := {
  Level : option string;
  RuleID : option string;
  Message_Text : option string;
  Locations : list (option Location)
}.
Record Run := {
  Tool_Driver : option string;  (* Tool.Driver, a pointer, and its Name *)
  Results : list (option Result)
}.
Record Report := { Runs : list (option Run) }.
End sarif.

Section Sarif.

(** [sarif.FromBytes] and [strings.ToLower] are library functions. *)
Variable sarif_FromBytes : string -> sarif.Report + error.
Variable ToLower : string -> string.

(** The location of a result: file, line, column. *)
Definition sarifLocation (outcome : sarif.Result)
  : option (string * Z * Z) :=
  match sarif.Locations outcome with
  | [] => Some ("", 0, 0)
  | loc :: _ =>
      loc ← loc;
      match sarif.PhysicalLocation_ loc with
      | None => Some ("", 0, 0)
      | Some pl =>
          let file :=
            match sarif.ArtifactLocation_ pl with
            | Some al => default "" (sarif.URI al)
            | None => ""
            end in
          let '(line, col) :=
            match sarif.Region_ pl with
            | Some rg =>
                (default 0 (sarif.StartLine rg), default 0 (sarif.StartColumn rg))
            | None => (0, 0)
            end in
          Some (file, line, col)
      end
  end.

(** One iteration of the inner loop: the diagnostic of a result and
    whether its level is "error". *)
Definition sarifOutcome (toolName : string) (outcome : option sarif.Result)
  : option (StructuredError * bool) :=
  outcome ← outcome;
  let algoLevel := default "info" (sarif.Level outcome) in
  let lvl := ToLower algoLevel in
  let '(severity, isError) :=
    if String.eqb lvl "error" then ("error", true)
    else if String.eqb lvl "warning" then ("warning", false)
    else ("info", false) in
  let ruleID := default "" (sarif.RuleID outcome) in
  let msg := default "" (sarif.Message_Text outcome) in
  '(file, line, col) ← sarifLocation outcome;
  Some (mkStructuredError file line col severity ruleID msg "" toolName, isError).

Definition sarifRun (acc : list StructuredError * bool) (run : option sarif.Run)
  : option (list StructuredError * bool) :=
  run ← run;
  toolName ← sarif.Tool_Driver run;
  foldl (fun acc outcome =>
           '(errors, failed) ← acc;
           '(e, isError) ← sarifOutcome toolName outcome;
           Some (errors ++ [e], failed || isError))
        (Some acc) (sarif.Results run).

Definition SarifParser_Parse : Parser := fun stdout stderr exitCode =>
  if String.eqb (TrimSpace stdout) "" then
    if negb (exitCode =? 0) then
      let msg := stderr in
      let msg :=
        if String.eqb msg "" then
          "Tool failed with non-zero exit code and empty stdout"
        else msg in
      Some (Some (mkParseResult false
                    [mkStructuredError "" 0 0 "error" "" msg "" "sarif"]),
            None)
    else Some (Some (mkParseResult true []), None)
  else
    match sarif_FromBytes stdout with
    | inr err => Some (None, Some (errors.Wrap "parsing SARIF JSON: " err))
    | inl report =>
        '(errors, failed) ←
          foldl (fun acc run => acc ← acc; sarifRun acc run)
                (Some ([], false)) (sarif.Runs report);
        Some (Some (mkParseResult (negb failed) errors), None)
    end.

End Sarif.

(** *** gotest.go *)

(** [testEvent]; its [Elapsed] field is decoded and never read. *)
Record testEvent : Type := mkTestEvent {
  Action : string;
  Package : string;
  Test : string;
  Output : string
}.

Section GoTest.

(** [bufio.Scanner] over the input (its lines and its final error),
    [json.Unmarshal] into a [testEvent], and the [%q] verb. *)
Variable scanLines : string -> list string * option error.
Variable json_Unmarshal : string -> testEvent + error.
Variable quote : string -> string.

Fixpoint parseEventsLoop (lines : list string) (events : list testEvent)
  : list testEvent + error :=
  match lines with
  | [] => inl events
  | l :: rest =>
      let line := TrimSpace l in
      if String.eqb line "" then parseEventsLoop rest events
      else match json_Unmarshal line with
           | inr err => inr (errors.Wrap ("line " +:+ quote line +:+ ": ") err)
           | inl ev => parseEventsLoop rest (events ++ [ev])
           end
  end.

Definition parseEvents (data : string) : list testEvent + error :=
  let '(lines, scanErr) := scanLines data in
  match parseEventsLoop lines [] with
  | inr err => inr err
  | inl events =>
      match scanErr with
      | Some err => inr (errors.Wrap "scanning input: " err)
      | None => inl events
      end
  end.

Definition outputKey (pkg test : string) : string := pkg +:+ "::" +:+ test.

Definition collectOutputs (events : list testEvent) : gmap string (list string) :=
  foldl (fun outputs ev =>
           if String.eqb (Action ev) "output" then
             let key := outputKey (Package ev) (Test ev) in
             <[key := default [] (outputs !! key) ++ [Output ev]]> outputs
           else outputs)
        ∅ events.

Definition failureMessage (outputs : gmap string (list string))
           (key fallback : string) : string :=
  let msg := TrimSpace (Join (default [] (outputs !! key))) in
  if String.eqb msg "" then fallback else msg.

(** First pass: failures of individual tests, and their packages. *)
Definition testFailures (outputs : gmap string (list string))
           (events : list testEvent) : list StructuredError * gset string :=
  foldl (fun '(errors, failedPackages) ev =>
           if negb (String.eqb (Action ev) "fail") || String.eqb (Test ev) "" then
             (errors, failedPackages)
           else
             let msg := failureMessage outputs (outputKey (Package ev) (Test ev))
                          ("test " +:+ Test ev +:+ " failed") in
             (errors ++ [mkStructuredError (Package ev) 0 0 "error" "" msg "" "go-test"],
              {[Package ev]} ∪ failedPackages))
        ([], ∅) events.

(** Second pass: failures of packages without a failed test. *)
Definition packageFailures (outputs : gmap string (list string))
           (failedPackages : gset string) (errors : list StructuredError)
           (events : list testEvent) : list StructuredError :=
  foldl (fun errors ev =>
           if negb (String.eqb (Action ev) "fail") || negb (String.eqb (Test ev) "") then
             errors
           else if bool_decide (Package ev ∈ failedPackages) then errors
           else
             let msg := failureMessage outputs (outputKey (Package ev) "")
                          ("package " +:+ Package ev +:+ " failed") in
             errors ++ [mkStructuredError (Package ev) 0 0 "error" "" msg "" "go-test"])
        errors events.

Definition GoTestParser_Parse : Parser := fun stdout stderr exitCode =>
  if String.eqb (TrimSpace stdout) "" then
    if negb (exitCode =? 0) then
      let msg := TrimSpace stderr in
      let msg :=
        if String.eqb msg "" then
          "go test failed with non-zero exit code and empty output"
        else msg in
      Some (Some (mkParseResult false
                    [mkStructuredError "" 0 0 "error" "" msg "" "go-test"]),
            None)
    else Some (Some (mkParseResult true []), None)
  else
    match parseEvents stdout with
    | inr err => Some (None, Some (errors.Wrap "parsing go test JSON output: " err))
    | inl events =>
        let outputs := collectOutputs events in
        let '(errors, failedPackages) := testFailures outputs events in
        let errors := packageFailures outputs failedPackages errors events in
        Some (Some (mkParseResult
                      (bool_decide (errors = []) && (exitCode =? 0)) errors),
              None)
    end.

End GoTest.

(** *** hints.go *)

(** [EnrichHints] fills an empty [Hint] from [hintDatabase], a table
    from rule identifiers to hints. *)
Definition EnrichHints (hintDatabase : gmap string string)
           (errors : list StructuredError) : list StructuredError :=
  (fun e =>
     if negb (String.eqb (Hint e) "") then e
     else match hintDatabase !! Rule e with
          | Some hint =>
              mkStructuredError (File e) (Line e) (Column e) (Severity e)
                                (Rule e) (Message e) hint (Tool e)
          | None => e
          end) <$> errors.

(** *** parser.go: the registry *)

Definition Registry : Type := gmap string Parser.

Definition Registry_Get (r : Registry) (name : string) : option Parser := r !! name.

Definition Registry_GetOrDefault (r : Registry) (name : string) : Parser :=
  match Registry_Get r name with
  | Some p => p
  | None => GenericParser_Parse
  end.

End parser.

(** ** Package [git] (service.go, diff.go) *)

Module git.

(** [FileDiff]: a per-file diff of the staged changes. *)
Record FileDiff : Type := mkFileDiff {
  Path : string;
  Content : string
}.

(** [FilterBySize]: the diffs kept and the diffs skipped. *)
Definition FilterBySize (diffs : list FileDiff) (maxSize : Z)
  : list FileDiff * list FileDiff :=
  if maxSize <=? 0 then (diffs, [])
  else
    foldl (fun '(included, skipped) d =>
             if Z.of_nat (String.length (Content d)) >? maxSize
             then (included, skipped ++ [d])
             else (included ++ [d], skipped))
          ([], []) diffs.

End git.

(** ** Package [llm] (prompt.go, validate.go, client.go) *)

Module llm.

Import gostrings.

Definition LF : ascii := ascii_of_nat 10.
Definition nl : string := String LF EmptyString.

(** The [Client] interface: [Review(ctx, prompt)]. *)
Definition Client : Type := string -> list parser.StructuredError * option error.

Definition promptTemplate (rules language diffs : string) : string :=
  "You are a code reviewer for a pre-commit hook. Review the following diff and identify issues. Respond ONLY with a JSON array matching the required schema."
  +:+ nl +:+ "If no issues, return: []" +:+ nl +:+ nl
  +:+ "Review rules: " +:+ rules +:+ nl
  +:+ "Language: " +:+ language +:+ nl +:+ nl
  +:+ diffs.

Definition BuildPrompt (userPrompt language : string) (diffs : list git.FileDiff)
  : string :=
  let language := if String.eqb language "" then "auto-detect" else language in
  let diffContent :=
    foldl (fun b d =>
             b +:+ "--- " +:+ git.Path d +:+ " ---" +:+ nl
               +:+ git.Content d +:+ nl +:+ nl)
          "" diffs in
  promptTemplate userPrompt language diffContent.

(** [parseHunkHeader]: start line and count of the "+" side. *)
Definition parseHunkHeader (header : string) : Z * Z :=
  let plusIdx := IndexByte header "+" in
  if plusIdx <? 0 then (0, 0)
  else
    let rest := from header (plusIdx + 1) in
    let endIdx := IndexByte rest " " in
    let endIdx := if endIdx <? 0 then Z.of_nat (String.length rest) else endIdx in
    let hunk := upto rest endIdx in
    let '(part0, part1) := SplitN2 hunk "," in
    let start := fst (strconv.Atoi part0) in
    let count :=
      match part1 with
      | Some p => fst (strconv.Atoi p)
      | None => 1
      end in
    (start, count).

(** The inner loop of [buildDiffLineMap]: the largest [start + count]
    over the lines that begin with "@@ ", from 0. *)
Definition hunkMaxLine (content : string) : Z :=
  foldl (fun maxLine line =>
           if HasPrefix line "@@ " then
             let '(start, count) := parseHunkHeader line in
             let end_ := goint.add start count in
             if end_ >? maxLine then end_ else maxLine
           else maxLine)
        0 (Split content LF).

Definition buildDiffLineMap (diffs : list git.FileDiff) : gmap string Z :=
  foldl (fun result d =>
           let maxLine := hunkMaxLine (git.Content d) in
           let maxLine := if maxLine =? 0 then 10000 else maxLine in
           <[git.Path d := maxLine]> result)
        ∅ diffs.

Definition ValidateLineNumbers (errors : list parser.StructuredError)
           (diffs : list git.FileDiff) : list parser.StructuredError :=
  let diffLines := buildDiffLineMap diffs in
  foldl (fun validated e =>
           match diffLines !! parser.File e with
           | None => validated
           | Some maxLine =>
               if (parser.Line e >? 0) && (parser.Line e >? maxLine) then validated
               else validated ++ [e]
           end)
        [] errors.

End llm.

(** ** Package [formatter] (types.go, json.go, cli.go) *)

Module formatter.

Import gostrings.

(** [GateResult]: the result of executing a single gate. *)
Record GateResult : Type := mkGateResult {
  Name : string;
  Type_ : string;
  Passed : bool;
  Blocking : bool;
  Skipped : bool;
  DurationMs : Z;
  Errors : list parser.StructuredError;
  SystemError : string;
  RawOutput : string
}.

(** The zero value of the struct. *)
Definition zeroGateResult : GateResult :=
  mkGateResult "" "" false false false 0 [] "" "".

(** [RunResult]: the aggregated result of all gates in a run. *)
Record RunResult : Type := mkRunResult {
  RunPassed : bool;
  RunDurationMs : Z;
  Gates : list GateResult
}.

(** *** json.go *)

(** The JSON document that [encoding/json] builds from a value, before
    it is laid out as text. *)
Inductive json : Type :=
| JNull
| JBool (b : bool)
| JNum (n : Z)
| JStr (s : string)
| JArr (items : list json)
| JObj (fields : list (string * json)).

(** A field tagged [omitempty] is left out when its value is empty. *)
Definition omitempty (name : string) (empty : bool) (v : json)
  : list (string * json) :=
  if empty then [] else [(name, v)].

Definition marshalStructuredError (e : parser.StructuredError) : json :=
  JObj ([("file", JStr (parser.File e)); ("line", JNum (parser.Line e))]
          ++ omitempty "column" (parser.Column e =? 0) (JNum (parser.Column e))
          ++ [("severity", JStr (parser.Severity e))]
          ++ omitempty "rule" (String.eqb (parser.Rule e) "") (JStr (parser.Rule e))
          ++ [("message", JStr (parser.Message e))]
          ++ omitempty "hint" (String.eqb (parser.Hint e) "") (JStr (parser.Hint e))
          ++ [("tool", JStr (parser.Tool e))]).

Definition marshalGateResult (g : GateResult) : json :=
  JObj ([("name", JStr (Name g)); ("type", JStr (Type_ g));
         ("passed", JBool (Passed g)); ("blocking", JBool (Blocking g))]
          ++ omitempty "skipped" (negb (Skipped g)) (JBool (Skipped g))
          ++ [("duration_ms", JNum (DurationMs g))]
          ++ omitempty "errors" (bool_decide (Errors g = []))
               (JArr (marshalStructuredError <$> Errors g))
          ++ omitempty "system_error" (String.eqb (SystemError g) "")
               (JStr (SystemError g))
          ++ omitempty "raw_output" (String.eqb (RawOutput g) "")
               (JStr (RawOutput g))).

(** The [Gates] slice of a [RunResult] built by the engine is nil
    exactly when it is empty; a nil slice is encoded as [null]. *)
Definition marshalRunResult (r : RunResult) : json :=
  JObj [("passed", JBool (RunPassed r));
        ("duration_ms", JNum (RunDurationMs r));
        ("gates", match Gates r with
                  | [] => JNull
                  | gs => JArr (marshalGateResult <$> gs)
                  end)].

(** [JSONFormatter.Format]: [MarshalIndent] is the composition of the
    document above with the text layout [indent] of the library; it
    returns no error on these types. *)
Definition JSONFormatter_Format (indent : json -> string) (result : RunResult)
  : string :=
  indent (marshalRunResult result).

(** The value of a field of a JSON object, when it is present. *)
Definition field (name : string) (j : json) : option json :=
  match j with
  | JObj fields => snd <$> List.find (fun kv => String.eqb (fst kv) name) fields
  | _ => None
  end.

(** *** cli.go *)

Definition ESC : string := String (ascii_of_nat 27) EmptyString.
Definition LF : string := String (ascii_of_nat 10) EmptyString.

Definition ansiReset : string := ESC +:+ "[0m".
Definition ansiBold : string := ESC +:+ "[1m".
Definition ansiRed : string := ESC +:+ "[31m".
Definition ansiGreen : string := ESC +:+ "[32m".
Definition ansiYellow : string := ESC +:+ "[33m".
Definition ansiCyan : string := ESC +:+ "[36m".
Definition ansiDim : string := ESC +:+ "[2m".

(** The verb [%d] *)
Definition fmt_d (n : Z) : string := NilZero.string_of_int (Z.to_int n).

Record CLIFormatter : Type := mkCLIFormatter {
  Color : bool;
  Verbose : bool
}.

Definition colorize (f : CLIFormatter) (s code : string) : string :=
  if negb (Color f) then s else code +:+ s +:+ ansiReset.

Definition gateIcon (f : CLIFormatter) (g : GateResult) : string :=
  if Skipped g then "⏭️"
  else if negb (String.eqb (SystemError g) "") then "💥"
  else if Passed g then colorize f "✅" ansiGreen
  else colorize f "❌" ansiRed.

Definition writeError (f : CLIFormatter) (b : string) (e : parser.StructuredError)
  : string :=
  let loc :=
    if negb (String.eqb (parser.File e) "") then
      let loc := parser.File e in
      let loc :=
        if parser.Line e >? 0 then
          let loc := loc +:+ ":" +:+ fmt_d (parser.Line e) in
          if parser.Column e >? 0 then loc +:+ ":" +:+ fmt_d (parser.Column e)
          else loc
        else loc in
      colorize f loc ansiCyan +:+ " "
    else "" in
  let '(sevIcon, sevColor) :=
    if String.eqb (parser.Severity e) "error" then ("❌", ansiRed)
    else if String.eqb (parser.Severity e) "warning" then ("⚠️", ansiYellow)
    else ("ℹ️", ansiDim) in
  let rule :=
    if negb (String.eqb (parser.Rule e) "") then
      colorize f ("[" +:+ parser.Rule e +:+ "]") ansiDim +:+ " "
    else "" in
  let b := b +:+ "    " +:+ sevIcon +:+ " " +:+ loc +:+ rule
             +:+ colorize f (parser.Message e) sevColor +:+ LF in
  if negb (String.eqb (parser.Hint e) "") then
    b +:+ "      💡 " +:+ parser.Hint e +:+ LF
  else b.

(** The body of the loop over the gates in [CLIFormatter.Format]. *)
Definition writeGate (f : CLIFormatter) (b : string) (g : GateResult) : string :=
  let duration := fmt_d (DurationMs g) +:+ "ms" in
  let b := b +:+ "  " +:+ gateIcon f g +:+ " " +:+ colorize f (Name g) ansiBold
             +:+ " " +:+ colorize f duration ansiDim +:+ LF in
  let b :=
    if negb (String.eqb (SystemError g) "") then
      b +:+ "    💥 " +:+ colorize f (SystemError g) ansiRed +:+ LF
    else b in
  let b := foldl (writeError f) b (Errors g) in
  if Verbose f && negb (String.eqb (RawOutput g) "") then
    let b := b +:+ LF +:+ "    " +:+ colorize f "--- raw output ---" ansiDim +:+ LF in
    foldl (fun b line => b +:+ "    " +:+ colorize f line ansiDim +:+ LF)
          b (Split (RawOutput g) (ascii_of_nat 10))
  else b.

Definition CLIFormatter_Format (f : CLIFormatter) (result : RunResult) : string :=
  let '(icon, status) :=
    if negb (RunPassed result) then (colorize f "❌" ansiRed, "failed")
    else (colorize f "✅" ansiGreen, "passed") in
  let b := LF +:+ icon +:+ " " +:+ colorize f "Gatekeeper" ansiBold +:+ " — "
             +:+ status +:+ " in " +:+ fmt_d (RunDurationMs result) +:+ "ms"
             +:+ LF +:+ LF in
  foldl (writeGate f) b (Gates result).

End formatter.

(** ** Package [config] (config.go): the gate configuration *)

Module config.

(** [GateType] is a string type. *)
Definition GateType : Type := string.

Definition GateTypeExec : GateType := "exec".
Definition GateTypeScript : GateType := "script".
Definition GateTypeLLM : GateType := "llm".

Record Gate : Type := mkGate {
  Name : string;
  Type_ : GateType;
  Command : string;
  Path : string;
  Container : string;
  Parser : string;
  Timeout : Z;                (* time.Duration, in nanoseconds *)
  Blocking : option bool;     (* *bool *)
  OnError : string;
  Only : list string;
  Except : list string;
  Writable : bool;
  Provider : string;
  Mode : string;
  Prompt : string;
  MaxFileSize : string
}.

(** [IsBlocking]: true unless explicitly set. *)
Definition IsBlocking (g : Gate) : bool :=
  match Blocking g with
  | Some b => b
  | None => true
  end.

End config.

(** ** Package [pool] (runtime.go, pool.go, mounts.go, executor.go) *)

Module pool.

Import gostrings.

(** [ExecResult]: the result of a container execution. *)
Record ExecResult : Type := mkExecResult {
  Stdout : string;
  Stderr : string;
  ExitCode : Z;
  Duration : Z
}.

Definition labelManaged : string := "gatekeeper.managed".
Definition labelPoolKey : string := "gatekeeper.pool_key".
Definition labelImage : string := "gatekeeper.image".
Definition labelProject : string := "gatekeeper.project".
Definition labelLastUsed : string := "gatekeeper.last_used".
Definition labelWritable : string := "gatekeeper.writable".

(** *** The values exchanged with the container runtime *)

Record Mount : Type := mkMount {
  MountType : string;
  Source : string;
  Target : string;
  ReadOnly : bool
}.

Record Config : Type := mkConfig {
  Image : string;
  Entrypoint : list string;
  Labels : gmap string string;
  WorkingDir : string;
  User : string
}.

Record HostConfig : Type := mkHostConfig { Mounts : list Mount }.

Record Summary : Type := mkSummary {
  ID : string;
  SummaryLabels : gmap string string
}.

(** [container.ListOptions] with its [label] and [status] filters. *)
Record ListOptions : Type := mkListOptions {
  All : bool;
  FilterLabel : string;
  FilterStatus : option string;
  Limit : Z
}.

Record ExecOptions : Type := mkExecOptions {
  Cmd : list string;
  AttachStdout : bool;
  AttachStderr : bool;
  Tty : bool
}.

(** The stream of an image pull: what reading it to the end and
    closing it return. *)
Record PullReader : Type := mkPullReader {
  copyErr : option error;
  closeErr : option error
}.

(** The attached stream of an exec session, as [stdcopy.StdCopy]
    demultiplexes it: the bytes of each side and the error of the copy. *)
Record HijackedResponse : Type := mkHijackedResponse {
  demuxStdout : string;
  demuxStderr : string;
  demuxErr : option error
}.

(** The [ContainerRuntime] interface over a runtime whose state is [S]. *)
Record ContainerRuntime (S : Type) : Type := mkContainerRuntime {
  Ping : S -> option error * S;
  ImagePull : string -> S -> (option PullReader * option error) * S;
  ContainerCreate : Config -> HostConfig -> S -> (string * option error) * S;
  ContainerStart : string -> S -> option error * S;
  ContainerList : ListOptions -> S -> (list Summary * option error) * S;
  ContainerRemove : string -> bool -> S -> option error * S;
  ContainerExecCreate : string -> ExecOptions -> S -> (string * option error) * S;
  ContainerExecAttach : string -> bool -> S -> (HijackedResponse * option error) * S;
  ContainerExecInspect : string -> S -> (Z * option error) * S
}.

Arguments Ping {S}.
Arguments ImagePull {S}.
Arguments ContainerCreate {S}.
Arguments ContainerStart {S}.
Arguments ContainerList {S}.
Arguments ContainerRemove {S}.
Arguments ContainerExecCreate {S}.
Arguments ContainerExecAttach {S}.
Arguments ContainerExecInspect {S}.

(** *** mounts.go *)

Definition projectMount (path : string) (writable : bool) : Mount :=
  mkMount "bind" path "/workspace" (negb writable).

Definition tmpMount : Mount := mkMount "tmpfs" "" "/tmp" false.

(** *** pool.go *)

(** The verb [%t] *)
Definition fmt_t (b : bool) : string := if b then "true" else "false".

Definition hexDigit (n : Z) : ascii :=
  ascii_of_nat (Z.to_nat (if n <? 10 then 48 + n else 87 + n)).

(** [hex.EncodeToString] *)
Fixpoint hex_EncodeToString (s : string) : string :=
  match s with
  | EmptyString => EmptyString
  | String a r =>
      String (hexDigit (code a / 16))
             (String (hexDigit (code a mod 16)) (hex_EncodeToString r))
  end.

(** The string that [computePoolKey] digests. *)
Definition poolKeyData (image projectPath : string) (writable : bool) : string :=
  image +:+ "|" +:+ projectPath +:+ "|" +:+ fmt_t writable.

Section Pool.

(** [sha256.Sum256] is a library function; [formatRFC3339] is
    [Time.Format(time.RFC3339)] on a clock reading. *)
Variable sha256_Sum256 : string -> string.
Variable formatRFC3339 : Z -> string.

Definition computePoolKey (image projectPath : string) (writable : bool)
  : string :=
  let data := poolKeyData image projectPath writable in
  let hash := sha256_Sum256 data in
  hex_EncodeToString hash.

Context {S : Type} (runtime : ContainerRuntime S).

Definition findExistingContainer (key : string) (s : S)
  : (string * option error) * S :=
  let opts := mkListOptions false (labelPoolKey +:+ "=" +:+ key) (Some "running") 1 in
  match ContainerList runtime opts s with
  | ((_, Some err), s) => (("", Some err), s)
  | ((c :: _, None), s) => ((ID c, None), s)
  | (([], None), s) => (("", None), s)
  end.

(** [createContainer]; [now] is the clock reading and [userString]
    what [getUserString] returns. *)
Definition createContainer (now : Z) (userString : string * option error)
           (img projectPath : string) (writable : bool) (key : string) (s : S)
  : (string * option error) * S :=
  match ImagePull runtime img s with
  | ((_, Some err), s) =>
      (("", Some (errors.Wrap ("pulling image " +:+ img +:+ ": ") err)), s)
  | ((reader, None), s) =>
      let pulled :=
        match reader with
        | None => None
        | Some rd =>
            match copyErr rd with
            | Some err => Some (errors.Wrap "reading image pull response: " err)
            | None =>
                match closeErr rd with
                | Some err => Some (errors.Wrap "closing image pull reader: " err)
                | None => None
                end
            end
        end in
      match pulled with
      | Some err => (("", Some err), s)
      | None =>
          let labels : gmap string string :=
            <[labelLastUsed := formatRFC3339 now]>
              (<[labelWritable := fmt_t writable]>
                 (<[labelProject := projectPath]>
                    (<[labelImage := img]>
                       (<[labelPoolKey := key]>
                          (<[labelManaged := "true"]> ∅))))) in
          let config user :=
            mkConfig img ["sleep"; "infinity"] labels "/workspace" user in
          let hostConfig :=
            mkHostConfig [projectMount projectPath writable; tmpMount] in
          let create user s :=
            match ContainerCreate runtime (config user) hostConfig s with
            | ((_, Some err), s) =>
                (("", Some (errors.Wrap "creating container: " err)), s)
            | ((id, None), s) =>
                match ContainerStart runtime id s with
                | (Some err, s) =>
                    let '(_, s) := ContainerRemove runtime id true s in
                    (("", Some (errors.Wrap "starting container: " err)), s)
                | (None, s) => ((id, None), s)
                end
            end in
          if writable then
            match userString with
            | (_, Some err) =>
                (("", Some (errors.Wrap
                              "getting current user for writable mount: " err)), s)
            | (uidGid, None) => create uidGid s
            end
          else create "" s
      end
  end.

(** [Pool.GetOrCreate] *)
Definition GetOrCreate (now : Z) (userString : string * option error)
           (img projectPath : string) (writable : bool) (s : S)
  : (string * option error) * S :=
  let key := computePoolKey img projectPath writable in
  match findExistingContainer key s with
  | ((_, Some err), s) =>
      (("", Some (errors.Wrap "finding existing container: " err)), s)
  | ((existingID, None), s) =>
      if negb (String.eqb existingID "") then ((existingID, None), s)
      else createContainer now userString img projectPath writable key s
  end.

(** *** executor.go *)

(** What the [select] of [Executor.Run] receives first. *)
Inductive waitOutcome : Type :=
| OutputDone
| CtxDone (err : error)
| TimedOut.

Definition DeadlineExceeded : error := errors.New "context deadline exceeded".

(** [Executor.Run]; [elapsed] is the clock reading at the end. *)
Definition Executor_Run (wait : waitOutcome) (elapsed : Z)
           (containerID command : string) (timeout : Z) (s : S)
  : (option ExecResult * option error) * S :=
  let execConfig := mkExecOptions ["sh"; "-c"; command] true true false in
  match ContainerExecCreate runtime containerID execConfig s with
  | ((_, Some err), s) => ((None, Some (errors.Wrap "creating exec: " err)), s)
  | ((execID, None), s) =>
      match ContainerExecAttach runtime execID false s with
      | ((_, Some err), s) =>
          ((None, Some (errors.Wrap "attaching to exec: " err)), s)
      | ((resp, None), s) =>
          match wait with
          | CtxDone err => ((None, Some err), s)
          | TimedOut => ((None, Some DeadlineExceeded), s)
          | OutputDone =>
              match demuxErr resp with
              | Some err => ((None, Some (errors.Wrap "reading output: " err)), s)
              | None =>
                  match ContainerExecInspect runtime execID s with
                  | ((_, Some err), s) =>
                      ((None, Some (errors.Wrap "inspecting exec: " err)), s)
                  | ((exitCode, None), s) =>
                      ((Some (mkExecResult (demuxStdout resp) (demuxStderr resp)
                                           exitCode elapsed),
                        None), s)
                  end
              end
          end
      end
  end.

End Pool.

(** *** A container engine

    The runtime behind the port in production is the Docker engine.
    The engine below keeps what the pool relies on: containers carry the
    labels given at creation, listing filters on a label and on the
    running status, and an exec session runs a command in a container.
    The engine has no operation that changes the labels of an existing
    container. *)

Record Container : Type := mkContainer {
  cID : string;
  cLabels : gmap string string;
  cRunning : bool
}.

Record Engine : Type := mkEngine {
  containers : list Container;
  execs : list (string * list string);  (* exec session and its command *)
  created : nat                         (* identifiers handed out so far *)
}.

Definition emptyEngine : Engine := mkEngine [] [] 0.

Definition freshID (pre : string) (n : nat) : string :=
  pre +:+ NilZero.string_of_int (Z.to_int (Z.of_nat n)).

(** A filter "key=value" on the labels of a container. *)
Definition matchesLabel (filter : string) (c : Container) : bool :=
  let i := IndexByte filter "=" in
  if i <? 0 then bool_decide (is_Some (cLabels c !! filter))
  else bool_decide (cLabels c !! upto filter i = Some (from filter (i + 1))).

Definition listed (opts : ListOptions) (c : Container) : bool :=
  matchesLabel (FilterLabel opts) c
  && match FilterStatus opts with
     | Some st => Bool.eqb (String.eqb st "running") (cRunning c)
     | None => All opts || cRunning c
     end.

Definition findContainer (id : string) (e : Engine) : option Container :=
  List.find (fun c => String.eqb (cID c) id) (containers e).

Definition noSuch (what id : string) : error :=
  errors.New ("No such " +:+ what +:+ ": " +:+ id).

Section EngineRuntime.

(** What a command writes and how it exits. *)
Variable behaviour : list string -> string * string * Z.

Definition engineRuntime : ContainerRuntime Engine :=
  {| Ping := fun e => (None, e);
     ImagePull := fun _ e => ((Some (mkPullReader None None), None), e);
     ContainerCreate := fun config _ e =>
       let id := freshID "c" (created e) in
       ((id, None),
        mkEngine (containers e ++ [mkContainer id (Labels config) false])
                 (execs e) (Datatypes.S (created e)));
     ContainerStart := fun id e =>
       match findContainer id e with
       | None => (Some (noSuch "container" id), e)
       | Some _ =>
           (None,
            mkEngine ((fun c => if String.eqb (cID c) id
                                then mkContainer (cID c) (cLabels c) true
                                else c) <$> containers e)
                     (execs e) (created e))
       end;
     ContainerList := fun opts e =>
       let found := List.filter (listed opts) (containers e) in
       let found :=
         if 0 <? Limit opts then take (Z.to_nat (Limit opts)) found else found in
       (((fun c => mkSummary (cID c) (cLabels c)) <$> found, None), e);
     ContainerRemove := fun id _ e =>
       match findContainer id e with
       | None => (Some (noSuch "container" id), e)
       | Some _ =>
           (None,
            mkEngine (List.filter (fun c => negb (String.eqb (cID c) id))
                                  (containers e))
                     (execs e) (created e))
       end;
     ContainerExecCreate := fun id opts e =>
       match findContainer id e with
       | None => (("", Some (noSuch "container" id)), e)
       | Some c =>
           if cRunning c then
             let xid := freshID "x" (created e) in
             ((xid, None),
              mkEngine (containers e) (execs e ++ [(xid, Cmd opts)])
                       (Datatypes.S (created e)))
           else (("", Some (errors.New "container is not running")), e)
       end;
     ContainerExecAttach := fun xid _ e =>
       match List.find (fun x => String.eqb (fst x) xid) (execs e) with
       | None => ((mkHijackedResponse "" "" None, Some (noSuch "exec instance" xid)), e)
       | Some (_, cmd) =>
           let '(out, err, _) := behaviour cmd in
           ((mkHijackedResponse out err None, None), e)
       end;
     ContainerExecInspect := fun xid e =>
       match List.find (fun x => String.eqb (fst x) xid) (execs e) with
       | None => ((0, Some (noSuch "exec instance" xid)), e)
       | Some (_, cmd) => ((snd (behaviour cmd), None), e)
       end |}.

(** The labels of a container of the engine. *)
Definition labelsOf (id : string) (e : Engine) : option (gmap string string) :=
  cLabels <$> findContainer id e.

(** The [last_used] label of a container. *)
Definition lastUsed (id : string) (e : Engine) : option string :=
  labels ← labelsOf id e; labels !! labelLastUsed.

End EngineRuntime.

End pool.

(** ** Package [gate] (gate.go, filter.go, container.go, llm.go, skipped.go) *)

Module gate.

Import gostrings.

(** The [Gate] interface: [Execute(ctx)] returns a [GateResult] pointer
    and an [error]. *)
Definition ExecuteReturn : Type := option formatter.GateResult * option error.

(** *** filter.go *)

Section Filter.

(** [filepath.Match(pattern, name)] (its error is discarded by the
    source) and [filepath.Base]. *)
Variable filepath_Match : string -> string -> bool.
Variable filepath_Base : string -> string.

Definition matchesPattern (file : string) (patterns : list string) : bool :=
  let base := filepath_Base file in
  existsb (fun p => filepath_Match p file || filepath_Match p base) patterns.

Definition excludeFiles (files patterns : list string) : list string :=
  List.filter (fun f => negb (matchesPattern f patterns)) files.

Definition matchesAny (files patterns : list string) : bool :=
  existsb (fun f => matchesPattern f patterns) files.

Definition ShouldRun (cfg : config.Gate) (stagedFiles : list string) : bool :=
  if (List.length (config.Only cfg) =? 0)%nat && (List.length (config.Except cfg) =? 0)%nat
  then true
  else
    let filtered :=
      if (0 <? List.length (config.Except cfg))%nat
      then excludeFiles stagedFiles (config.Except cfg)
      else stagedFiles in
    if (0 <? List.length (config.Only cfg))%nat
    then matchesAny filtered (config.Only cfg)
    else (0 <? List.length filtered)%nat.

Definition FilterGates (gates : list config.Gate) (stagedFiles : list string)
  : list config.Gate :=
  if (List.length stagedFiles =? 0)%nat then gates
  else
    foldl (fun result g => if ShouldRun g stagedFiles then result ++ [g] else result)
          [] gates.

End Filter.

(** *** container.go *)

(** The [PoolManager] port: [GetOrCreate(ctx, img, projectPath, writable)]. *)
Definition PoolManager : Type := string -> string -> bool -> string * option error.

(** The [CommandExecutor] port: [Run(ctx, containerID, command, timeout)]. *)
Definition CommandExecutor : Type :=
  string -> string -> Z -> option pool.ExecResult * option error.

Record ContainerGate : Type := mkContainerGate {
  cfg : config.Gate;
  pool : PoolManager;
  executor : CommandExecutor;
  parser_ : parser.Parser;
  project : string
}.

Definition shellQuote (s : string) : string :=
  "'" +:+ ReplaceAllByte s "'" "'\''" +:+ "'".

Definition buildCommand (g : ContainerGate) : string :=
  if String.eqb (config.Type_ (cfg g)) config.GateTypeScript
  then "sh " +:+ shellQuote (config.Path (cfg g))
  else if String.eqb (config.Type_ (cfg g)) config.GateTypeExec
       then config.Command (cfg g)
       else config.Command (cfg g).

Definition second : Z := 1000000000.

(** [ContainerGate.Execute].  [hintDatabase] is the table of package
    [parser]; [elapsed] is the reading of the clock, in milliseconds, at
    the return that is taken.  [None] is a panic: a port that returns
    neither a value nor an error. *)
Definition ContainerGate_Execute (hintDatabase : gmap string string)
           (elapsed : Z) (g : ContainerGate) : option ExecuteReturn :=
  let result name type_ passed errs systemError rawOutput :=
    formatter.mkGateResult name type_ passed (config.IsBlocking (cfg g)) false
                           elapsed errs systemError rawOutput in
  let name := config.Name (cfg g) in
  let type_ := config.Type_ (cfg g) in
  match pool g (config.Container (cfg g)) (project g) (config.Writable (cfg g)) with
  | (_, Some err) =>
      Some (Some (result name type_ false []
                    ("container setup failed: " +:+ errors.Error err) ""), None)
  | (containerID, None) =>
      let command := buildCommand g in
      let timeout := config.Timeout (cfg g) in
      let timeout := if timeout =? 0 then 30 * second else timeout in
      match executor g containerID command timeout with
      | (_, Some err) =>
          Some (Some (result name type_ false []
                        ("execution failed: " +:+ errors.Error err) ""), None)
      | (None, None) => None
      | (Some execResult, None) =>
          let rawOutput := pool.Stdout execResult in
          parsed ← parser_ g (pool.Stdout execResult)
                             (pool.Stderr execResult)
                             (pool.ExitCode execResult);
          match parsed with
          | (_, Some err) =>
              Some (Some (result name type_ false []
                            ("parser error: " +:+ errors.Error err) rawOutput), None)
          | (None, None) => None
          | (Some parsed, None) =>
              Some (Some (result name type_ (parser.Passed parsed)
                            (parser.EnrichHints hintDatabase (parser.Errors parsed))
                            "" rawOutput), None)
          end
      end
  end.

(** *** llm.go *)

(** The part of [git.Service] that the gate calls: [StagedDiff(ctx)]. *)
Definition StagedDiffPort : Type := list git.FileDiff * option error.

Record LLMGate : Type := mkLLMGate {
  llm_cfg : config.Gate;
  client : llm.Client;
  gitSvc : StagedDiffPort
}.

Section MaxFileSize.

(** [strings.ToUpper] is a library function. *)
Variable ToUpper : string -> string.

Definition parseMaxFileSize (s : string) : Z :=
  let s := TrimSpace s in
  if String.eqb s "" then 0
  else
    let s := ToUpper s in
    let len := Z.of_nat (String.length s) in
    let '(multiplier, numStr) :=
      if HasSuffix s "MB" then (1024 * 1024, upto s (len - 2))
      else if HasSuffix s "KB" then (1024, upto s (len - 2))
      else (1, s) in
    match strconv.Atoi (TrimSpace numStr) with
    | (_, Some _) => 0
    | (n, None) => if n <=? 0 then 0 else goint.mul n multiplier
    end.

(** [LLMGate.Execute] *)
Definition LLMGate_Execute (elapsed : Z) (g : LLMGate) : ExecuteReturn :=
  let cfg := llm_cfg g in
  let result passed errs systemError :=
    formatter.mkGateResult (config.Name cfg)
                           (config.Type_ cfg)
                           passed (config.IsBlocking cfg) false elapsed
                           errs systemError "" in
  match gitSvc g with
  | (_, Some err) =>
      (Some (result false [] ("failed to get staged diffs: " +:+ errors.Error err)),
       None)
  | (diffs, None) =>
      if (List.length diffs =? 0)%nat then (Some (result true [] ""), None)
      else
        let maxSize := parseMaxFileSize (config.MaxFileSize cfg) in
        let filtered := fst (git.FilterBySize diffs maxSize) in
        if (List.length filtered =? 0)%nat then (Some (result true [] ""), None)
        else
          let prompt := llm.BuildPrompt (config.Prompt cfg) "" filtered in
          match client g prompt with
          | (_, Some err) =>
              (Some (result false [] ("LLM review failed: " +:+ errors.Error err)),
               None)
          | (errs, None) =>
              let validated := llm.ValidateLineNumbers errs filtered in
              let validated :=
                (fun e =>
                   parser.mkStructuredError
                     (parser.File e) (parser.Line e) (parser.Column e)
                     (parser.Severity e) (parser.Rule e) (parser.Message e)
                     (parser.Hint e) (config.Provider cfg)) <$> validated in
              (Some (result (List.length validated =? 0)%nat validated ""), None)
          end
  end.

End MaxFileSize.

(** *** skipped.go *)

Record skippedGate : Type := mkSkippedGate {
  name : string;
  gateType : string
}.

Definition skippedGate_Execute (g : skippedGate) : ExecuteReturn :=
  (Some (formatter.mkGateResult (name g) (gateType g) true false true 0 [] "" ""),
   None).

End gate.

(** ** Package [runner] (engine.go) *)

Module runner.

(** A gate of the [gate.Gate] interface whose [Execute] returns: the
    argument tells whether the context is cancelled when the gate
    returns. *)
Definition Gate : Type := bool -> gate.ExecuteReturn.

Record indexedResult : Type := mkIndexedResult {
  idx : nat;
  result : option formatter.GateResult;
  err : option error
}.

(** *** Fan-out

    A goroutine of [RunAll] first checks the context, then executes its
    gate, sends the outcome and, under fail-fast, cancels the context.
    An interleaving is a list of events: a goroutine taking its next
    step, or the caller's context being cancelled. *)

Inductive pc : Type := Ready | Running | Done.

Inductive event : Type :=
| Step (i : nat)
| CancelParent.

Record state : Type := mkState {
  cancelled : bool;
  resultsCh : list indexedResult;
  pcs : list pc
}.

Definition failsFast (failFast : bool) (r : option formatter.GateResult) : bool :=
  match r with
  | Some r => failFast && negb (formatter.Passed r) && formatter.Blocking r
  | None => false
  end.

Definition step (gates : list Gate) (failFast : bool) (st : state) (ev : event)
  : state :=
  match ev with
  | CancelParent => mkState true (resultsCh st) (pcs st)
  | Step i =>
      match pcs st !! i, gates !! i with
      | Some Ready, Some _ =>
          if cancelled st
          then mkState (cancelled st) (resultsCh st) (<[i := Done]> (pcs st))
          else mkState (cancelled st) (resultsCh st) (<[i := Running]> (pcs st))
      | Some Running, Some g =>
          let '(r, e) := g (cancelled st) in
          mkState (cancelled st || failsFast failFast r)
                  (resultsCh st ++ [mkIndexedResult i r e])
                  (<[i := Done]> (pcs st))
      | _, _ => st
      end
  end.

(** [wg.Wait()]: every goroutine runs to its end. *)
Definition complete (n : nat) : list event :=
  flat_map (fun i => [Step i; Step i]) (seq 0 n).

(** The content of the results channel when it is closed. *)
Definition fanOut (ctxCancelled : bool) (sched : list event) (gates : list Gate)
           (failFast : bool) : list indexedResult :=
  let init := mkState ctxCancelled [] (replicate (List.length gates) Ready) in
  resultsCh (foldl (step gates failFast)
                   (foldl (step gates failFast) init sched)
                   (complete (List.length gates))).

(** *** Fan-in *)

Definition placeholder (e : error) : formatter.GateResult :=
  formatter.mkGateResult "" "" false false false 0 [] (errors.Error e) "".

Definition collect (n : nat) (ch : list indexedResult)
  : list (option formatter.GateResult) :=
  foldl (fun collected ir =>
           match result ir, err ir with
           | Some r, _ => <[idx ir := Some r]> collected
           | None, Some e => <[idx ir := Some (placeholder e)]> collected
           | None, None => collected
           end)
        (replicate n None) ch.

Definition blocks (r : formatter.GateResult) : bool :=
  formatter.Blocking r
  && (negb (formatter.Passed r) || negb (String.eqb (formatter.SystemError r) "")).

Definition build (elapsed : Z) (collected : list (option formatter.GateResult))
  : formatter.RunResult :=
  foldl (fun runResult r =>
           match r with
           | None => runResult
           | Some r =>
               formatter.mkRunResult
                 (if blocks r then false else formatter.RunPassed runResult)
                 (formatter.RunDurationMs runResult)
                 (formatter.Gates runResult ++ [r])
           end)
        (formatter.mkRunResult true elapsed []) collected.

(** [Engine.RunAll].  [ctxCancelled] tells whether the caller's context
    is cancelled at the call, [sched] is the interleaving and [elapsed]
    the reading of the clock.  The progress tracker only writes to its
    own stream. *)
Definition RunAll (ctxCancelled : bool) (sched : list event) (elapsed : Z)
           (gates : list Gate) (failFast : bool) (gateNames : list string)
  : option formatter.RunResult * option error :=
  if (List.length gates =? 0)%nat then
    (Some (formatter.mkRunResult true 0 []), None)
  else
    let ch := fanOut ctxCancelled sched gates failFast in
    let collected := collect (List.length gates) ch in
    (Some (build elapsed collected), None).

End runner.

(** ** Package [commands] (pipeline.go, run.go, dryrun.go, pipeline_run.go) *)

Module commands.

Record PipelineOpts : Type := mkPipelineOpts {
  DryRun : bool;
  JSON : bool;
  Verbose : bool;
  NoColor : bool;
  FailFast : bool;
  Skip : list string;
  SkipLLM : bool
}.

(** What the pipeline does to the outside, in order. *)
Inductive effect : Type :=
| Stashed
| StashPopped
| CleanedWritableFiles
| Stdout (text : string)
| Stderr (text : string).

(** The pipeline and the answers of its ports.  [G] is the type of
    the gate instances. *)
Record Pipeline (G : Type) : Type := mkPipeline {
  LoadConfig : option (list config.Gate) * option error;
  GlobalConfig : bool;                                  (* is it non-nil *)
  CheckDocker : option error;
  Git_Stash : bool * option error;
  Git_StashPop : option error;
  Git_StagedFiles : list string * option error;
  Git_CleanWritableFiles : option error;
  CreateAll : list config.Gate -> list G * option error;
  RunAll : list G -> bool -> list string
           -> option formatter.RunResult * option error;
  stagedFiles : option (list string)
}.

Arguments LoadConfig {G}.
Arguments GlobalConfig {G}.
Arguments CheckDocker {G}.
Arguments Git_Stash {G}.
Arguments Git_StashPop {G}.
Arguments Git_StagedFiles {G}.
Arguments Git_CleanWritableFiles {G}.
Arguments CreateAll {G}.
Arguments RunAll {G}.
Arguments stagedFiles {G}.

Definition ErrGatesFailed : error := errors.ErrGatesFailed.

(** [filterSkippedGates] *)
Definition filterSkippedGates (gates : list config.Gate) (skipNames : list string)
           (skipLLM : bool) : list config.Gate :=
  if (List.length skipNames =? 0)%nat && negb skipLLM then gates
  else
    let skipSet : gset string := list_to_set skipNames in
    foldl (fun result g =>
             if bool_decide (config.Name g ∈ skipSet) then result
             else if skipLLM && String.eqb (config.Type_ g) config.GateTypeLLM
                  then result
                  else result ++ [g])
          [] gates.

(** Step 13 of [Pipeline.Execute]: the error returned for a result. *)
Definition exitStatus (opts : PipelineOpts) (result : formatter.RunResult)
  : option error :=
  if DryRun opts then None
  else if negb (formatter.RunPassed result) then Some ErrGatesFailed
  else None.

Section Execute.

Variable filepath_Match : string -> string -> bool.
Variable filepath_Base : string -> string.
Variable indent : formatter.json -> string.

Context {G : Type}.

(** The steps of [Pipeline.Execute] after the stash: the returned
    error and the effects.  [None] is a panic. *)
Definition afterStash (p : Pipeline G) (opts : PipelineOpts)
           (gates0 : list config.Gate) : option (option error * list effect) :=
  let staged :=
    match stagedFiles p with
    | Some files => (files, None)
    | None => Git_StagedFiles p
    end in
  match staged with
  | (_, Some err) => Some (Some (errors.Wrap "getting staged files: " err), [])
  | (files, None) =>
      let gates := filterSkippedGates gates0 (Skip opts) (SkipLLM opts) in
      let gates := gate.FilterGates filepath_Match filepath_Base gates files in
      if (List.length gates =? 0)%nat then
        Some (None, [Stderr ("✅ No gates to run" +:+ formatter.LF)])
      else
        match CreateAll p gates with
        | (_, Some err) => Some (Some err, [])
        | (gateInstances, None) =>
            let gateNames := config.Name <$> gates in
            match RunAll p gateInstances (FailFast opts) gateNames with
            | (_, Some err) => Some (Some err, [])
            | (None, None) => None
            | (Some result, None) =>
                let cleaned :=
                  if existsb config.Writable gates then [CleanedWritableFiles]
                  else [] in
                let text :=
                  if JSON opts then formatter.JSONFormatter_Format indent result
                  else formatter.CLIFormatter_Format
                         (formatter.mkCLIFormatter (negb (NoColor opts))
                                                   (Verbose opts))
                         result in
                Some (exitStatus opts result, cleaned ++ [Stdout text])
            end
        end
  end.

(** [Pipeline.Execute].  The deferred stash pop runs on every return
    after a stash that stashed something; its error is only logged. *)
Definition Pipeline_Execute (p : Pipeline G) (opts : PipelineOpts)
  : option (option error * list effect) :=
  match LoadConfig p with
  | (_, Some err) => Some (Some err, [])
  | (None, None) => None
  | (Some gates0, None) =>
      if negb (GlobalConfig p) then
        Some (Some (errors.New "global config not loaded"), [])
      else
        match CheckDocker p with
        | Some err => Some (Some err, [])
        | None =>
            match Git_Stash p with
            | (_, Some err) =>
                Some (Some (errors.Wrap "stashing changes: " err), [])
            | (stashed, None) =>
                '(ret, effects) ← afterStash p opts gates0;
                Some (ret,
                      [Stashed] ++ effects
                        ++ (if stashed then [StashPopped] else []))
            end
        end
  end.

End Execute.

(** *** run.go, dryrun.go and main.go: the exit code of the process *)

(** [main]: exit code 1 when the command returns an error. *)
Definition main_exit (err : option error) : Z :=
  match err with
  | Some _ => 1
  | None => 0
  end.

(** [runCmd]: [os.Exit(1)] on the sentinel, else the error goes to [main]. *)
Definition runCmd_exit (pipelineErr : option error) : Z :=
  match pipelineErr with
  | Some e => if errors.Is_ErrGatesFailed e then 1 else main_exit (Some e)
  | None => main_exit None
  end.

(** [dryRunCmd] *)
Definition dryRunCmd_exit (pipelineErr : option error) : Z := main_exit pipelineErr.

End commands.

(** ** More of Go's [strings] *)

Module gostrings2.

(** [strings.Contains] *)
Fixpoint Contains (s sub : string) : bool :=
  String.prefix sub s
  || match s with
     | EmptyString => false
     | String _ r => Contains r sub
     end.

(** [strings.Split(s, sep)] for a separator that is not empty: the
    pieces between the occurrences of [sep], found from the left and not
    overlapping.  [skip] counts the bytes of a found separator that are
    still to be passed. *)
Fixpoint splitOn (sep : string) (skip : nat) (s : string) : list string :=
  match s with
  | EmptyString => [EmptyString]
  | String a r =>
      match skip with
      | Datatypes.S k => splitOn sep k r
      | O =>
          if String.prefix sep s
          then EmptyString :: splitOn sep (String.length sep - 1) r
          else match splitOn sep 0 r with
               | w :: ws => String a w :: ws
               | [] => [String a EmptyString]
               end
      end
  end.

Definition Split (s sep : string) : list string := splitOn sep 0 s.

(** [strings.Join(elems, sep)] *)
Fixpoint Join (elems : list string) (sep : string) : string :=
  match elems with
  | [] => EmptyString
  | [e] => e
  | e :: rest => e +:+ sep +:+ Join rest sep
  end.

End gostrings2.

(** ** Package [git]: diff.go *)

Module gitdiff.

Import gostrings.

Definition diffPrefix : string := "diff --git ".

(** [extractFilePath]: the destination path of the header line of a diff
    block, "a/<path> b/<path>". *)
Definition extractFilePath (diffBlock : string) : string :=
  let idx := IndexByte diffBlock llm.LF in
  let firstLine := if 0 <=? idx then upto diffBlock idx else diffBlock in
  match SplitN2 firstLine " " with
  | (_, Some bPath) =>
      if HasPrefix bPath "b/" then from bPath 2 else bPath
  | (part0, None) =>
      if HasPrefix part0 "a/" then from part0 2 else part0
  end.

(** [SplitDiffs]: one [FileDiff] per file of a unified diff. *)
Definition SplitDiffs (rawDiff : string) : list git.FileDiff :=
  if String.eqb (TrimSpace rawDiff) "" then []
  else
    foldl (fun diffs part =>
             let part := TrimSpace part in
             if String.eqb part "" then diffs
             else diffs ++ [git.mkFileDiff (extractFilePath part) (diffPrefix +:+ part)])
          [] (gostrings2.Split rawDiff diffPrefix).

End gitdiff.

(** ** Package [config]: defaults, validation and loading (config.go),
       stack detection (detect.go) *)

Module configfile.

Import gostrings.

(** [Defaults]: values applied to the gates that leave them out. *)
Record Defaults : Type := mkDefaults {
  DefContainer : string;
  DefTimeout : Z;
  DefBlocking : option bool;
  DefOnError : string;
  DefFailFast : bool
}.

(** [GatekeeperConfig]: the project configuration. *)
Record GatekeeperConfig : Type := mkGatekeeperConfig {
  Version : Z;
  Defaults_ : Defaults;
  Gates : list config.Gate
}.

(** The body of the loop of [applyDefaults] on one gate. *)
Definition applyDefaultsTo (d : Defaults) (g : config.Gate) : config.Gate :=
  config.mkGate
    (config.Name g) (config.Type_ g) (config.Command g) (config.Path g)
    (if String.eqb (config.Container g) "" && negb (String.eqb (DefContainer d) "")
     then DefContainer d else config.Container g)
    (config.Parser g)
    (if (config.Timeout g =? 0) && (DefTimeout d >? 0)
     then DefTimeout d else config.Timeout g)
    (match config.Blocking g, DefBlocking d with
     | None, Some val => Some val
     | b, _ => b
     end)
    (if String.eqb (config.OnError g) "" && negb (String.eqb (DefOnError d) "")
     then DefOnError d else config.OnError g)
    (config.Only g) (config.Except g) (config.Writable g) (config.Provider g)
    (config.Mode g) (config.Prompt g) (config.MaxFileSize g).

(** [applyDefaults] *)
Definition applyDefaults (cfg : GatekeeperConfig) : GatekeeperConfig :=
  mkGatekeeperConfig (Version cfg) (Defaults_ cfg)
                     (applyDefaultsTo (Defaults_ cfg) <$> Gates cfg).

(** [errors.Join]: nil when there is no error, else one error whose text
    is the texts of the errors, one per line. *)
Definition errors_Join (errs : list error) : option error :=
  match errs with
  | [] => None
  | _ => Some (errors.New (gostrings2.Join (errors.Error <$> errs)
                                           (String llm.LF EmptyString)))
  end.

Section Validate.

(** The verb [%q] *)
Variable quote : string -> string.

(** The errors that the loop of [validate] appends for one gate. *)
Definition gateErrors (g : config.Gate) : list error :=
  if String.eqb (config.Name g) "" then
    [errors.New "gate at position has missing required field 'name'"]
  else
    let gate_ := "gate " +:+ quote (config.Name g) +:+ ": " in
    if String.eqb (config.Type_ g) config.GateTypeExec then
      if String.eqb (config.Command g) "" then
        [errors.New (gate_ +:+ "missing required field 'command' for type 'exec'")]
      else []
    else if String.eqb (config.Type_ g) config.GateTypeScript then
      if String.eqb (config.Path g) "" then
        [errors.New (gate_ +:+ "missing required field 'path' for type 'script'")]
      else if gostrings2.Contains (config.Path g) "'" then
        [errors.New (gate_ +:+ "path contains invalid character (single quote)")]
      else []
    else if String.eqb (config.Type_ g) config.GateTypeLLM then
      (if String.eqb (config.Provider g) "" then
         [errors.New (gate_ +:+ "missing required field 'provider' for type 'llm'")]
       else [])
      ++ (if String.eqb (config.Prompt g) "" then
            [errors.New (gate_ +:+ "missing required field 'prompt' for type 'llm'")]
          else [])
    else if String.eqb (config.Type_ g) "" then
      [errors.New (gate_ +:+ "missing required field 'type'")]
    else
      [errors.New (gate_ +:+ "unknown gate type " +:+ quote (config.Type_ g)
                     +:+ " (valid: exec, script, llm)")].

(** [validate] *)
Definition validate (cfg : GatekeeperConfig) : option error :=
  errors_Join (flat_map gateErrors (Gates cfg)).

Definition ErrConfigNotFound : error :=
  errors.New "no .gatekeeper/gates.yaml found. Run 'gatekeeper init' first".

(** The file system of the loader, [filepath.Clean] and [yaml.Unmarshal]
    into an empty configuration. *)
Variable fs_ReadFile : string -> string * option error.
Variable fs_IsNotExist : error -> bool.
Variable filepath_Clean : string -> string.
Variable yaml_Unmarshal : string -> GatekeeperConfig + error.

(** [Loader.Load] *)
Definition Load (path : string) : option GatekeeperConfig * option error :=
  let path := filepath_Clean path in
  match fs_ReadFile path with
  | (_, Some err) =>
      if fs_IsNotExist err then (None, Some ErrConfigNotFound)
      else (None, Some (errors.Wrap "reading config file: " err))
  | (data, None) =>
      match yaml_Unmarshal data with
      | inr err => (None, Some (errors.Wrap "parsing gates.yaml: " err))
      | inl cfg =>
          let cfg := applyDefaults cfg in
          match validate cfg with
          | Some err => (None, Some err)
          | None => (Some cfg, None)
          end
      end
  end.

End Validate.

(** *** detect.go *)

Definition StackGo : string := "go".
Definition StackNode : string := "node".
Definition StackPython : string := "python".

Definition markerFiles : gmap string string :=
  <["go.mod" := StackGo]>
    (<["package.json" := StackNode]>
       (<["requirements.txt" := StackPython]>
          (<["pyproject.toml" := StackPython]> ∅))).

(** [DetectStacks]: the stacks of the marker files among [files], each
    once, in the order in which they are met. *)
Definition DetectStacks (files : list string) : list string :=
  fst (foldl (fun '(stacks, seen) f =>
                match markerFiles !! f with
                | Some stack =>
                    if bool_decide (stack ∈ (seen : gset string)) then (stacks, seen)
                    else (stacks ++ [stack], {[stack]} ∪ seen)
                | None => (stacks, seen)
                end)
             ([], ∅) files).

End configfile.

(** ** Package [gate]: factory.go *)

Module factory.

(** A gate built by the factory. *)
Inductive Gate : Type :=
| Container (g : gate.ContainerGate)
| LLM (g : gate.LLMGate).

Record Factory : Type := mkFactory {
  pool : gate.PoolManager;
  executor : gate.CommandExecutor;
  registry : parser.Registry;
  llmClient : option llm.Client;
  gitService : gate.StagedDiffPort;
  projectPath : string
}.

Section Create.

Variable quote : string -> string.

Definition createContainerGate (f : Factory) (cfg : config.Gate) : Gate :=
  let prs := parser.Registry_GetOrDefault (registry f) (config.Parser cfg) in
  Container (gate.mkContainerGate cfg (pool f) (executor f) prs (projectPath f)).

Definition createLLMGate (f : Factory) (cfg : config.Gate) : Gate + error :=
  match llmClient f with
  | None =>
      inr (errors.New
             ("gate " +:+ quote (config.Name cfg)
                +:+ " requires an LLM client but none is configured — set GATEKEEPER_GEMINI_KEY or add to ~/.config/gatekeeper/config.yaml"))
  | Some client => inl (LLM (gate.mkLLMGate cfg client (gitService f)))
  end.

(** [Factory.Create]: every return has either the gate or the error. *)
Definition Create (f : Factory) (cfg : config.Gate) : Gate + error :=
  if String.eqb (config.Type_ cfg) config.GateTypeExec
     || String.eqb (config.Type_ cfg) config.GateTypeScript
  then inl (createContainerGate f cfg)
  else if String.eqb (config.Type_ cfg) config.GateTypeLLM
       then createLLMGate f cfg
       else inr (errors.New ("unknown gate type " +:+ quote (config.Type_ cfg)
                               +:+ " for gate " +:+ quote (config.Name cfg))).

(** [Factory.CreateAll]: the gates in order, or the error of the first
    gate that cannot be created. *)
Fixpoint CreateAllLoop (f : Factory) (gates : list config.Gate) (result : list Gate)
  : list Gate * option error :=
  match gates with
  | [] => (result, None)
  | cfg :: rest =>
      match Create f cfg with
      | inr err =>
          ([], Some (errors.Wrap ("creating gate " +:+ quote (config.Name cfg) +:+ ": ")
                                 err))
      | inl g => CreateAllLoop f rest (result ++ [g])
      end
  end.

Definition CreateAll (f : Factory) (gates : list config.Gate)
  : list Gate * option error :=
  CreateAllLoop f gates [].

End Create.

End factory.

(** ** Package [git]: the service over the git binary (stash.go,
       hooks.go) *)

Module gitservice.

Import gostrings.

Definition stashMessage : string := "gatekeeper-stash".

Definition hookMarker : string := "# gatekeeper-managed".

Definition hookScript : string :=
  "#!/bin/sh" +:+ llm.nl
  +:+ "# gatekeeper-managed" +:+ llm.nl
  +:+ "# This hook was installed by gatekeeper. Do not edit manually." +:+ llm.nl
  +:+ "# Run 'gatekeeper teardown' to remove." +:+ llm.nl
  +:+ "exec gatekeeper run " +:+ String (ascii_of_nat 34) "$@"
  +:+ String (ascii_of_nat 34) llm.nl.

Section Service.

(** The world that the service acts on, of state [W]: [runGit] runs the
    git binary in the working directory and returns its standard output
    or an error; the functions of [os] read, write and remove files (the
    permission bits are left out).  [errors_Is_ErrNotExist] is
    [errors.Is(err, os.ErrNotExist)]; [filepath.Join] and
    [filepath.IsAbs] are library functions. *)
Context {W : Type}.
Variable runGit : list string -> W -> (string * option error) * W.
Variable os_ReadFile : string -> W -> (string * option error) * W.
Variable os_MkdirAll : string -> W -> option error * W.
Variable os_WriteFile : string -> string -> W -> option error * W.
Variable os_Remove : string -> W -> option error * W.
Variable errors_Is_ErrNotExist : error -> bool.
Variable filepath_Join : list string -> string.
Variable filepath_IsAbs : string -> bool.

(** [ExecService.WorkDir] *)
Variable WorkDir : string.

(** *** stash.go *)

(** The last step of [Stash]: stash everything except staged changes. *)
Definition stashPush (w : W) : (bool * option error) * W :=
  match runGit ["stash"; "push"; "--keep-index"; "--include-untracked"; "-m";
                stashMessage] w with
  | ((_, Some err), w) => ((false, Some (errors.Wrap "stashing changes: " err)), w)
  | ((_, None), w) => ((true, None), w)
  end.

(** [Stash] *)
Definition Stash (w : W) : (bool * option error) * W :=
  match runGit ["diff"; "--quiet"] w with
  | ((_, None), w) =>
      match runGit ["ls-files"; "--others"; "--exclude-standard"] w with
      | ((_, Some err), w) =>
          ((false, Some (errors.Wrap "checking untracked files: " err)), w)
      | ((out, None), w) =>
          if String.eqb (TrimSpace out) "" then ((false, None), w)
          else stashPush w
      end
  | ((_, Some _), w) => stashPush w
  end.

(** The loop of [StashPop] over the lines of the stash list; the result
    of [strings.SplitN] is never empty. *)
Fixpoint popFirst (lines : list string) (w : W) : option error * W :=
  match lines with
  | [] => (None, w)
  | line :: rest =>
      if gostrings2.Contains line stashMessage then
        let ref := TrimSpace (fst (SplitN2 line ":")) in
        match runGit ["stash"; "pop"; ref] w with
        | ((_, Some err), w) => (Some (errors.Wrap "popping stash: " err), w)
        | ((_, None), w) => (None, w)
        end
      else popFirst rest w
  end.

(** [StashPop] *)
Definition StashPop (w : W) : option error * W :=
  match runGit ["stash"; "list"] w with
  | ((_, Some err), w) => (Some (errors.Wrap "listing stashes: " err), w)
  | ((out, None), w) => popFirst (Split out llm.LF) w
  end.

(** *** hooks.go *)

(** [findGitDir] *)
Definition findGitDir (w : W) : (string * option error) * W :=
  match runGit ["rev-parse"; "--git-dir"] w with
  | ((_, Some err), w) => (("", Some err), w)
  | ((out, None), w) =>
      let gitDir := TrimSpace out in
      let gitDir :=
        if negb (filepath_IsAbs gitDir) && negb (String.eqb WorkDir "")
        then filepath_Join [WorkDir; gitDir]
        else gitDir in
      ((gitDir, None), w)
  end.

(** [InstallHook] *)
Definition InstallHook (w : W) : option error * W :=
  match findGitDir w with
  | ((_, Some err), w) => (Some (errors.Wrap "finding .git directory: " err), w)
  | ((gitDir, None), w) =>
      let hooksDir := filepath_Join [gitDir; "hooks"] in
      let hookPath := filepath_Join [hooksDir; "pre-commit"] in
      match os_ReadFile hookPath w with
      | ((content, None), w) =>
          if gostrings2.Contains content hookMarker then (None, w)
          else (Some (errors.New ("pre-commit hook already exists at " +:+ hookPath
                                    +:+ " — remove it first or back it up")), w)
      | ((_, Some _), w) =>
          match os_MkdirAll hooksDir w with
          | (Some err, w) => (Some (errors.Wrap "creating hooks directory: " err), w)
          | (None, w) =>
              match os_WriteFile hookPath hookScript w with
              | (Some err, w) => (Some (errors.Wrap "writing hook script: " err), w)
              | (None, w) => (None, w)
              end
          end
      end
  end.

(** [RemoveHook] *)
Definition RemoveHook (w : W) : option error * W :=
  match findGitDir w with
  | ((_, Some err), w) => (Some (errors.Wrap "finding .git directory: " err), w)
  | ((gitDir, None), w) =>
      let hookPath := filepath_Join [gitDir; "hooks"; "pre-commit"] in
      match os_ReadFile hookPath w with
      | ((_, Some err), w) =>
          if errors_Is_ErrNotExist err then (None, w)
          else (Some (errors.Wrap "reading hook: " err), w)
      | ((data, None), w) =>
          if negb (gostrings2.Contains data hookMarker) then
            (Some (errors.New
                     "pre-commit hook exists but is not managed by gatekeeper — will not remove"),
             w)
          else
            match os_Remove hookPath w with
            | (Some err, w) => (Some (errors.Wrap "removing hook: " err), w)
            | (None, w) => (None, w)
            end
      end
  end.

End Service.

End gitservice.

(** ** Package [pool]: the removal of sandboxes (pool.go) *)

Module poolcleanup.

Section Cleanup.

(** [time.Parse(time.RFC3339, s)], as a clock reading. *)
Variable parseRFC3339 : string -> option Z.

Context {S : Type} (runtime : pool.ContainerRuntime S).

(** The list options of the two clean-up functions: every container,
    running or not, with the label [gatekeeper.managed=true]. *)
Definition managedOpts : pool.ListOptions :=
  pool.mkListOptions true (pool.labelManaged +:+ "=true") None 0.

(** The loop of [CleanupAll]: the containers removed so far are counted,
    a failed removal is only logged. *)
Fixpoint removeEach (containers : list pool.Summary) (count : Z) (s : S) : Z * S :=
  match containers with
  | [] => (count, s)
  | c :: rest =>
      match pool.ContainerRemove runtime (pool.ID c) true s with
      | (None, s) => removeEach rest (goint.add count 1) s
      | (Some _, s) => removeEach rest count s
      end
  end.

(** [Pool.CleanupAll] *)
Definition CleanupAll (s : S) : (Z * option error) * S :=
  match pool.ContainerList runtime managedOpts s with
  | ((_, Some err), s) => ((0, Some err), s)
  | ((containers, None), s) =>
      let '(count, s) := removeEach containers 0 s in
      ((count, None), s)
  end.

(** Whether the loop of [CleanupStale] removes a container: its
    [last_used] label is a time before the threshold. *)
Definition stale (threshold : Z) (c : pool.Summary) : bool :=
  match pool.SummaryLabels c !! pool.labelLastUsed with
  | None => false
  | Some lastUsedStr =>
      match parseRFC3339 lastUsedStr with
      | None => false
      | Some lastUsed => lastUsed <? threshold
      end
  end.

Fixpoint removeStale (threshold : Z) (containers : list pool.Summary) (count : Z)
         (s : S) : Z * S :=
  match containers with
  | [] => (count, s)
  | c :: rest =>
      if stale threshold c then
        match pool.ContainerRemove runtime (pool.ID c) true s with
        | (None, s) => removeStale threshold rest (goint.add count 1) s
        | (Some _, s) => removeStale threshold rest count s
        end
      else removeStale threshold rest count s
  end.

(** [Pool.CleanupStale]; [now] is the clock reading, [ttl] a
    [time.Duration]. *)
Definition CleanupStale (now ttl : Z) (s : S) : (Z * option error) * S :=
  match pool.ContainerList runtime managedOpts s with
  | ((_, Some err), s) => ((0, Some err), s)
  | ((containers, None), s) =>
      let threshold := now + goint.wrap64 (- ttl) in
      let '(count, s) := removeStale threshold containers 0 s in
      ((count, None), s)
  end.

End Cleanup.

End poolcleanup.

(** ** Package [llm]: the Gemini client (gemini.go) *)

Module gemini.

(** The part of [genai.GenerateContentResponse] that [extractText]
    reads; pointers are options. *)
Record Content : Type := mkContent { Parts : list (option string) }.
Record Candidate : Type := mkCandidate { Content_ : option Content }.
Record Response : Type := mkResponse { Candidates : list (option Candidate) }.

Definition maxRetries : nat := 3.
Definition initialBackoff : Z := 1 * gate.second.

(** [extractText]; [None] is a panic on a nil candidate or part. *)
Definition extractText (resp : option Response) : option (string * option error) :=
  match resp with
  | None => Some ("", Some (errors.New "empty response from Gemini"))
  | Some resp =>
      match Candidates resp with
      | [] => Some ("", Some (errors.New "empty response from Gemini"))
      | candidate :: _ =>
          candidate ← candidate;
          match Content_ candidate with
          | None => Some ("", Some (errors.New "no content parts in response"))
          | Some content =>
              match Parts content with
              | [] => Some ("", Some (errors.New "no content parts in response"))
              | part :: _ =>
                  text ← part;
                  if String.eqb text "" then
                    Some ("", Some (errors.New "empty text in response part"))
                  else Some (text, None)
              end
          end
      end
  end.

(** What [Review] does to the outside, in order: a request to the API,
    a wait of a duration. *)
Inductive effect : Type :=
| Request (attempt : Z)
| Wait (backoff : Z).

Section Review.

(** [json.Unmarshal] into a slice of [StructuredError]. *)
Variable json_Unmarshal : string -> list parser.StructuredError + error.

(** The model of the client; the answer of [GenerateContent] to the
    request of an attempt; what the [select] after a failed attempt
    receives first: the error of the context when it is done, or the
    timer. *)
Variable model : string.
Variable GenerateContent : Z -> option Response * option error.
Variable ctxDone : Z -> option error.

(** The loop of [Review], from [attempt] with [n] attempts left;
    [lastErr] is nil before the first failure. *)
Fixpoint attempts (n : nat) (attempt : Z) (backoff : Z) (lastErr : option error)
  : option ((list parser.StructuredError * option error) * list effect) :=
  match n with
  | O =>
      Some (([], Some (errors.Wrap
                         ("LLM review failed after "
                            +:+ formatter.fmt_d (Z.of_nat maxRetries)
                            +:+ " attempts: ")
                         (default (errors.New "%!w(<nil>)") lastErr))), [])
  | Datatypes.S n =>
      match GenerateContent attempt with
      | (_, Some err) =>
          let lastErr :=
            errors.Wrap ("attempt " +:+ formatter.fmt_d (attempt + 1) +:+ ": ") err in
          match ctxDone attempt with
          | Some ctxErr =>
              Some (([], Some (errors.Wrap "LLM review cancelled: " ctxErr)),
                    [Request attempt])
          | None =>
              '(ret, effects) ← attempts n (attempt + 1)
                                         (goint.mul backoff 2) (Some lastErr);
              Some (ret, Request attempt :: Wait backoff :: effects)
          end
      | (resp, None) =>
          '(text, err) ← extractText resp;
          match err with
          | Some err =>
              Some (([], Some (errors.Wrap "extracting response text: " err)),
                    [Request attempt])
          | None =>
              match json_Unmarshal text with
              | inr err =>
                  Some (([], Some (errors.Wrap "parsing LLM response: " err)),
                        [Request attempt])
              | inl result =>
                  Some (((fun e =>
                            parser.mkStructuredError
                              (parser.File e) (parser.Line e) (parser.Column e)
                              (parser.Severity e) (parser.Rule e) (parser.Message e)
                              (parser.Hint e) model) <$> result,
                         None),
                        [Request attempt])
              end
          end
      end
  end.

(** [GeminiClient.Review]; [factory] is what the client factory
    returns.  [None] is a panic. *)
Definition Review (factory : option error)
  : option ((list parser.StructuredError * option error) * list effect) :=
  match factory with
  | Some err => Some (([], Some (errors.Wrap "creating Gemini client: " err)), [])
  | None => attempts maxRetries 0 initialBackoff None
  end.

End Review.

End gemini.

(** * Predicates used in the statements *)

(** A gate result that does not fail the run: non-blocking, or passed
    without a system error. *)
Definition harmless (g : formatter.GateResult) : Prop :=
  formatter.Blocking g = false
  \/ (formatter.Passed g = true /\ formatter.SystemError g = "").

(** What holds of the fan-out at every point of an interleaving: each
    outcome in the channel is what the gate at its index returned, its
    goroutine is done, and no index occurs twice. *)
Definition fanOutInv (gates : list runner.Gate) (st : runner.state) : Prop :=
  List.length (runner.pcs st) = List.length gates
  /\ NoDup (runner.idx <$> runner.resultsCh st)
  /\ forall ir, ir ∈ runner.resultsCh st ->
       runner.pcs st !! runner.idx ir = Some runner.Done
       /\ exists g c, gates !! runner.idx ir = Some g /\ g c = (runner.result ir, runner.err ir).

(** The slot that [collect] fills for an outcome. *)
Definition slot (ir : runner.indexedResult) : option formatter.GateResult :=
  match runner.result ir, runner.err ir with
  | Some r, _ => Some r
  | None, Some e => Some (runner.placeholder e)
  | None, None => None
  end.

(** The invariant of a gate result: a system error excludes a pass, and
    a skipped gate has passed without diagnostics. *)
Definition gateResultInvariant (r : formatter.GateResult) : Prop :=
  (formatter.SystemError r <> "" -> formatter.Passed r = false)
  /\ (formatter.Skipped r = true ->
      formatter.Errors r = [] /\ formatter.Passed r = true).

(** The gate results that the gates and the engine produce. *)
Inductive produced : formatter.GateResult -> Prop :=
| produced_container hintDatabase elapsed g r e :
    gate.ContainerGate_Execute hintDatabase elapsed g = Some (Some r, e) ->
    produced r
| produced_llm ToUpper elapsed g r e :
    gate.LLMGate_Execute ToUpper elapsed g = (Some r, e) ->
    produced r
| produced_skipped g r e :
    gate.skippedGate_Execute g = (Some r, e) ->
    produced r
| produced_placeholder e :
    produced (runner.placeholder e).

(** A run result without the raw output of its gates. *)
Definition withoutRawOutput (result : formatter.RunResult) : formatter.RunResult :=
  formatter.mkRunResult
    (formatter.RunPassed result) (formatter.RunDurationMs result)
    ((fun g =>
        formatter.mkGateResult
          (formatter.Name g) (formatter.Type_ g) (formatter.Passed g)
          (formatter.Blocking g) (formatter.Skipped g) (formatter.DurationMs g)
          (formatter.Errors g) (formatter.SystemError g) "")
       <$> formatter.Gates result).

(** The timeout that [ContainerGate.Execute] passes to the executor. *)
Definition effectiveTimeout (cfg : config.Gate) : Z :=
  if config.Timeout cfg =? 0 then 30 * gate.second else config.Timeout cfg.

(** A run of the pipeline reaches the exit-status step with [result]:
    the configuration is loaded, the pre-flight check and the stash
    succeed, some gate survives the filters, the gates are created and
    the engine returns [result]. *)
Definition reachesExitStatus (filepath_Match : string -> string -> bool)
           (filepath_Base : string -> string) {G : Type}
           (p : commands.Pipeline G) (opts : commands.PipelineOpts)
           (result : formatter.RunResult) : Prop :=
  exists gates0 stashed files gateInstances,
    commands.LoadConfig p = (Some gates0, None)
    /\ commands.GlobalConfig p = true
    /\ commands.CheckDocker p = None
    /\ commands.Git_Stash p = (stashed, None)
    /\ match commands.stagedFiles p with
       | Some fs => (fs, None)
       | None => commands.Git_StagedFiles p
       end = (files, None)
    /\ let gates :=
         gate.FilterGates filepath_Match filepath_Base
           (commands.filterSkippedGates gates0 (commands.Skip opts)
                                        (commands.SkipLLM opts))
           files in
       gates <> []
       /\ commands.CreateAll p gates = (gateInstances, None)
       /\ commands.RunAll p gateInstances (commands.FailFast opts)
                          (config.Name <$> gates)
          = (Some result, None).

(** The fail-closed policy of a parser: with blank standard output and a
    non-zero exit code the result fails with exactly one diagnostic of
    severity error, whose message is the trimmed standard error, or
    [fallback] when that is blank too. *)
Definition failClosed (parse : parser.Parser) (fallback : string) : Prop :=
  forall stdout stderr exitCode,
    gostrings.TrimSpace stdout = "" -> exitCode <> 0 ->
    exists d,
      parse stdout stderr exitCode
      = Some (Some (parser.mkParseResult false [d]), None)
      /\ parser.Severity d = "error"
      /\ parser.Message d
         = if String.eqb (gostrings.TrimSpace stderr) "" then fallback
           else gostrings.TrimSpace stderr.

(** The upper bound that [buildDiffLineMap] records for a diff: the
    largest line of its hunk headers, or 10000 when that is 0. *)
Definition lineBound (content : string) : Z :=
  let maxLine := llm.hunkMaxLine content in
  if maxLine =? 0 then 10000 else maxLine.

(** Whether [ValidateLineNumbers] keeps a diagnostic, given the map of
    the upper bounds. *)
Definition kept (diffLines : gmap string Z) (e : parser.StructuredError) : bool :=
  match diffLines !! parser.File e with
  | None => false
  | Some maxLine => negb ((parser.Line e >? 0) && (parser.Line e >? maxLine))
  end.

(** * Sample inputs *)

(** A lint gate whose tool prints "ok". *)
Definition lintGate : gate.ContainerGate :=
  gate.mkContainerGate
    (config.mkGate "lint" config.GateTypeExec "lint ./..." "" "alpine" "" 0 None ""
                   [] [] false "" "" "" "")
    (fun _ _ _ => ("c1", None))
    (fun _ _ _ => (Some (pool.mkExecResult "ok" "" 0 1), None))
    parser.GenericParser_Parse
    "/project".

(** A diagnostic of the LLM at a line of a file. *)
Definition issue (file : string) (line : Z) : parser.StructuredError :=
  parser.mkStructuredError file line 0 "error" "" "issue" "" "".

(** The staged diff of a deleted file of three lines. *)
Definition deletedFileDiff : git.FileDiff :=
  git.mkFileDiff "a.go"
    ("diff --git a/a.go b/a.go" +:+ llm.nl
     +:+ "deleted file mode 100644" +:+ llm.nl
     +:+ "--- a/a.go" +:+ llm.nl
     +:+ "+++ /dev/null" +:+ llm.nl
     +:+ "@@ -1,3 +0,0 @@" +:+ llm.nl
     +:+ "-package a" +:+ llm.nl
     +:+ "-" +:+ llm.nl
     +:+ "-func f() {}" +:+ llm.nl).

(** The gates of the engine's unit tests. *)
Definition passResult (name : string) : formatter.GateResult :=
  formatter.mkGateResult name "exec" true true false 0 [] "" "".

Definition failResult (name : string) (blocking : bool) : formatter.GateResult :=
  formatter.mkGateResult name "exec" false blocking false 0 [] "" "".

Definition newPassGate (name : string) : runner.Gate :=
  fun _ => (Some (passResult name), None).

Definition newFailGate (name : string) (blocking : bool) : runner.Gate :=
  fun _ => (Some (failResult name blocking), None).

Definition contextCanceled : error := errors.New "context canceled".

(** A gate with a delay returns the error of the context when the
    context is cancelled before the delay has passed. *)
Definition newSlowGate (name : string) : runner.Gate :=
  fun cancelled =>
    if cancelled then (None, Some contextCanceled)
    else (Some (passResult name), None).

Definition newErrorGate : runner.Gate :=
  fun _ => (None, Some (errors.New "system error")).

(** A pipeline with the lint gate as its only gate: the factory builds
    the container gate, and the engine runs it. *)
Definition lintPipeline : commands.Pipeline runner.Gate :=
  commands.mkPipeline runner.Gate
    (Some [gate.cfg lintGate], None) true None (false, None) None ([], None) None
    (fun gates =>
       ((fun cfg _ =>
           default (None, None)
                   (gate.ContainerGate_Execute ∅ 3
                      (gate.mkContainerGate cfg (gate.pool lintGate)
                                            (gate.executor lintGate)
                                            (gate.parser_ lintGate)
                                            (gate.project lintGate))))
          <$> gates, None))
    (runner.RunAll false [] 9)
    None.

(** * Predicates and sample inputs for the further properties *)

(** The invariant of the two loops of [SarifParser.Parse]. *)
Definition sarifInv (acc : list parser.StructuredError * bool) : Prop :=
  (acc.2 = false <-> Forall (fun e => parser.Severity e <> "error") acc.1)
  /\ Forall (fun e => parser.Severity e ∈ ["error"; "warning"; "info"]) acc.1.

(** What holds of every diagnostic of the go-test parser. *)
Definition goTestDiagnostic (e : parser.StructuredError) : Prop :=
  parser.Severity e = "error" /\ parser.Tool e = "go-test" /\ parser.Line e = 0 /\ parser.Message e <> "".

(** A gate of the configuration file with a name, a known type and the
    fields that its type requires. *)
Definition wellFormedGate (g : config.Gate) : Prop :=
  config.Name g <> ""
  /\ ((config.Type_ g = config.GateTypeExec /\ config.Command g <> "")
      \/ (config.Type_ g = config.GateTypeScript /\ config.Path g <> ""
          /\ gostrings2.Contains (config.Path g) "'" = false)
      \/ (config.Type_ g = config.GateTypeLLM /\ config.Provider g <> ""
          /\ config.Prompt g <> "")).

(** A gate that the factory can build: of a known type, with an LLM
    client when the type asks for one. *)
Definition creatable (f : factory.Factory) (g : config.Gate) : Prop :=
  config.Type_ g = config.GateTypeExec
  \/ config.Type_ g = config.GateTypeScript
  \/ (config.Type_ g = config.GateTypeLLM /\ factory.llmClient f <> None).

(** The configuration that a gate of the factory carries. *)
Definition gateConfig (g : factory.Gate) : config.Gate :=
  match g with
  | factory.Container g => gate.cfg g
  | factory.LLM g => gate.llm_cfg g
  end.

(** A gate as the factory builds it from its configuration. *)
Definition builtBy (f : factory.Factory) (cfg : config.Gate) (g : factory.Gate) : Prop :=
  match g with
  | factory.Container g =>
      (config.Type_ cfg = config.GateTypeExec \/ config.Type_ cfg = config.GateTypeScript)
      /\ g = gate.mkContainerGate
               cfg (factory.pool f) (factory.executor f)
               (default parser.GenericParser_Parse
                        (factory.registry f !! config.Parser cfg))
               (factory.projectPath f)
  | factory.LLM g =>
      config.Type_ cfg = config.GateTypeLLM
      /\ exists client, factory.llmClient f = Some client
                        /\ g = gate.mkLLMGate cfg client (factory.gitService f)
  end.

(** A world that also keeps the list of the git commands run in it. *)
Definition recording {W : Type}
           (runGit : list string -> W -> (string * option error) * W)
  : list string -> W * list (list string)
    -> (string * option error) * (W * list (list string)) :=
  fun args '(w, log) =>
    let '(out, w) := runGit args w in (out, (w, log ++ [args])).

(** The commands of [Stash]. *)
Definition diffQuietCmd : list string := ["diff"; "--quiet"].
Definition lsFilesCmd : list string := ["ls-files"; "--others"; "--exclude-standard"].
Definition stashPushCmd : list string :=
  ["stash"; "push"; "--keep-index"; "--include-untracked"; "-m";
   gitservice.stashMessage].

(** The reference of a line of [git stash list]: the text before the
    first colon, trimmed. *)
Definition stashRef (line : string) : string :=
  gostrings.TrimSpace (fst (gostrings.SplitN2 line ":")).

(** *** Files in memory

    A file system that holds the content of the files by path, for the
    hook functions: reading a file that is absent and removing one give
    the error [os.ErrNotExist], writing creates or replaces the file,
    and creating a directory always succeeds. *)

Definition memFS : Type := gmap string string.

Definition ErrNotExist : error := errors.New "file does not exist".

Definition mem_Is_ErrNotExist (err : error) : bool :=
  match err with
  | errors.New msg => String.eqb msg "file does not exist"
  | _ => false
  end.

Definition mem_ReadFile (name : string) (fs : memFS) : (string * option error) * memFS :=
  match fs !! name with
  | Some data => ((data, None), fs)
  | None => (("", Some ErrNotExist), fs)
  end.

Definition mem_MkdirAll (path : string) (fs : memFS) : option error * memFS := (None, fs).

Definition mem_WriteFile (name data : string) (fs : memFS) : option error * memFS :=
  (None, <[name := data]> fs).

Definition mem_Remove (name : string) (fs : memFS) : option error * memFS :=
  match fs !! name with
  | Some _ => (None, delete name fs)
  | None => (Some ErrNotExist, fs)
  end.

(** *** The containers of the engine *)

(** An engine whose containers carry identifiers that the engine handed
    out, each once. *)
Definition wellFormedEngine (e : pool.Engine) : Prop :=
  NoDup (pool.cID <$> pool.containers e)
  /\ Forall (fun c => exists k, (k < pool.created e)%nat
                                /\ pool.cID c = pool.freshID "c" k)
            (pool.containers e).

(** A container with the label [gatekeeper.managed=true]. *)
Definition managed (c : pool.Container) : bool :=
  bool_decide (pool.cLabels c !! pool.labelManaged = Some "true").

(** A running container with the pool key [key]. *)
Definition holdsKey (key : string) (c : pool.Container) : bool :=
  bool_decide (pool.cLabels c !! pool.labelPoolKey = Some key) && pool.cRunning c.

(** What the engine lists for a container. *)
Definition summaryOf (c : pool.Container) : pool.Summary :=
  pool.mkSummary (pool.cID c) (pool.cLabels c).

(** The labels that [createContainer] gives to a sandbox. *)
Definition sandboxLabels (formatRFC3339 : Z -> string) (now : Z)
           (img projectPath : string) (writable : bool) (key : string)
  : gmap string string :=
  <[pool.labelLastUsed := formatRFC3339 now]>
    (<[pool.labelWritable := pool.fmt_t writable]>
       (<[pool.labelProject := projectPath]>
          (<[pool.labelImage := img]>
             (<[pool.labelPoolKey := key]>
                (<[pool.labelManaged := "true"]> ∅))))).

(** A container that [CleanupStale] removes: managed, with a
    [last_used] label that is a time before the threshold. *)
Definition staleSandbox (parseRFC3339 : string -> option Z) (threshold : Z)
           (c : pool.Container) : bool :=
  managed c && poolcleanup.stale parseRFC3339 threshold (summaryOf c).

(** *** Runs without cancellation *)

(** What [collect] keeps of what a gate returned. *)
Definition outcomeSlot (out : gate.ExecuteReturn) : option formatter.GateResult :=
  slot (runner.mkIndexedResult 0 out.1 out.2).

(** A gate whose result does not cancel the run: the run is not
    fail-fast, or the gate passes or is not blocking. *)
Definition quiet (failFast : bool) (g : runner.Gate) : Prop :=
  runner.failsFast failFast (g false).1 = false.

(** What holds of the fan-out at every point of an interleaving in which
    the context is never cancelled: each outcome in the channel is what
    the gate at its index returned on a live context, no index occurs
    twice, and a goroutine is done exactly when its outcome is in the
    channel. *)
Definition quietInv (gates : list runner.Gate) (st : runner.state) : Prop :=
  runner.cancelled st = false
  /\ List.length (runner.pcs st) = List.length gates
  /\ NoDup (runner.idx <$> runner.resultsCh st)
  /\ (forall ir, ir ∈ runner.resultsCh st ->
        runner.pcs st !! runner.idx ir = Some runner.Done
        /\ exists g, gates !! runner.idx ir = Some g
                     /\ g false = (runner.result ir, runner.err ir))
  /\ (forall i, runner.pcs st !! i = Some runner.Done ->
        exists ir, ir ∈ runner.resultsCh st /\ runner.idx ir = i).

(** The retries of [Review]: the requests and the waits from an attempt
    on, when every request fails. *)
Fixpoint retrySchedule (n : nat) (attempt backoff : Z) : list gemini.effect :=
  match n with
  | O => []
  | Datatypes.S n =>
      gemini.Request attempt :: gemini.Wait backoff
        :: retrySchedule n (attempt + 1) (goint.mul backoff 2)
  end.

(** The options of a run with the dry-run flag set or cleared. *)
Definition withDryRun (dryRun : bool) (opts : commands.PipelineOpts)
  : commands.PipelineOpts :=
  commands.mkPipelineOpts dryRun (commands.JSON opts) (commands.Verbose opts)
                          (commands.NoColor opts) (commands.FailFast opts)
                          (commands.Skip opts) (commands.SkipLLM opts).


(** The number that a sequence of decimal digits denotes after the
    digits read so far, whose number is [acc]. *)
Fixpoint decValue (d : Decimal.uint) (acc : Z) : Z :=
  match d with
  | Decimal.Nil => acc
  | Decimal.D0 l => decValue l (acc * 10 + 0)
  | Decimal.D1 l => decValue l (acc * 10 + 1)
  | Decimal.D2 l => decValue l (acc * 10 + 2)
  | Decimal.D3 l => decValue l (acc * 10 + 3)
  | Decimal.D4 l => decValue l (acc * 10 + 4)
  | Decimal.D5 l => decValue l (acc * 10 + 5)
  | Decimal.D6 l => decValue l (acc * 10 + 6)
  | Decimal.D7 l => decValue l (acc * 10 + 7)
  | Decimal.D8 l => decValue l (acc * 10 + 8)
  | Decimal.D9 l => decValue l (acc * 10 + 9)
  end.

(** A parser that returns either a result or an error, and does not
    panic. *)
Definition wellBehaved (prs : parser.Parser) : Prop :=
  forall stdout stderr exitCode,
    (exists r, prs stdout stderr exitCode = Some (Some r, None))
    \/ (exists e, prs stdout stderr exitCode = Some (None, Some e)).

(** *** Text without escape sequences *)

(** A string without the byte ESC, with which every ANSI escape
    sequence begins. *)
Definition noEscape (s : string) : Prop :=
  gostrings.IndexByte s (ascii_of_nat 27) = -1.

Definition plainDiagnostic (e : parser.StructuredError) : Prop :=
  noEscape (parser.File e) /\ noEscape (parser.Rule e)
  /\ noEscape (parser.Message e) /\ noEscape (parser.Hint e).

Definition plainGate (g : formatter.GateResult) : Prop :=
  noEscape (formatter.Name g) /\ noEscape (formatter.SystemError g)
  /\ noEscape (formatter.RawOutput g)
  /\ Forall plainDiagnostic (formatter.Errors g).

(** A script gate and a review gate of a configuration file. *)
Definition scriptGate : config.Gate :=
  config.mkGate "check" config.GateTypeScript "" "scripts/check.sh" "alpine" "" 0 None ""
                [] [] false "" "" "" "".

Definition reviewGate : config.Gate :=
  config.mkGate "review" config.GateTypeLLM "" "" "" "" 0 None ""
                [] [] false "gemini" "" "be strict" "".

(** A factory over the ports of the lint gate, with or without an LLM
    client. *)
Definition sampleFactory (client : option llm.Client) : factory.Factory :=
  factory.mkFactory (gate.pool lintGate) (gate.executor lintGate) ∅ client
                    ([], None) "/project".

(** A configuration file with the three gates and a default container. *)
Definition sampleConfig : configfile.GatekeeperConfig :=
  configfile.mkGatekeeperConfig
    1 (configfile.mkDefaults "golang:1.22" 0 None "" false)
    [gate.cfg lintGate; scriptGate; reviewGate].

(** An engine with a sandbox of the pool, created at time 100 and not
    running, and a container of the user. *)
Definition sampleEngine : pool.Engine :=
  pool.mkEngine
    [pool.mkContainer "c0" (sandboxLabels (fun _ => "t100") 100 "alpine" "/p" false "k")
                      false;
     pool.mkContainer "db" {[ "app" := "postgres" ]} true]
    [] 1.

(** * Properties *)

(** ** The file filter (package [gate]) *)

Section FilterFacts.

Variable filepath_Match : string -> string -> bool.
Variable filepath_Base : string -> string.

Local Abbreviation ShouldRun := (gate.ShouldRun filepath_Match filepath_Base).
Local Abbreviation FilterGates := (gate.FilterGates filepath_Match filepath_Base).

(** The loop of [FilterGates] is a filter. *)
Lemma FilterGates_loop (f : config.Gate -> bool) (gates acc : list config.Gate) :
  foldl (fun result g => if f g then result ++ [g] else result) acc gates
  = acc ++ List.filter f gates.
Proof.
  revert acc. induction gates as [|g gates IH]; intros acc; simpl.
  - by rewrite app_nil_r.
  - rewrite IH. destruct (f g); simpl; [by rewrite <- app_assoc | done].
Qed.

Lemma FilterGates_nonempty (gates : list config.Gate) (files : list string) :
  files <> [] ->
  FilterGates gates files = List.filter (fun g => ShouldRun g files) gates.
Proof.
  intros Hne. unfold gate.FilterGates.
  destruct files as [|f files]; [done|]. simpl.
  by rewrite FilterGates_loop.
Qed.

Lemma filter_twice {A} (f : A -> bool) (l : list A) :
  List.filter f (List.filter f l) = List.filter f l.
Proof.
  induction l as [|x l IH]; simpl; [done|].
  destruct (f x) eqn:E; simpl; [by rewrite E, IH | done].
Qed.

(** C8: filtering a gate list twice with the same staged files gives
    the same list as filtering it once, for every gate list and every
    list of staged files, the empty one included. *)
Theorem C8_FilterGates_idempotent (G : list config.Gate) (F : list string) :
  FilterGates (FilterGates G F) F = FilterGates G F.
Proof.
  destruct F as [|f F].
  - reflexivity.
  - rewrite !FilterGates_nonempty by done. apply filter_twice.
Qed.

(** With no staged file every gate is returned. *)
Lemma FilterGates_no_files (G : list config.Gate) : FilterGates G [] = G.
Proof. reflexivity. Qed.

End FilterFacts.

(** ** Facts on the string functions *)

Section StringFacts.

Lemma IndexByte_ge (s : string) (c : ascii) : -1 <= gostrings.IndexByte s c.
Proof.
  induction s as [|x s IH]; simpl; [lia|].
  destruct (Ascii.eqb x c); [lia|].
  destruct (Z.ltb_spec (gostrings.IndexByte s c) 0); lia.
Qed.

Lemma IndexByte_app_absent (k rest : string) (c : ascii) :
  gostrings.IndexByte k c = -1 ->
  gostrings.IndexByte (k +:+ String c rest) c = Z.of_nat (String.length k).
Proof.
  induction k as [|a k IH]; simpl.
  - intros _. by rewrite Ascii.eqb_refl.
  - destruct (Ascii.eqb a c); [lia|].
    pose proof (IndexByte_ge k c) as Hge.
    destruct (Z.ltb_spec (gostrings.IndexByte k c) 0) as [Hlt|Hnlt]; [|lia].
    intros _. rewrite IH by lia.
    destruct (Z.ltb_spec (Z.of_nat (String.length k)) 0); lia.
Qed.

Lemma upto_app (k rest : string) :
  gostrings.upto (k +:+ rest) (Z.of_nat (String.length k)) = k.
Proof.
  unfold gostrings.upto. rewrite Nat2Z.id.
  induction k as [|a k IH]; simpl.
  - by destruct rest.
  - by rewrite IH.
Qed.

Lemma substring_all (s : string) : substring 0 (String.length s) s = s.
Proof. induction s as [|a s IH]; simpl; [done | by rewrite IH]. Qed.

Lemma from_app (k rest : string) (c : ascii) :
  gostrings.from (k +:+ String c rest) (Z.of_nat (String.length k) + 1) = rest.
Proof.
  unfold gostrings.from.
  replace (Z.to_nat (Z.of_nat (String.length k) + 1)) with (Datatypes.S (String.length k)) by lia.
  induction k as [|a k IH]; simpl.
  - rewrite Nat.sub_0_r. apply substring_all.
  - exact IH.
Qed.

End StringFacts.

(** ** The pool key (package [pool]) *)

Section PoolKeyFacts.

Variable sha256_Sum256 : string -> string.
Variable formatRFC3339 : Z -> string.
Variable behaviour : list string -> string * string * Z.

(** Two inputs with the same concatenation have the same key. *)
Lemma computePoolKey_data (i1 p1 i2 p2 : string) (w1 w2 : bool) :
  pool.poolKeyData i1 p1 w1 = pool.poolKeyData i2 p2 w2 ->
  pool.computePoolKey sha256_Sum256 i1 p1 w1
  = pool.computePoolKey sha256_Sum256 i2 p2 w2.
Proof. unfold pool.computePoolKey. by intros ->. Qed.

Lemma matchesLabel_key (k v : string) (c : pool.Container) :
  gostrings.IndexByte k "=" = -1 ->
  pool.matchesLabel (k +:+ "=" +:+ v) c = bool_decide (pool.cLabels c !! k = Some v).
Proof.
  intros Hk. unfold pool.matchesLabel.
  change (k +:+ "=" +:+ v) with (k +:+ String "=" v).
  rewrite (IndexByte_app_absent _ _ _ Hk).
  destruct (Z.ltb_spec (Z.of_nat (String.length k)) 0); [lia|].
  by rewrite upto_app, from_app.
Qed.

(** On the container engine, the pool hands the sandbox created for
    image "a|b" and project "c" to a later request for image "a" and
    project "b|c". *)
Lemma pool_shares_sandbox (writable : bool) (t0 t1 : Z) (uidGid : string) :
  let rt := pool.engineRuntime behaviour in
  let r1 := pool.GetOrCreate sha256_Sum256 formatRFC3339 rt t0 (uidGid, None)
                             "a|b" "c" writable pool.emptyEngine in
  let r2 := pool.GetOrCreate sha256_Sum256 formatRFC3339 rt t1 (uidGid, None)
                             "a" "b|c" writable (snd r1) in
  fst r1 = ("c0", None) /\ fst r2 = ("c0", None).
Proof.
  intros rt r1 r2.
  assert (H1 : r1 = (("c0", None), pool.mkEngine [pool.mkContainer "c0"
     (<[pool.labelLastUsed := formatRFC3339 t0]>
                (<[pool.labelWritable := pool.fmt_t writable]>
                   (<[pool.labelProject := "c"]>
                      (<[pool.labelImage := "a|b"]>
                         (<[pool.labelPoolKey := pool.computePoolKey sha256_Sum256 "a|b" "c" writable]>
                            (<[pool.labelManaged := "true"]> ∅)))))) true] [] 1)).
  { by destruct writable. }
  split; [by rewrite H1|].
  unfold r2. rewrite H1. unfold pool.GetOrCreate, pool.findExistingContainer.
  cbn [snd pool.ContainerList rt pool.engineRuntime pool.containers List.filter].
  unfold pool.listed. cbn [pool.FilterLabel pool.FilterStatus pool.cRunning].
  rewrite matchesLabel_key by reflexivity.
  cbn [pool.cLabels].
  rewrite (computePoolKey_data "a" "b|c" "a|b" "c" writable writable) by reflexivity.
  rewrite bool_decide_eq_true_2.
  2:{ rewrite lookup_insert_ne by done. rewrite lookup_insert_ne by done.
      rewrite lookup_insert_ne by done. rewrite lookup_insert_ne by done.
      by rewrite lookup_insert_eq. }
  reflexivity.
Qed.

(** C9: the pool key is not injective over (image, project path): the
    digested string is the unescaped concatenation, so image "a|b" with
    project "c" and image "a" with project "b|c" are distinct inputs
    that get the same key for either value of writable, and the second
    request is served with the sandbox of the first. *)
Theorem C9_pool_key_not_injective (writable : bool) (t0 t1 : Z) (uidGid : string) :
  ("a|b", "c") <> ("a", "b|c")
  /\ pool.poolKeyData "a|b" "c" writable = "a|b|c|" +:+ pool.fmt_t writable
  /\ pool.poolKeyData "a" "b|c" writable = "a|b|c|" +:+ pool.fmt_t writable
  /\ pool.computePoolKey sha256_Sum256 "a|b" "c" writable
     = pool.computePoolKey sha256_Sum256 "a" "b|c" writable
  /\ (let rt := pool.engineRuntime behaviour in
      let r1 := pool.GetOrCreate sha256_Sum256 formatRFC3339 rt t0 (uidGid, None)
                                 "a|b" "c" writable pool.emptyEngine in
      let r2 := pool.GetOrCreate sha256_Sum256 formatRFC3339 rt t1 (uidGid, None)
                                 "a" "b|c" writable (snd r1) in
      fst r1 = ("c0", None) /\ fst r2 = ("c0", None)).
Proof.
  split; [discriminate|].
  split; [reflexivity|].
  split; [reflexivity|].
  split; [by apply computePoolKey_data|].
  apply pool_shares_sandbox.
Qed.

End PoolKeyFacts.

(** ** The execution engine (package [runner]) *)

Section RunnerFacts.

Import runner.

Lemma blocks_harmless (g : formatter.GateResult) :
  blocks g = false <-> harmless g.
Proof.
  unfold blocks, harmless.
  destruct (formatter.Blocking g), (formatter.Passed g); simpl;
    destruct (String.eqb_spec (formatter.SystemError g) ""); simpl;
    intuition congruence.
Qed.

(** The aggregation loop keeps the collected results in order and
    fails the run exactly on a blocking failure. *)
Lemma build_spec (elapsed : Z) (collected : list (option formatter.GateResult)) :
  formatter.Gates (build elapsed collected) = omap id collected
  /\ formatter.RunDurationMs (build elapsed collected) = elapsed
  /\ (formatter.RunPassed (build elapsed collected) = true
      <-> Forall harmless (omap id collected)).
Proof.
  unfold build.
  match goal with
  | |- context [foldl ?F ?i collected] => set (F0 := F); set (init := i)
  end.
  assert (H : forall acc,
             formatter.Gates (foldl F0 acc collected)
             = formatter.Gates acc ++ omap id collected
             /\ formatter.RunDurationMs (foldl F0 acc collected)
                = formatter.RunDurationMs acc
             /\ (formatter.RunPassed (foldl F0 acc collected) = true
                 <-> formatter.RunPassed acc = true
                     /\ Forall harmless (omap id collected))).
  { clear init. induction collected as [|[r|] collected IH]; intros acc.
    - simpl. rewrite app_nil_r. split_and!; [done | done |]. split; [auto | tauto].
    - cbn [foldl]. destruct (IH (F0 acc (Some r))) as (Hg & Hd & Hp).
      rewrite Hg, Hd, Hp. subst F0. simpl.
      rewrite <- app_assoc. split_and!; [done | done |].
      rewrite Forall_cons, <- blocks_harmless.
      destruct (blocks r); intuition congruence.
    - cbn [foldl]. destruct (IH (F0 acc None)) as (Hg & Hd & Hp).
      rewrite Hg, Hd, Hp. subst F0. by simpl. }
  destruct (H init) as (Hg & Hd & Hp). rewrite Hg, Hd, Hp. subst init. simpl.
  split_and!; [done | done | tauto].
Qed.

(** C1: the run passes if and only if every collected gate result is
    non-blocking, or passed without a system error; and [RunAll] does
    return such a result, for every context, interleaving, gate list,
    fail-fast flag and name list. *)
Theorem C1_RunAll_passed_iff (ctxCancelled : bool) (sched : list event)
        (elapsed : Z) (gates : list Gate) (failFast : bool)
        (gateNames : list string) :
  exists r : formatter.RunResult,
    RunAll ctxCancelled sched elapsed gates failFast gateNames = (Some r, None)
    /\ (formatter.RunPassed r = true
        <-> Forall (fun g => formatter.Blocking g = false
                             \/ (formatter.Passed g = true
                                 /\ formatter.SystemError g = ""))
                   (formatter.Gates r)).
Proof.
  unfold RunAll. destruct (List.length gates =? 0)%nat.
  - eexists. split; [reflexivity|]. simpl. split; auto.
  - eexists. split; [reflexivity|].
    destruct (build_spec elapsed
                (collect (List.length gates)
                         (fanOut ctxCancelled sched gates failFast)))
      as (Hg & _ & Hp).
    rewrite Hg. exact Hp.
Qed.


(** *** The results channel *)

Lemma step_inv (gates : list Gate) (failFast : bool) (st : state) (ev : event) :
  fanOutInv gates st -> fanOutInv gates (step gates failFast st ev).
Proof.
  intros (Hlen & Hnd & Hch). destruct ev as [i|]; simpl; [|done].
  destruct (pcs st !! i) as [p|] eqn:Hp; [|done].
  assert (Hi : (i < List.length (pcs st))%nat) by (eapply lookup_lt_Some; eauto).
  assert (Hother : forall ir, ir ∈ resultsCh st -> p <> Done -> i <> idx ir).
  { intros ir Hir Hne ->. destruct (Hch ir Hir) as [Hd _]. congruence. }
  destruct p.
  - destruct (gates !! i) as [g|] eqn:Hg; [|done].
    destruct (cancelled st); (split_and!; simpl; [by rewrite length_insert | done |]);
      intros ir Hir; destruct (Hch ir Hir) as [Hd Hex]; (split; [|done]);
      by rewrite list_lookup_insert_ne by (by apply Hother).
  - destruct (gates !! i) as [g|] eqn:Hg; [|done].
    destruct (g (cancelled st)) as [r e] eqn:Hrun.
    split_and!; simpl.
    + by rewrite length_insert.
    + rewrite fmap_app. simpl. apply NoDup_app. split_and!; [done | | apply NoDup_singleton].
      intros j Hj Hj'. apply list_elem_of_singleton in Hj'. subst j.
      apply list_elem_of_fmap in Hj as (ir & Heq & Hir).
      by apply (Hother ir Hir).
    + intros ir Hir. apply elem_of_app in Hir as [Hir|Hir].
      * destruct (Hch ir Hir) as [Hd Hex]. split; [|done].
        by rewrite list_lookup_insert_ne by (by apply Hother).
      * apply list_elem_of_singleton in Hir. subst ir. simpl. split.
        -- by apply list_lookup_insert_eq.
        -- eauto.
  - done.
Qed.

Lemma steps_inv (gates : list Gate) (failFast : bool) (evs : list event) (st : state) :
  fanOutInv gates st -> fanOutInv gates (foldl (step gates failFast) st evs).
Proof.
  revert st. induction evs as [|ev evs IH]; intros st Hst; simpl; [done|].
  apply IH. by apply step_inv.
Qed.

(** Every outcome in the closed channel comes from the gate at its
    index, and the indices are distinct and in range. *)
Lemma fanOut_spec (ctxCancelled : bool) (sched : list event) (gates : list Gate)
      (failFast : bool) :
  NoDup (idx <$> fanOut ctxCancelled sched gates failFast)
  /\ forall ir, ir ∈ fanOut ctxCancelled sched gates failFast ->
       (idx ir < List.length gates)%nat
       /\ exists g c, gates !! idx ir = Some g /\ g c = (result ir, err ir).
Proof.
  unfold fanOut.
  set (init := mkState ctxCancelled [] (replicate (List.length gates) Ready)).
  assert (Hinit : fanOutInv gates init).
  { split_and!; simpl.
    - by rewrite length_replicate.
    - constructor.
    - intros ir Hir. by apply elem_of_nil in Hir. }
  pose proof (steps_inv gates failFast (complete (List.length gates)) _
                (steps_inv gates failFast sched _ Hinit)) as (Hlen & Hnd & Hch).
  split; [done|]. intros ir Hir. destruct (Hch ir Hir) as [Hd Hex]. split; [|done].
  rewrite <- Hlen. eapply lookup_lt_Some; eauto.
Qed.

Lemma collect_length (n : nat) (ch : list indexedResult) :
  List.length (collect n ch) = n.
Proof.
  unfold collect.
  match goal with |- context [foldl ?F _ ch] => set (F0 := F) end.
  assert (H : forall acc, List.length (foldl F0 acc ch) = List.length acc).
  { induction ch as [|ir ch IH]; intros acc; [done|]. cbn [foldl]. rewrite IH.
    subst F0. simpl. destruct (result ir), (err ir); by rewrite ?length_insert. }
  by rewrite H, length_replicate.
Qed.

Lemma collect_snoc (n : nat) (ch : list indexedResult) (ir : indexedResult) :
  collect n (ch ++ [ir])
  = match slot ir with
    | Some r => <[idx ir := Some r]> (collect n ch)
    | None => collect n ch
    end.
Proof.
  unfold collect, slot. rewrite foldl_app. simpl.
  by destruct (result ir), (err ir).
Qed.

(** With distinct indices in range, the slot of every outcome that has
    a result or an error holds what [collect] made of it. *)
Lemma collect_lookup (n : nat) (ch : list indexedResult) :
  NoDup (idx <$> ch) ->
  (forall ir, ir ∈ ch -> (idx ir < n)%nat) ->
  forall ir r, ir ∈ ch -> slot ir = Some r -> collect n ch !! idx ir = Some (Some r).
Proof.
  induction ch as [|x ch IH] using rev_ind; intros Hnd Hlt ir r Hir Hslot.
  - by apply elem_of_nil in Hir.
  - rewrite fmap_app in Hnd. simpl in Hnd.
    apply NoDup_app in Hnd as (Hnd & Hdisj & _).
    rewrite collect_snoc.
    apply elem_of_app in Hir as [Hir|Hir].
    + assert (Hne : idx x <> idx ir).
      { intros E. apply (Hdisj (idx ir)).
        - apply list_elem_of_fmap. eauto.
        - rewrite E. apply list_elem_of_singleton. done. }
      assert (Hrec : collect n ch !! idx ir = Some (Some r)).
      { apply IH; auto. intros y Hy. apply Hlt. apply elem_of_app. by left. }
      destruct (slot x); [by rewrite list_lookup_insert_ne | done].
    + apply list_elem_of_singleton in Hir. subst x. rewrite Hslot.
      apply list_lookup_insert_eq. rewrite collect_length.
      apply Hlt. apply elem_of_app. right. by apply list_elem_of_singleton.
Qed.

(** An outcome without a result and with an error is reported as a
    placeholder in the gates of the run. *)
Lemma RunAll_placeholder (ctxCancelled : bool) (sched : list event) (elapsed : Z)
      (gates : list Gate) (failFast : bool) (ir : indexedResult) (e : error) :
  ir ∈ fanOut ctxCancelled sched gates failFast ->
  result ir = None -> err ir = Some e ->
  placeholder e
    ∈ formatter.Gates (build elapsed
                         (collect (List.length gates)
                                  (fanOut ctxCancelled sched gates failFast))).
Proof.
  intros Hir Hr He.
  destruct (fanOut_spec ctxCancelled sched gates failFast) as [Hnd Hch].
  destruct (build_spec elapsed
              (collect (List.length gates)
                       (fanOut ctxCancelled sched gates failFast))) as (Hg & _).
  rewrite Hg. apply list_elem_of_omap. exists (Some (placeholder e)). split; [|done].
  apply list_elem_of_lookup. exists (idx ir).
  apply collect_lookup; auto.
  - intros y Hy. by destruct (Hch y Hy).
  - unfold slot. by rewrite Hr, He.
Qed.

(** With no gate the channel stays empty. *)
Lemma fanOut_in_range (ctxCancelled : bool) (sched : list event) (gates : list Gate)
      (failFast : bool) (ir : indexedResult) :
  ir ∈ fanOut ctxCancelled sched gates failFast -> gates <> [].
Proof.
  intros Hir ->.
  destruct (fanOut_spec ctxCancelled sched [] failFast) as [_ Hch].
  destruct (Hch ir Hir) as [Hlt _]. simpl in Hlt. lia.
Qed.

(** C10 (amended): for every context, interleaving, gate list, fail-fast
    flag and name list, [RunAll] returns a result and a nil error; every
    outcome that reaches the engine is what a gate's [Execute] returned,
    and when that is a nil result with a non-nil error, the gates of the
    run contain a placeholder whose system error is the text of the
    error. *)
Theorem C10_RunAll_nil_error (ctxCancelled : bool) (sched : list event)
        (elapsed : Z) (gates : list Gate) (failFast : bool)
        (gateNames : list string) :
  exists r : formatter.RunResult,
    RunAll ctxCancelled sched elapsed gates failFast gateNames = (Some r, None)
    /\ forall ir, ir ∈ fanOut ctxCancelled sched gates failFast ->
         (exists g c, gates !! idx ir = Some g /\ g c = (result ir, err ir))
         /\ forall e, result ir = None -> err ir = Some e ->
              placeholder e ∈ formatter.Gates r
              /\ formatter.SystemError (placeholder e) = errors.Error e.
Proof.
  unfold RunAll. destruct (List.length gates =? 0)%nat eqn:Hn.
  - eexists. split; [reflexivity|]. intros ir Hir.
    apply fanOut_in_range in Hir. destruct gates; [done | discriminate].
  - eexists. split; [reflexivity|]. intros ir Hir. split.
    + destruct (fanOut_spec ctxCancelled sched gates failFast) as [_ Hch].
      by destruct (Hch ir Hir).
    + intros e Hr He. split; [|done]. by eapply RunAll_placeholder.
Qed.

(** A gate that returns no result and the error "boom" is reported by a
    placeholder. *)
Lemma C10_RunAll_nil_error_witness :
  exists r : formatter.RunResult,
    RunAll false [] 7 [fun _ => (None, Some (errors.New "boom"))] false ["g"]
    = (Some r, None)
    /\ placeholder (errors.New "boom") ∈ formatter.Gates r
    /\ formatter.SystemError (placeholder (errors.New "boom")) = "boom".
Proof.
  destruct (C10_RunAll_nil_error false [] 7
              [fun _ => (None, Some (errors.New "boom"))] false ["g"])
    as (r & Hr & H).
  exists r. split; [exact Hr|].
  apply (H (mkIndexedResult 0 None (Some (errors.New "boom")))).
  - apply (list_elem_of_here (mkIndexedResult 0 None (Some (errors.New "boom"))) []).
  - reflexivity.
  - reflexivity.
Defined.

(** C10 as stated fails: a gate whose [Execute] returns a result together
    with the error "boom" is collected as that result; no placeholder is
    made and the text of the error is in no gate of the run. *)
Lemma C10_counterexample :
  let r0 := formatter.mkGateResult "g" "exec" true true false 0 [] "" "" in
  let g : Gate := fun _ => (Some r0, Some (errors.New "boom")) in
  fanOut false [] [g] false = [mkIndexedResult 0 (Some r0) (Some (errors.New "boom"))]
  /\ RunAll false [] 7 [g] false ["g"]
     = (Some (formatter.mkRunResult true 7 [r0]), None)
  /\ ~ placeholder (errors.New "boom") ∈ [r0]
  /\ Forall (fun x => formatter.SystemError x <> "boom") [r0].
Proof.
  intros r0 g. split; [reflexivity|]. split; [reflexivity|]. split.
  - intros H. apply list_elem_of_singleton in H. discriminate H.
  - constructor; [discriminate | constructor].
Qed.
End RunnerFacts.

(** ** The gates (package [gate]) *)

Section GateFacts.

(** Closes the invariant on a return of [Execute] whose result is read
    off the equation [H]. *)
Ltac solve_invariant H :=
  simpl in H;
  first
    [ discriminate H
    | inversion H; subst; simpl;
      split; [first [done | congruence] | first [done | intros; discriminate]] ].

(** C5: every gate result produced by the [Execute] of a container gate,
    of an LLM gate or of a skipped gate, or made by the engine as the
    placeholder of a gate error, satisfies the invariant: a non-empty
    system error implies not passed, and skipped implies no diagnostics
    and passed. *)
Theorem C5_gate_result_invariant (r : formatter.GateResult) :
  produced r -> gateResultInvariant r.
Proof.
  unfold gateResultInvariant.
  intros [hdb elapsed g r0 e H | ToUpper elapsed g r0 e H | g r0 e H | e].
  - unfold gate.ContainerGate_Execute in H.
    destruct (gate.pool g _ _ _) as [id [perr|]]; [solve_invariant H|].
    destruct (gate.executor g _ _ _) as [[er|] [xerr|]]; try solve_invariant H.
    destruct (gate.parser_ g _ _ _) as [[[pr|] [perr|]]|]; solve_invariant H.
  - unfold gate.LLMGate_Execute in H.
    destruct (gate.gitSvc g) as [diffs [gerr|]]; [solve_invariant H|].
    destruct (List.length diffs =? 0)%nat; [solve_invariant H|].
    destruct (List.length (git.FilterBySize diffs _).1 =? 0)%nat; [solve_invariant H|].
    destruct (gate.client g _) as [errs [cerr|]]; solve_invariant H.
  - unfold gate.skippedGate_Execute in H. solve_invariant H.
  - simpl. split; [done | intros; discriminate].
Qed.

(** The result of a skipped gate satisfies the invariant. *)
Lemma C5_gate_result_invariant_witness :
  gateResultInvariant
    (formatter.mkGateResult "lint" "exec" true false true 0 [] "" "").
Proof.
  apply C5_gate_result_invariant.
  apply (produced_skipped (gate.mkSkippedGate "lint" "exec") _ None).
  reflexivity.
Defined.

End GateFacts.

(** ** The pipeline (package [commands]) *)

Section PipelineFacts.

Variable filepath_Match : string -> string -> bool.
Variable filepath_Base : string -> string.
Variable indent : formatter.json -> string.

(** A run that reaches the exit-status step returns the error of that
    step. *)
Lemma Pipeline_Execute_reaches {G : Type} (p : commands.Pipeline G)
      (opts : commands.PipelineOpts) (result : formatter.RunResult) :
  reachesExitStatus filepath_Match filepath_Base p opts result ->
  exists effects,
    commands.Pipeline_Execute filepath_Match filepath_Base indent p opts
    = Some (commands.exitStatus opts result, effects).
Proof.
  intros (gates0 & stashed & files & gateInstances
          & Hload & Hglobal & Hdocker & Hstash & Hfiles & Hne & Hcreate & Hrun).
  unfold commands.Pipeline_Execute, commands.afterStash.
  rewrite Hload, Hglobal, Hdocker, Hstash, Hfiles. simpl.
  match goal with
  | |- context [(List.length ?l =? 0)%nat] =>
      destruct (Nat.eqb_spec (List.length l) 0) as [Hz|Hnz]
  end.
  - apply nil_length_inv in Hz. by destruct Hne.
  - rewrite Hcreate, Hrun. eauto.
Qed.

(** C7: a run that reaches the exit-status step returns the error
    decided there.  The dry-run variant returns nil whatever the verdict,
    and the process exits with 0.  The normal variant returns nil if and
    only if the run passed, and the sentinel [ErrGatesFailed] if and only
    if it did not; the sentinel makes the process exit with 1. *)
Theorem C7_exit_status {G : Type} (p : commands.Pipeline G)
        (opts : commands.PipelineOpts) (result : formatter.RunResult) :
  reachesExitStatus filepath_Match filepath_Base p opts result ->
  exists ret effects,
    commands.Pipeline_Execute filepath_Match filepath_Base indent p opts
    = Some (ret, effects)
    /\ (commands.DryRun opts = true ->
        ret = None /\ commands.dryRunCmd_exit ret = 0)
    /\ (commands.DryRun opts = false ->
        (ret = None <-> formatter.RunPassed result = true)
        /\ (ret = Some commands.ErrGatesFailed <-> formatter.RunPassed result = false)
        /\ (commands.runCmd_exit ret = 0 <-> formatter.RunPassed result = true)
        /\ (commands.runCmd_exit ret = 1 <-> formatter.RunPassed result = false)).
Proof.
  intros Hreach. destruct (Pipeline_Execute_reaches p opts result Hreach) as [effects He].
  exists (commands.exitStatus opts result), effects. split; [exact He|].
  unfold commands.exitStatus.
  destruct (commands.DryRun opts); (split; [intros Hd | intros Hd]); try discriminate Hd.
  - by split.
  - destruct (formatter.RunPassed result); simpl; split_and!; split; (done || discriminate).
Qed.

End PipelineFacts.

(** A normal run with one gate whose engine reports a failed run
    returns the sentinel. *)
Lemma C7_exit_status_witness :
  let cfg := config.mkGate "lint" config.GateTypeExec "true" "" "alpine" "" 0 None ""
                           [] [] false "" "" "" "" in
  let p : commands.Pipeline unit :=
    commands.mkPipeline unit (Some [cfg], None) true None (false, None) None
                        ([], None) None
                        (fun gates => ((fun _ => ()) <$> gates, None))
                        (fun _ _ _ => (Some (formatter.mkRunResult false 5 []), None))
                        None in
  let opts := commands.mkPipelineOpts false false false false false [] false in
  exists ret effects,
    commands.Pipeline_Execute (fun _ _ => false) (fun s => s) (fun _ => "") p opts
    = Some (ret, effects)
    /\ ret = Some commands.ErrGatesFailed.
Proof.
  intros cfg p opts.
  destruct (C7_exit_status (fun _ _ => false) (fun s => s) (fun _ => "") p opts
              (formatter.mkRunResult false 5 []))
    as (ret & effects & He & _ & Hn).
  - exists [cfg], false, [], [()]. simpl. split_and!; try reflexivity. discriminate.
  - exists ret, effects. split; [exact He|].
    destruct (Hn eq_refl) as (_ & Hs & _). apply Hs. reflexivity.
Defined.


(** ** Raw output (packages [gate] and [formatter]) *)

Section RawOutputFacts.

(** Once the command has run, the result of a container gate carries the
    standard output of the command; no argument of [Execute] tells
    whether verbose mode is on. *)
Lemma ContainerGate_Execute_RawOutput (hintDatabase : gmap string string)
      (elapsed : Z) (g : gate.ContainerGate) (r : formatter.GateResult)
      (e : option error) (containerID : string) (execResult : pool.ExecResult) :
  gate.pool g (config.Container (gate.cfg g)) (gate.project g)
            (config.Writable (gate.cfg g)) = (containerID, None) ->
  gate.executor g containerID (gate.buildCommand g) (effectiveTimeout (gate.cfg g))
  = (Some execResult, None) ->
  gate.ContainerGate_Execute hintDatabase elapsed g = Some (Some r, e) ->
  formatter.RawOutput r = pool.Stdout execResult.
Proof.
  unfold gate.ContainerGate_Execute, effectiveTimeout. intros -> -> H.
  destruct (gate.parser_ g _ _ _) as [[[pr|] [perr|]]|]; simpl in H;
    by simplify_eq.
Qed.

(** The machine-readable document of a gate result has the field
    [raw_output] exactly when the raw output is not empty. *)
Lemma marshalGateResult_raw_output (g : formatter.GateResult) :
  formatter.field "raw_output" (formatter.marshalGateResult g)
  = if String.eqb (formatter.RawOutput g) "" then None
    else Some (formatter.JStr (formatter.RawOutput g)).
Proof.
  unfold formatter.marshalGateResult, formatter.field, formatter.omitempty.
  destruct (negb (formatter.Skipped g)), (bool_decide (formatter.Errors g = [])),
    (String.eqb (formatter.SystemError g) ""), (String.eqb (formatter.RawOutput g) "");
    reflexivity.
Qed.

(** Without verbose mode the human-readable report of a gate does not
    depend on its raw output. *)
Lemma writeGate_quiet (color : bool) (b : string) (g : formatter.GateResult) (raw : string) :
  formatter.writeGate (formatter.mkCLIFormatter color false) b g
  = formatter.writeGate (formatter.mkCLIFormatter color false) b
      (formatter.mkGateResult
         (formatter.Name g) (formatter.Type_ g) (formatter.Passed g)
         (formatter.Blocking g) (formatter.Skipped g) (formatter.DurationMs g)
         (formatter.Errors g) (formatter.SystemError g) raw).
Proof. reflexivity. Qed.

Lemma CLIFormatter_Format_quiet (color : bool) (result : formatter.RunResult) :
  formatter.CLIFormatter_Format (formatter.mkCLIFormatter color false) result
  = formatter.CLIFormatter_Format (formatter.mkCLIFormatter color false)
      (withoutRawOutput result).
Proof.
  unfold formatter.CLIFormatter_Format, withoutRawOutput. simpl.
  destruct (negb (formatter.RunPassed result));
    match goal with
    | |- foldl _ ?b _ = _ => generalize b
    end;
    induction (formatter.Gates result) as [|g gs IH]; intros b; simpl; try done;
    rewrite <- IH; f_equal.
Qed.

(** C6 (amended): the raw standard output of the tool is retained in the
    result of every container-gate execution whose command ran, whether
    or not verbose mode is on; the machine-readable output has the field
    [raw_output] whenever the raw output is not empty; only the
    human-readable output leaves it out when verbose mode is off. *)
Theorem C6_raw_output :
  (forall hintDatabase elapsed g r e containerID execResult,
      gate.pool g (config.Container (gate.cfg g)) (gate.project g)
                (config.Writable (gate.cfg g)) = (containerID, None) ->
      gate.executor g containerID (gate.buildCommand g)
                    (effectiveTimeout (gate.cfg g)) = (Some execResult, None) ->
      gate.ContainerGate_Execute hintDatabase elapsed g = Some (Some r, e) ->
      formatter.RawOutput r = pool.Stdout execResult)
  /\ (forall g,
         formatter.field "raw_output" (formatter.marshalGateResult g)
         = if String.eqb (formatter.RawOutput g) "" then None
           else Some (formatter.JStr (formatter.RawOutput g)))
  /\ (forall color result,
         formatter.CLIFormatter_Format (formatter.mkCLIFormatter color false) result
         = formatter.CLIFormatter_Format (formatter.mkCLIFormatter color false)
             (withoutRawOutput result)).
Proof.
  split_and!.
  - apply ContainerGate_Execute_RawOutput.
  - apply marshalGateResult_raw_output.
  - apply CLIFormatter_Format_quiet.
Qed.

(** The lint gate retains "ok". *)
Lemma C6_raw_output_witness :
  let r := formatter.mkGateResult "lint" "exec" true true false 3 [] "" "ok" in
  gate.ContainerGate_Execute ∅ 3 lintGate = Some (Some r, None)
  /\ formatter.RawOutput r = "ok".
Proof.
  intros r. split; [reflexivity|].
  destruct C6_raw_output as (Hgate & _ & _).
  apply (Hgate ∅ 3 lintGate r None "c1" (pool.mkExecResult "ok" "" 0 1));
    reflexivity.
Defined.

(** C6 as stated fails: nothing tells the lint gate that verbose mode is
    on, and still its result retains the raw output "ok", which the
    machine-readable output of the run emits. *)
Lemma C6_counterexample :
  exists r,
    gate.ContainerGate_Execute ∅ 3 lintGate = Some (Some r, None)
    /\ formatter.RawOutput r = "ok"
    /\ formatter.field "raw_output" (formatter.marshalGateResult r)
       = Some (formatter.JStr "ok")
    /\ exists doc,
         formatter.field "gates"
           (formatter.marshalRunResult (formatter.mkRunResult true 3 [r]))
         = Some (formatter.JArr [doc])
         /\ formatter.field "raw_output" doc = Some (formatter.JStr "ok").
Proof.
  eexists. split; [reflexivity|]. split; [reflexivity|]. split; [reflexivity|].
  eexists. split; reflexivity.
Qed.

(** A run of the pipeline with [--json] and without [--verbose] prints
    a document whose gate has the field [raw_output]. *)
Lemma json_run_prints_raw_output (filepath_Match : string -> string -> bool)
      (filepath_Base : string -> string) (indent : formatter.json -> string) :
  let opts := commands.mkPipelineOpts false true false false false [] false in
  exists doc gateDoc,
    commands.Pipeline_Execute filepath_Match filepath_Base indent lintPipeline opts
    = Some (None, [commands.Stashed; commands.Stdout (indent doc)])
    /\ formatter.field "gates" doc = Some (formatter.JArr [gateDoc])
    /\ formatter.field "raw_output" gateDoc = Some (formatter.JStr "ok").
Proof.
  intros opts. eexists. eexists. split; [reflexivity|]. split; reflexivity.
Qed.

End RawOutputFacts.

(** ** The parsers (package [parser]) *)

Section ParserFacts.

Import parser.

(** The generic parser is fail-closed. *)
Lemma GenericParser_failClosed :
  failClosed GenericParser_Parse "Tool failed with no output".
Proof.
  intros stdout stderr exitCode Hout Hexit. unfold GenericParser_Parse.
  destruct (Z.eqb_spec exitCode 0) as [|_]; [done|].
  eexists. split; [reflexivity|]. split; [reflexivity|]. simpl.
  destruct (String.eqb_spec (gostrings.TrimSpace stderr) "") as [He|Hne].
  - rewrite Hout. simpl. reflexivity.
  - destruct (String.eqb_spec (gostrings.TrimSpace stderr) ""); done.
Qed.

(** The parser of the test event stream is fail-closed. *)
Lemma GoTestParser_failClosed (scanLines : string -> list string * option error)
      (json_Unmarshal : string -> testEvent + error) (quote : string -> string) :
  failClosed (GoTestParser_Parse scanLines json_Unmarshal quote)
             "go test failed with non-zero exit code and empty output".
Proof.
  intros stdout stderr exitCode Hout Hexit. unfold GoTestParser_Parse.
  rewrite Hout. simpl. destruct (Z.eqb_spec exitCode 0) as [|_]; [done|]. simpl.
  eexists. split; [reflexivity|]. split; reflexivity.
Qed.

(** The SARIF parser fails on the same inputs with one diagnostic of
    severity error, whose message is the standard error as it is. *)
Lemma SarifParser_fails (sarif_FromBytes : string -> sarif.Report + error)
      (ToLower : string -> string) (stdout stderr : string) (exitCode : Z) :
  gostrings.TrimSpace stdout = "" -> exitCode <> 0 ->
  exists d,
    SarifParser_Parse sarif_FromBytes ToLower stdout stderr exitCode
    = Some (Some (mkParseResult false [d]), None)
    /\ Severity d = "error"
    /\ Message d
       = if String.eqb stderr "" then
           "Tool failed with non-zero exit code and empty stdout"
         else stderr.
Proof.
  intros Hout Hexit. unfold SarifParser_Parse.
  rewrite Hout. simpl. destruct (Z.eqb_spec exitCode 0) as [|_]; [done|]. simpl.
  eexists. split; [reflexivity|]. split; reflexivity.
Qed.

(** C2, on the SARIF parser: with empty standard output, exit code 1 and
    the standard error "boom" followed by a newline, the message of the
    diagnostic is the standard error with its newline, not the trimmed
    "boom"; so this parser does not meet the fail-closed policy that the
    two other parsers meet. *)
Theorem C2_SarifParser_untrimmed (sarif_FromBytes : string -> sarif.Report + error)
        (ToLower : string -> string) (fallback : string) :
  SarifParser_Parse sarif_FromBytes ToLower "" ("boom" +:+ llm.nl) 1
  = Some (Some (mkParseResult false
                  [mkStructuredError "" 0 0 "error" "" ("boom" +:+ llm.nl) "" "sarif"]),
          None)
  /\ gostrings.TrimSpace ("boom" +:+ llm.nl) = "boom"
  /\ ~ failClosed (SarifParser_Parse sarif_FromBytes ToLower) fallback.
Proof.
  split; [reflexivity|]. split; [reflexivity|].
  intros H. destruct (H "" ("boom" +:+ llm.nl) 1) as (d & Hd & _ & Hm); [done | done |].
  vm_compute in Hd. inversion Hd; subst d. vm_compute in Hm. discriminate Hm.
Qed.

End ParserFacts.

(** ** The line-number validator (package [llm]) *)

Section ValidatorFacts.

Import llm.

(** The validator is a filter: it keeps the order and the multiplicity
    of the diagnostics that it keeps. *)
Lemma ValidateLineNumbers_filter (errors : list parser.StructuredError)
      (diffs : list git.FileDiff) :
  ValidateLineNumbers errors diffs
  = List.filter (kept (buildDiffLineMap diffs)) errors.
Proof.
  unfold ValidateLineNumbers.
  match goal with |- foldl ?F _ _ = _ => set (F0 := F) end.
  assert (H : forall acc,
             foldl F0 acc errors
             = acc ++ List.filter (kept (buildDiffLineMap diffs)) errors).
  { induction errors as [|e errors IH]; intros acc.
    - simpl. by rewrite app_nil_r.
    - cbn [foldl List.filter]. rewrite IH. subst F0. unfold kept. simpl.
      destruct (buildDiffLineMap diffs !! parser.File e) as [maxLine|]; [|done].
      destruct ((parser.Line e >? 0) && (parser.Line e >? maxLine)); simpl; [done|].
      by rewrite <- app_assoc. }
  apply H.
Qed.

(** The largest line of the hunk headers is never negative. *)
Lemma hunkMaxLine_nonneg (content : string) : 0 <= hunkMaxLine content.
Proof.
  unfold hunkMaxLine.
  assert (H : forall (lines : list string) (acc : Z), 0 <= acc ->
             0 <= foldl (fun maxLine line =>
                           if gostrings.HasPrefix line "@@ " then
                             let '(start, count) := parseHunkHeader line in
                             let end_ := goint.add start count in
                             if end_ >? maxLine then end_ else maxLine
                           else maxLine) acc lines).
  { induction lines as [|l lines IH]; intros acc Hacc; simpl; [done|].
    apply IH. destruct (gostrings.HasPrefix l "@@ "); [|done].
    destruct (parseHunkHeader l) as [start count].
    destruct (Z.gtb_spec (goint.add start count) acc); lia. }
  by apply H.
Qed.

Lemma lineBound_positive (content : string) : 0 < lineBound content.
Proof.
  unfold lineBound. pose proof (hunkMaxLine_nonneg content).
  destruct (Z.eqb_spec (hunkMaxLine content) 0); lia.
Qed.

(** The map of the upper bounds: the bound of the last diff of a path. *)
Lemma buildDiffLineMap_snoc (diffs : list git.FileDiff) (d : git.FileDiff) :
  buildDiffLineMap (diffs ++ [d])
  = <[git.Path d := lineBound (git.Content d)]> (buildDiffLineMap diffs).
Proof. unfold buildDiffLineMap. by rewrite foldl_app. Qed.

Lemma buildDiffLineMap_lookup (diffs : list git.FileDiff) (file : string) (maxLine : Z) :
  buildDiffLineMap diffs !! file = Some maxLine ->
  exists d, d ∈ diffs /\ git.Path d = file /\ maxLine = lineBound (git.Content d).
Proof.
  induction diffs as [|d diffs IH] using rev_ind.
  - unfold buildDiffLineMap. simpl. by rewrite lookup_empty.
  - rewrite buildDiffLineMap_snoc.
    destruct (decide (git.Path d = file)) as [<-|Hne].
    + rewrite lookup_insert_eq. intros [= <-]. exists d. split; [|done].
      apply elem_of_app. right. by apply list_elem_of_singleton.
    + rewrite lookup_insert_ne by done. intros H.
      destruct (IH H) as (d' & Hin & Hp & Hm). exists d'. split; [|done].
      apply elem_of_app. by left.
Qed.

Lemma buildDiffLineMap_absent (diffs : list git.FileDiff) (file : string) :
  buildDiffLineMap diffs !! file = None <-> file ∉ git.Path <$> diffs.
Proof.
  induction diffs as [|d diffs IH] using rev_ind.
  - unfold buildDiffLineMap. simpl. rewrite lookup_empty. split; [|done].
    intros _ H. by apply elem_of_nil in H.
  - rewrite buildDiffLineMap_snoc, fmap_app, not_elem_of_app. simpl.
    destruct (decide (git.Path d = file)) as [<-|Hne].
    + rewrite lookup_insert_eq. split; [done|]. intros [_ H]. exfalso. apply H.
      by apply list_elem_of_singleton.
    + rewrite lookup_insert_ne by done. rewrite IH. split; [|tauto].
      intros H. split; [done|]. intros H'. apply list_elem_of_singleton in H'. done.
Qed.

(** What the validator keeps: the diagnostics whose file has a diff and
    whose line is at most the bound recorded for the file. *)
Lemma ValidateLineNumbers_spec (errors : list parser.StructuredError)
      (diffs : list git.FileDiff) (e : parser.StructuredError) :
  e ∈ ValidateLineNumbers errors diffs
  <-> e ∈ errors
      /\ exists maxLine, buildDiffLineMap diffs !! parser.File e = Some maxLine
                         /\ parser.Line e <= maxLine.
Proof.
  rewrite ValidateLineNumbers_filter, !list_elem_of_In, filter_In. unfold kept.
  split.
  - intros [Hin Hk]. split; [done|].
    destruct (buildDiffLineMap diffs !! parser.File e) as [maxLine|] eqn:Hl; [|done].
    exists maxLine. split; [done|].
    destruct (buildDiffLineMap_lookup _ _ _ Hl) as (d & _ & _ & ->).
    pose proof (lineBound_positive (git.Content d)).
    destruct (Z.gtb_spec (parser.Line e) 0), (Z.gtb_spec (parser.Line e) (lineBound (git.Content d)));
      simpl in Hk; (done || lia).
  - intros [Hin (maxLine & Hl & Hle)]. split; [done|]. rewrite Hl.
    destruct (Z.gtb_spec (parser.Line e) maxLine); [lia|].
    by rewrite andb_false_r.
Qed.

(** The diagnostics of a file without a diff are all dropped. *)
Lemma ValidateLineNumbers_absent (errors : list parser.StructuredError)
      (diffs : list git.FileDiff) (e : parser.StructuredError) :
  parser.File e ∉ git.Path <$> diffs -> e ∉ ValidateLineNumbers errors diffs.
Proof.
  intros Habs. rewrite ValidateLineNumbers_spec. intros [_ (maxLine & Hl & _)].
  apply buildDiffLineMap_absent in Habs. congruence.
Qed.

(** The scenario of the hallucination filter: only the diagnostic at
    line 15 of a.go survives. *)
Lemma ValidateLineNumbers_scenario :
  ValidateLineNumbers
    [issue "a.go" 15; issue "a.go" 999; issue "unknown.go" 1]
    [git.mkFileDiff "a.go" ("@@ -1,3 +10,20 @@" +:+ nl +:+ "+code")]
  = [issue "a.go" 15].
Proof. vm_compute. reflexivity. Qed.

(** C3, on the diff of a deleted file: its only hunk header is
    "@@ -1,3 +0,0 @@", whose "+" side gives start 0 and count 0, so the
    largest line it references is 0; the validator takes 0 for "no hunk
    header", uses the default bound 10000 and keeps a diagnostic at line
    5 of the file, beyond every line that the hunk headers reference. *)
Theorem C3_deleted_file_keeps_hallucination :
  parseHunkHeader "@@ -1,3 +0,0 @@" = (0, 0)
  /\ hunkMaxLine (git.Content deletedFileDiff) = 0
  /\ buildDiffLineMap [deletedFileDiff] !! "a.go" = Some 10000
  /\ ValidateLineNumbers [issue "a.go" 5] [deletedFileDiff] = [issue "a.go" 5].
Proof. vm_compute. repeat split; reflexivity. Qed.

End ValidatorFacts.

(** ** The executor and the labels of a sandbox (package [pool]) *)

Section ExecutorFacts.

Import pool.

Variable sha256_Sum256 : string -> string.
Variable formatRFC3339 : Z -> string.
Variable behaviour : list string -> string * string * Z.

(** [Executor.Run] calls the runtime for nothing but its exec session:
    whatever the exec operations of a runtime leave unchanged, a run of
    the executor leaves unchanged. *)
Lemma Executor_Run_preserves {S A : Type} (runtime : ContainerRuntime S)
      (observe : S -> A) :
  (forall id opts s, observe (ContainerExecCreate runtime id opts s).2 = observe s) ->
  (forall id tty s, observe (ContainerExecAttach runtime id tty s).2 = observe s) ->
  (forall id s, observe (ContainerExecInspect runtime id s).2 = observe s) ->
  forall wait elapsed containerID command timeout s,
    observe (Executor_Run runtime wait elapsed containerID command timeout s).2
    = observe s.
Proof.
  intros Hcreate Hattach Hinspect wait elapsed containerID command timeout s.
  unfold Executor_Run.
  specialize (Hcreate containerID
                (mkExecOptions ["sh"; "-c"; command] true true false) s).
  destruct (ContainerExecCreate runtime _ _ s) as [[execID [err|]] s1];
    simpl in *; [done|].
  specialize (Hattach execID false s1).
  destruct (ContainerExecAttach runtime _ _ s1) as [[resp [err|]] s2];
    simpl in *; [congruence|].
  destruct wait; simpl; try congruence.
  destruct (demuxErr resp); simpl; [congruence|].
  specialize (Hinspect execID s2).
  destruct (ContainerExecInspect runtime _ s2) as [[exitCode [err|]] s3];
    simpl in *; congruence.
Qed.

(** On the container engine a run of the executor leaves every
    container, and so every label, as it was. *)
Lemma Executor_Run_containers (wait : waitOutcome) (elapsed : Z)
      (containerID command : string) (timeout : Z) (e : Engine) :
  containers (Executor_Run (engineRuntime behaviour) wait elapsed
                           containerID command timeout e).2
  = containers e.
Proof.
  apply (Executor_Run_preserves (engineRuntime behaviour) containers).
  - intros id opts s. simpl. destruct (findContainer id s) as [c|]; [|done].
    by destruct (cRunning c).
  - intros id tty s. simpl.
    destruct (List.find _ (execs s)) as [[xid cmd]|]; [|done].
    by destruct (behaviour cmd) as [[out err] code].
  - intros id s. simpl. by destruct (List.find _ (execs s)) as [[xid cmd]|].
Qed.

(** The label after a run is the label written at creation. *)
Lemma lastUsed_after_run (t0 : Z) (img projectPath command : string)
      (wait : waitOutcome) (elapsed timeout : Z) :
  let rt := engineRuntime behaviour in
  let created :=
    GetOrCreate sha256_Sum256 formatRFC3339 rt t0 ("", None) img projectPath false
                emptyEngine in
  let ran := Executor_Run rt wait elapsed created.1.1 command timeout created.2 in
  created.1 = ("c0", None)
  /\ lastUsed "c0" created.2 = Some (formatRFC3339 t0)
  /\ lastUsed "c0" ran.2 = Some (formatRFC3339 t0).
Proof.
  intros rt created ran.
  assert (Hc : created.1 = ("c0", None)) by reflexivity.
  assert (Hl : lastUsed "c0" created.2 = Some (formatRFC3339 t0)).
  { unfold lastUsed, labelsOf. simpl. apply lookup_insert_eq. }
  split; [done|]. split; [done|].
  unfold lastUsed, labelsOf, findContainer in *. unfold ran.
  by rewrite Executor_Run_containers.
Qed.

(** With a clock whose readings print differently, a run at a later
    time leaves a label that is not the time of the run. *)
Lemma lastUsed_stale (t0 t1 : Z) (img projectPath command : string)
      (wait : waitOutcome) (elapsed timeout : Z) :
  formatRFC3339 t0 <> formatRFC3339 t1 ->
  let rt := engineRuntime behaviour in
  let created :=
    GetOrCreate sha256_Sum256 formatRFC3339 rt t0 ("", None) img projectPath false
                emptyEngine in
  let ran := Executor_Run rt wait elapsed created.1.1 command timeout created.2 in
  lastUsed "c0" ran.2 <> Some (formatRFC3339 t1).
Proof.
  intros Hne rt created ran.
  destruct (lastUsed_after_run t0 img projectPath command wait elapsed timeout)
    as (_ & _ & H).
  fold rt created ran in H. rewrite H. congruence.
Qed.

(** C4, on the container engine: the pool creates a sandbox at the clock
    reading [t0]; whenever a command is then run in it, and whatever the
    outcome, the [last_used] label of the sandbox is still the time of its
    creation: the executor does not update it. *)
Theorem C4_last_used_not_updated (t0 : Z) (img projectPath command : string)
        (wait : waitOutcome) (elapsed timeout : Z) :
  let rt := engineRuntime behaviour in
  let created :=
    GetOrCreate sha256_Sum256 formatRFC3339 rt t0 ("", None) img projectPath false
                emptyEngine in
  let ran := Executor_Run rt wait elapsed created.1.1 command timeout created.2 in
  created.1 = ("c0", None)
  /\ lastUsed "c0" created.2 = Some (formatRFC3339 t0)
  /\ lastUsed "c0" ran.2 = Some (formatRFC3339 t0).
Proof. apply lastUsed_after_run. Qed.

End ExecutorFacts.

(** ** Agreement with the unit tests of the repository *)

Section UnitTests.

Import runner.

(** TestRunAll_Empty *)
Example test_RunAll_Empty :
  RunAll false [] 0 [] false [] = (Some (formatter.mkRunResult true 0 []), None).
Proof. reflexivity. Qed.

(** TestRunAll_AllPass *)
Example test_RunAll_AllPass :
  RunAll false [] 4 [newPassGate "lint"; newPassGate "test"; newPassGate "vet"]
         false []
  = (Some (formatter.mkRunResult true 4
             [passResult "lint"; passResult "test"; passResult "vet"]), None).
Proof. reflexivity. Qed.

(** TestRunAll_BlockingFail *)
Example test_RunAll_BlockingFail :
  RunAll false [] 4 [newPassGate "lint"; newFailGate "test" true; newPassGate "vet"]
         false []
  = (Some (formatter.mkRunResult false 4
             [passResult "lint"; failResult "test" true; passResult "vet"]), None).
Proof. reflexivity. Qed.

(** TestRunAll_NonBlockingFail *)
Example test_RunAll_NonBlockingFail :
  RunAll false [] 4 [newPassGate "lint"; newFailGate "review" false; newPassGate "vet"]
         false []
  = (Some (formatter.mkRunResult true 4
             [passResult "lint"; failResult "review" false; passResult "vet"]), None).
Proof. reflexivity. Qed.

(** TestRunAll_SystemError: the error of the gate is reported by a
    placeholder, which is not blocking. *)
Example test_RunAll_SystemError :
  RunAll false [] 4 [newPassGate "lint"; newErrorGate] false []
  = (Some (formatter.mkRunResult true 4
             [passResult "lint"; placeholder (errors.New "system error")]), None).
Proof. reflexivity. Qed.

(** TestRunAll_FailFast, when the slow gate has started before the
    failure: it is cancelled and reports the error of the context. *)
Example test_RunAll_FailFast_started :
  RunAll false [Step 1; Step 0; Step 0; Step 1] 4
         [newFailGate "lint" true; newSlowGate "slow_test"] true []
  = (Some (formatter.mkRunResult false 4
             [failResult "lint" true; placeholder contextCanceled]), None).
Proof. reflexivity. Qed.

(** TestRunAll_FailFast, when the slow gate has not started before the
    failure: it never runs and has no result. *)
Example test_RunAll_FailFast_not_started :
  RunAll false [Step 0; Step 0] 4
         [newFailGate "lint" true; newSlowGate "slow_test"] true []
  = (Some (formatter.mkRunResult false 4 [failResult "lint" true]), None).
Proof. reflexivity. Qed.

(** The results are collected in the order of the gates, whatever the
    order in which the gates return. *)
Example test_RunAll_order :
  RunAll false [Step 2; Step 2; Step 1; Step 1; Step 0; Step 0] 4
         [newPassGate "lint"; newPassGate "test"; newPassGate "vet"] false []
  = (Some (formatter.mkRunResult true 4
             [passResult "lint"; passResult "test"; passResult "vet"]), None).
Proof. reflexivity. Qed.

(** TestRunAll_ContextCancelled *)
Example test_RunAll_ContextCancelled :
  RunAll true [] 4 [newSlowGate "gate1"] false []
  = (Some (formatter.mkRunResult true 4 []), None).
Proof. reflexivity. Qed.

(** TestRunAll_SystemErrorBlocking *)
Example test_RunAll_SystemErrorBlocking :
  let r := formatter.mkGateResult "docker_check" "exec" false true false 0 []
                                  "container crashed" "" in
  RunAll false [] 4 [fun _ => (Some r, None)] false []
  = (Some (formatter.mkRunResult false 4 [r]), None).
Proof. reflexivity. Qed.

(** TestParseHunkHeader_Standard and TestParseHunkHeader_SingleLine *)
Example test_parseHunkHeader :
  llm.parseHunkHeader "@@ -1,3 +10,20 @@" = (10, 20)
  /\ llm.parseHunkHeader "@@ -1 +5 @@" = (5, 1).
Proof. vm_compute. split; reflexivity. Qed.

(** TestValidateLineNumbers_ValidLines, _HallucinatedLine, _UnknownFile
    and _EmptyInput *)
Example test_ValidateLineNumbers :
  let diffs := [git.mkFileDiff "main.go"
                  ("@@ -1,3 +1,5 @@" +:+ llm.nl +:+ "+line1" +:+ llm.nl +:+ "+line2")] in
  llm.ValidateLineNumbers [issue "main.go" 3] diffs = [issue "main.go" 3]
  /\ llm.ValidateLineNumbers [issue "main.go" 100] diffs = []
  /\ llm.ValidateLineNumbers [issue "nonexistent.go" 1] diffs = []
  /\ llm.ValidateLineNumbers [] [] = [].
Proof. vm_compute. repeat split; reflexivity. Qed.

(** TestSarifParser_EmptyStdout_NonZeroExit and _ZeroExit *)
Example test_SarifParser_EmptyStdout (sarif_FromBytes : string -> parser.sarif.Report + error)
        (ToLower : string -> string) :
  parser.SarifParser_Parse sarif_FromBytes ToLower "   " "stderr output" 1
  = Some (Some (parser.mkParseResult false
                  [parser.mkStructuredError "" 0 0 "error" "" "stderr output" "" "sarif"]),
          None)
  /\ parser.SarifParser_Parse sarif_FromBytes ToLower "" "" 0
     = Some (Some (parser.mkParseResult true []), None).
Proof. split; reflexivity. Qed.

(** TestGoTestParser_EmptyStdout_NonZeroExit *)
Example test_GoTestParser_EmptyStdout
        (scanLines : string -> list string * option error)
        (json_Unmarshal : string -> parser.testEvent + error) (quote : string -> string) :
  parser.GoTestParser_Parse scanLines json_Unmarshal quote "   " "build failed" 2
  = Some (Some (parser.mkParseResult false
                  [parser.mkStructuredError "" 0 0 "error" "" "build failed" "" "go-test"]),
          None).
Proof. reflexivity. Qed.

End UnitTests.

(** ** Invariants of the parsers (package [parser]) *)

Section ParserInvariants.

Import parser.

Lemma EnrichHints_twice (hintDatabase : gmap string string)
      (errors : list StructuredError) :
  EnrichHints hintDatabase (EnrichHints hintDatabase errors)
  = EnrichHints hintDatabase errors.
Proof.
  unfold EnrichHints. rewrite <- list_fmap_compose.
  apply list_fmap_ext. intros _ e _. simpl.
  destruct (String.eqb_spec (Hint e) "") as [He|He]; simpl.
  - destruct (hintDatabase !! Rule e) as [hint|] eqn:Hdb; simpl.
    + rewrite Hdb. destruct (String.eqb hint ""); reflexivity.
    + rewrite Hdb. destruct (String.eqb_spec (Hint e) ""); [reflexivity|contradiction].
  - destruct (String.eqb_spec (Hint e) ""); [contradiction|reflexivity].
Qed.

(** [EnrichHints] keeps the number and the order of the diagnostics, and
    every field but the hint; a hint that the tool gave is kept, and an
    empty hint becomes the entry of the table for the rule, if any.
    Applied twice it is as applied once. *)
Theorem EnrichHints_fields (hintDatabase : gmap string string)
        (errors : list StructuredError) :
  Forall2 (fun e e' =>
             File e' = File e /\ Line e' = Line e /\ Column e' = Column e
             /\ Severity e' = Severity e /\ Rule e' = Rule e
             /\ Message e' = Message e /\ Tool e' = Tool e
             /\ Hint e' = if String.eqb (Hint e) ""
                          then default "" (hintDatabase !! Rule e)
                          else Hint e)
          errors (EnrichHints hintDatabase errors)
  /\ EnrichHints hintDatabase (EnrichHints hintDatabase errors)
     = EnrichHints hintDatabase errors.
Proof.
  split; [|apply EnrichHints_twice].
  unfold EnrichHints. apply Forall2_fmap_r, Forall_Forall2_diag, Forall_forall.
  intros e _. simpl.
  destruct (String.eqb_spec (Hint e) "") as [He|He]; simpl.
  - destruct (hintDatabase !! Rule e); simpl; split_and!; simpl; try rewrite He; reflexivity.
  - split_and!; reflexivity.
Qed.

(** What [GenericParser.Parse] returns: it passes exactly on exit code 0,
    without a diagnostic; otherwise it gives one diagnostic of severity
    error whose message is not empty: the trimmed standard error, or the
    trimmed standard output when the standard error is blank. *)
Theorem GenericParser_result (stdout stderr : string) (exitCode : Z) :
  exists r,
    GenericParser_Parse stdout stderr exitCode = Some (Some r, None)
    /\ Passed r = (exitCode =? 0)
    /\ exists msg,
         Errors r = (if exitCode =? 0 then []
                     else [mkStructuredError "" 0 0 "error" "" msg "" "generic"])
         /\ msg <> ""
         /\ msg = if negb (String.eqb (gostrings.TrimSpace stderr) "")
                  then gostrings.TrimSpace stderr
                  else if negb (String.eqb (gostrings.TrimSpace stdout) "")
                       then gostrings.TrimSpace stdout
                       else "Tool failed with no output".
Proof.
  set (msg := if negb (String.eqb (gostrings.TrimSpace stderr) "")
              then gostrings.TrimSpace stderr
              else if negb (String.eqb (gostrings.TrimSpace stdout) "")
                   then gostrings.TrimSpace stdout
                   else "Tool failed with no output").
  assert (Hmsg : msg <> "").
  { subst msg.
    destruct (String.eqb_spec (gostrings.TrimSpace stderr) ""); simpl;
      [destruct (String.eqb_spec (gostrings.TrimSpace stdout) ""); simpl|];
      try assumption; discriminate. }
  unfold GenericParser_Parse. destruct (exitCode =? 0).
  - eexists. split; [reflexivity|]. split; [reflexivity|].
    exists msg. split; [reflexivity|]. split; [assumption|reflexivity].
  - eexists. split; [reflexivity|]. split; [reflexivity|].
    exists msg. split; [|split; [assumption|reflexivity]].
    simpl. do 2 f_equal. subst msg.
    destruct (String.eqb (gostrings.TrimSpace stderr) "") eqn:He; simpl.
    + destruct (String.eqb (gostrings.TrimSpace stdout) "") eqn:Ho; simpl;
        reflexivity.
    + rewrite He. reflexivity.
Qed.

Section SarifInvariant.

Variable sarif_FromBytes : string -> sarif.Report + error.
Variable ToLower : string -> string.

Lemma sarifOutcome_severity (toolName : string) (outcome : option sarif.Result)
      (e : StructuredError) (isError : bool) :
  sarifOutcome ToLower toolName outcome = Some (e, isError) ->
  (isError = false <-> Severity e <> "error")
  /\ Severity e ∈ ["error"; "warning"; "info"].
Proof.
  unfold sarifOutcome. destruct outcome as [o|]; simpl; [|discriminate].
  destruct (sarifLocation o) as [[[file line] col]|]; simpl.
  - destruct (String.eqb (ToLower (default "info" (sarif.Level o))) "error").
    + intros [= <- <-]. simpl. split; [split; [discriminate|congruence]|set_solver].
    + destruct (String.eqb (ToLower (default "info" (sarif.Level o))) "warning");
        intros [= <- <-]; simpl; (split; [split; [discriminate|reflexivity]|set_solver]).
  - destruct (String.eqb (ToLower (default "info" (sarif.Level o))) "error");
      [discriminate|].
    destruct (String.eqb (ToLower (default "info" (sarif.Level o))) "warning");
      discriminate.
Qed.

Lemma sarifInv_snoc (acc : list StructuredError * bool) (e : StructuredError)
      (isError : bool) :
  sarifInv acc ->
  (isError = false <-> Severity e <> "error") ->
  Severity e ∈ ["error"; "warning"; "info"] ->
  sarifInv (acc.1 ++ [e], acc.2 || isError).
Proof.
  intros [Hf Hs] He Hin. split; simpl.
  - rewrite Forall_app, Forall_singleton, orb_false_iff. tauto.
  - rewrite Forall_app, Forall_singleton. tauto.
Qed.

Lemma sarifRun_inv (run : option sarif.Run) (acc acc' : list StructuredError * bool) :
  sarifInv acc -> sarifRun ToLower acc run = Some acc' -> sarifInv acc'.
Proof.
  unfold sarifRun. destruct run as [run|]; simpl; [|discriminate].
  destruct (sarif.Tool_Driver run) as [toolName|]; simpl; [|discriminate].
  match goal with |- context [foldl ?F _ _] => set (F0 := F) end.
  assert (H : forall results (a : option (list StructuredError * bool)),
             foldl F0 a results = Some acc' ->
             exists acc0, a = Some acc0 /\ (sarifInv acc0 -> sarifInv acc')).
  { induction results as [|o results IH]; intros a; cbn [foldl].
    - intros ->. eauto.
    - intros Hfold. destruct (IH _ Hfold) as (acc1 & Hstep & Hinv).
      subst F0. simpl in Hstep.
      destruct a as [[errs failed]|]; simpl in Hstep; [|discriminate].
      destruct (sarifOutcome ToLower toolName o) as [[e isError]|] eqn:Ho;
        simpl in Hstep; [|discriminate].
      injection Hstep as <-. eexists. split; [reflexivity|].
      intros Hacc. apply Hinv.
      destruct (sarifOutcome_severity _ _ _ _ Ho).
      apply (sarifInv_snoc (errs, failed)); assumption. }
  intros Hacc Hfold. destruct (H _ _ Hfold) as (acc0 & [= <-] & Hinv). auto.
Qed.

(** Every result of [SarifParser.Parse] passes exactly when none of its
    diagnostics has severity error, whatever the exit code; the severity
    of a diagnostic is error, warning or info. *)
Theorem SarifParser_passed_iff (stdout stderr : string) (exitCode : Z)
        (r : ParseResult) (err : option error) :
  SarifParser_Parse sarif_FromBytes ToLower stdout stderr exitCode = Some (Some r, err) ->
  (Passed r = true <-> Forall (fun e => Severity e <> "error") (Errors r))
  /\ Forall (fun e => Severity e ∈ ["error"; "warning"; "info"]) (Errors r).
Proof.
  unfold SarifParser_Parse.
  destruct (String.eqb (gostrings.TrimSpace stdout) "").
  - destruct (exitCode =? 0); simpl; intros [= <- <-]; simpl.
    + split; [split; auto|constructor].
    + split.
      * split; [discriminate|]. rewrite Forall_singleton. simpl. congruence.
      * rewrite Forall_singleton. simpl. set_solver.
  - destruct (sarif_FromBytes stdout) as [report|e]; [|discriminate].
    match goal with |- context [foldl ?F _ _] => set (F0 := F) end.
    assert (H : forall runs (a : option (list StructuredError * bool)) acc',
               foldl F0 a runs = Some acc' ->
               exists acc0, a = Some acc0 /\ (sarifInv acc0 -> sarifInv acc')).
    { induction runs as [|run runs IH]; intros a acc'; cbn [foldl].
      - intros ->. eauto.
      - intros Hfold. destruct (IH _ _ Hfold) as (acc1 & Hstep & Hinv).
        subst F0. simpl in Hstep.
        destruct a as [acc0|]; simpl in Hstep; [|discriminate].
        eexists. split; [reflexivity|]. intros Hacc. apply Hinv.
        eapply sarifRun_inv; eassumption. }
    destruct (foldl F0 (Some ([], false)) (sarif.Runs report)) as [[errs failed]|] eqn:Hfold;
      simpl; [|discriminate].
    intros [= <- <-]. simpl.
    destruct (H _ _ _ Hfold) as (acc0 & [= <-] & Hinv).
    destruct Hinv as [Hf Hs].
    { split; simpl; [split; auto|constructor]. }
    simpl in Hf, Hs. split; [|assumption].
    rewrite negb_true_iff. assumption.
Qed.

(** With standard output that is not blank, [SarifParser.Parse] reads
    neither the exit code nor the standard error. *)
Theorem SarifParser_ignores_exit_code (stdout stderr stderr' : string)
        (exitCode exitCode' : Z) :
  gostrings.TrimSpace stdout <> "" ->
  SarifParser_Parse sarif_FromBytes ToLower stdout stderr exitCode
  = SarifParser_Parse sarif_FromBytes ToLower stdout stderr' exitCode'.
Proof.
  intros Hne. unfold SarifParser_Parse.
  destruct (String.eqb_spec (gostrings.TrimSpace stdout) ""); [contradiction|reflexivity].
Qed.

End SarifInvariant.

Section GoTestInvariant.

Variable scanLines : string -> list string * option error.
Variable json_Unmarshal : string -> testEvent + error.
Variable quote : string -> string.

Lemma failureMessage_nonempty (outputs : gmap string (list string))
      (key fallback : string) :
  fallback <> "" -> failureMessage outputs key fallback <> "".
Proof.
  intros Hne. unfold failureMessage.
  destruct (String.eqb_spec
              (gostrings.TrimSpace (gostrings.Join (default [] (outputs !! key)))) "");
    assumption.
Qed.

Lemma testFailures_diagnostics (outputs : gmap string (list string))
      (events : list testEvent) :
  Forall goTestDiagnostic (testFailures outputs events).1.
Proof.
  unfold testFailures.
  match goal with |- context [foldl ?F ?i _] => set (F0 := F); set (init := i) end.
  assert (H : forall evs acc, Forall goTestDiagnostic acc.1 ->
                              Forall goTestDiagnostic (foldl F0 acc evs).1).
  { induction evs as [|ev evs IH]; intros acc Hacc; cbn [foldl]; [assumption|].
    apply IH. subst F0. destruct acc as [errs failed]. simpl in *.
    destruct (negb (String.eqb (Action ev) "fail") || String.eqb (Test ev) "");
      simpl; [assumption|].
    rewrite Forall_app, Forall_singleton. split; [assumption|].
    repeat split. simpl. apply failureMessage_nonempty. discriminate. }
  apply H. constructor.
Qed.

Lemma packageFailures_diagnostics (outputs : gmap string (list string))
      (failedPackages : gset string) (errors : list StructuredError)
      (events : list testEvent) :
  Forall goTestDiagnostic errors ->
  Forall goTestDiagnostic (packageFailures outputs failedPackages errors events).
Proof.
  unfold packageFailures.
  match goal with |- context [foldl ?F _ _] => set (F0 := F) end.
  revert errors. induction events as [|ev evs IH]; intros errs Hacc; cbn [foldl];
    [assumption|].
  apply IH. subst F0. simpl.
  destruct (negb (String.eqb (Action ev) "fail") || negb (String.eqb (Test ev) ""));
    [assumption|].
  destruct (bool_decide (Package ev ∈ failedPackages)); [assumption|].
  rewrite Forall_app, Forall_singleton. split; [assumption|].
  repeat split. simpl. apply failureMessage_nonempty. discriminate.
Qed.

(** Every result of [GoTestParser.Parse] passes exactly when it has no
    diagnostic and the exit code is 0; each diagnostic has severity
    error, the tool go-test, no line and a message that is not empty. *)
Theorem GoTestParser_passed_iff (stdout stderr : string) (exitCode : Z)
        (r : ParseResult) (err : option error) :
  GoTestParser_Parse scanLines json_Unmarshal quote stdout stderr exitCode
  = Some (Some r, err) ->
  (Passed r = true <-> Errors r = [] /\ exitCode = 0)
  /\ Forall (fun e => Severity e = "error" /\ Tool e = "go-test"
                      /\ Line e = 0 /\ Message e <> "")
            (Errors r).
Proof.
  unfold GoTestParser_Parse.
  destruct (String.eqb (gostrings.TrimSpace stdout) "").
  - destruct (Z.eqb_spec exitCode 0) as [Hc|Hc]; simpl; intros [= <- <-]; simpl.
    + split; [tauto|constructor].
    + split; [split; [discriminate|intros [[=] _]]|].
      rewrite Forall_singleton. simpl. repeat split.
      destruct (String.eqb_spec (gostrings.TrimSpace stderr) ""); [discriminate|assumption].
  - destruct (parseEvents scanLines json_Unmarshal quote stdout) as [events|e];
      [|discriminate].
    pose proof (testFailures_diagnostics (collectOutputs events) events) as Ht.
    destruct (testFailures (collectOutputs events) events) as [errs failed].
    intros [= <- <-]. simpl in *. split.
    + rewrite andb_true_iff, bool_decide_eq_true, Z.eqb_eq. tauto.
    + apply (packageFailures_diagnostics _ _ _ _ Ht).
Qed.

End GoTestInvariant.

End ParserInvariants.

(** A report with one warning passes, with exit code 1. *)
Lemma SarifParser_passed_iff_witness :
  let report :=
    parser.sarif.Build_Report
      [Some (parser.sarif.Build_Run
               (Some "lint")
               [Some (parser.sarif.Build_Result (Some "warning") None None [])])] in
  let r :=
    parser.mkParseResult
      true [parser.mkStructuredError "" 0 0 "warning" "" "" "" "lint"] in
  parser.SarifParser_Parse (fun _ => inl report) (fun s => s) "{}" "" 1
  = Some (Some r, None)
  /\ (parser.Passed r = true
      <-> Forall (fun e => parser.Severity e <> "error") (parser.Errors r)).
Proof.
  intros report r. split; [reflexivity|].
  exact (proj1 (SarifParser_passed_iff (fun _ => inl report) (fun s => s)
                                       "{}" "" 1 r None eq_refl)).
Defined.

Lemma SarifParser_ignores_exit_code_witness :
  parser.SarifParser_Parse (fun _ => inl (parser.sarif.Build_Report []))
                           (fun s => s) "{}" "" 0
  = parser.SarifParser_Parse (fun _ => inl (parser.sarif.Build_Report []))
                             (fun s => s) "{}" "boom" 1.
Proof.
  apply SarifParser_ignores_exit_code. vm_compute. discriminate.
Defined.

(** A failed test with exit code 1. *)
Lemma GoTestParser_passed_iff_witness :
  let r :=
    parser.mkParseResult
      false [parser.mkStructuredError "pkg" 0 0 "error" "" "test TestA failed" ""
                                      "go-test"] in
  parser.GoTestParser_Parse (fun s => ([s], None))
                            (fun _ => inl (parser.mkTestEvent "fail" "pkg" "TestA" ""))
                            (fun s => s) "{}" "" 1
  = Some (Some r, None)
  /\ (parser.Passed r = true <-> parser.Errors r = [] /\ 1 = 0).
Proof.
  intros r. split; [reflexivity|].
  exact (proj1 (GoTestParser_passed_iff
                  (fun s => ([s], None))
                  (fun _ => inl (parser.mkTestEvent "fail" "pkg" "TestA" ""))
                  (fun s => s) "{}" "" 1 r None eq_refl)).
Defined.

(** ** The staged diffs and the review gate (packages [git], [llm], [gate]) *)

Section ReviewFacts.

Lemma filter_sublist' {A} (f : A -> bool) (l : list A) : sublist (List.filter f l) l.
Proof.
  induction l as [|x l IH]; simpl; [constructor|].
  destruct (f x); [apply sublist_skip|apply sublist_cons]; assumption.
Qed.

Lemma FilterBySize_filter (diffs : list git.FileDiff) (maxSize : Z) :
  0 < maxSize ->
  git.FilterBySize diffs maxSize
  = (List.filter (fun d => negb (Z.of_nat (String.length (git.Content d)) >? maxSize)) diffs,
     List.filter (fun d => Z.of_nat (String.length (git.Content d)) >? maxSize) diffs).
Proof.
  intros Hpos. unfold git.FilterBySize.
  destruct (Z.leb_spec maxSize 0); [lia|].
  match goal with |- context [foldl ?F _ _] => set (F0 := F) end.
  assert (Hloop : forall ds inc skp,
             foldl F0 (inc, skp) ds
             = (inc ++ List.filter (fun d => negb (Z.of_nat (String.length (git.Content d)) >? maxSize)) ds,
                skp ++ List.filter (fun d => Z.of_nat (String.length (git.Content d)) >? maxSize) ds)).
  { induction ds as [|d ds IH]; intros inc skp; cbn [foldl].
    - simpl. rewrite !app_nil_r. reflexivity.
    - subst F0. simpl.
      destruct (Z.of_nat (String.length (git.Content d)) >? maxSize); simpl;
        rewrite IH, <- ?app_assoc; reflexivity. }
  apply Hloop.
Qed.

(** [FilterBySize] loses and repeats nothing: the diffs kept and the
    diffs skipped are sub-sequences of the input and, together, a
    permutation of it.  With a positive limit a diff is kept exactly when
    its content has at most that many bytes; without one, all are kept. *)
Theorem FilterBySize_partition (diffs : list git.FileDiff) (maxSize : Z) :
  let included := (git.FilterBySize diffs maxSize).1 in
  let skipped := (git.FilterBySize diffs maxSize).2 in
  included ++ skipped ≡ₚ diffs
  /\ sublist included diffs /\ sublist skipped diffs
  /\ Forall (fun d => maxSize <= 0
                      \/ Z.of_nat (String.length (git.Content d)) <= maxSize) included
  /\ Forall (fun d => 0 < maxSize < Z.of_nat (String.length (git.Content d))) skipped.
Proof.
  destruct (Z.leb_spec maxSize 0) as [Hle|Hpos].
  - unfold git.FilterBySize. destruct (Z.leb_spec maxSize 0); [|lia]. simpl.
    rewrite app_nil_r. split_and!; try done.
    + apply sublist_nil_l.
    + apply Forall_forall. auto.
  - rewrite (FilterBySize_filter _ _ Hpos). simpl. split_and!.
    + induction diffs as [|d ds IH]; simpl; [done|].
      destruct (Z.of_nat (String.length (git.Content d)) >? maxSize); simpl.
      * rewrite <- Permutation_middle. by constructor.
      * by constructor.
    + apply filter_sublist'.
    + apply filter_sublist'.
    + apply Forall_forall. intros d. rewrite list_elem_of_In, filter_In.
      intros [_ Hd]. right.
      destruct (Z.gtb_spec (Z.of_nat (String.length (git.Content d))) maxSize);
        [discriminate|lia].
    + apply Forall_forall. intros d. rewrite list_elem_of_In, filter_In.
      intros [_ Hd].
      destruct (Z.gtb_spec (Z.of_nat (String.length (git.Content d))) maxSize);
        [lia|discriminate].
Qed.

(** [ValidateLineNumbers] applied twice is [ValidateLineNumbers] applied
    once, and what it keeps is a sub-sequence of its input. *)
Theorem ValidateLineNumbers_idempotent (errors : list parser.StructuredError)
        (diffs : list git.FileDiff) :
  llm.ValidateLineNumbers (llm.ValidateLineNumbers errors diffs) diffs
  = llm.ValidateLineNumbers errors diffs
  /\ sublist (llm.ValidateLineNumbers errors diffs) errors.
Proof.
  rewrite !ValidateLineNumbers_filter. split.
  - apply filter_twice.
  - apply filter_sublist'.
Qed.

(** A diagnostic without a line (line 0 or less) on a file of the diff is
    kept, whatever the hunk headers say. *)
Theorem ValidateLineNumbers_keeps_unpositioned (errors : list parser.StructuredError)
        (diffs : list git.FileDiff) (e : parser.StructuredError) :
  e ∈ errors ->
  parser.File e ∈ git.Path <$> diffs ->
  parser.Line e <= 0 ->
  e ∈ llm.ValidateLineNumbers errors diffs.
Proof.
  intros He Hfile Hline. apply ValidateLineNumbers_spec. split; [assumption|].
  destruct (llm.buildDiffLineMap diffs !! parser.File e) as [maxLine|] eqn:Hl.
  - exists maxLine. split; [reflexivity|].
    destruct (buildDiffLineMap_lookup _ _ _ Hl) as (d & _ & _ & ->).
    pose proof (lineBound_positive (git.Content d)). lia.
  - apply buildDiffLineMap_absent in Hl. contradiction.
Qed.

Lemma ValidateLineNumbers_keeps_unpositioned_witness :
  issue "a.go" 0
    ∈ llm.ValidateLineNumbers [issue "a.go" 0]
        [git.mkFileDiff "a.go" ("@@ -1,3 +10,20 @@" +:+ llm.nl +:+ "+code")].
Proof.
  apply ValidateLineNumbers_keeps_unpositioned.
  - apply list_elem_of_here.
  - simpl. apply list_elem_of_here.
  - simpl. lia.
Defined.

Section Review.

Variable ToUpper : string -> string.

(** [LLMGate.Execute] never returns an error.  Its result passes exactly
    when it has neither a diagnostic nor a system error; every diagnostic
    carries the provider of the gate as its tool and is on a file of the
    staged diff. *)
Theorem LLMGate_Execute_diagnostics (elapsed : Z) (g : gate.LLMGate) :
  exists r,
    gate.LLMGate_Execute ToUpper elapsed g = (Some r, None)
    /\ formatter.Passed r
       = (List.length (formatter.Errors r) =? 0)%nat
         && String.eqb (formatter.SystemError r) ""
    /\ Forall (fun d =>
                 parser.Tool d = config.Provider (gate.llm_cfg g)
                 /\ parser.File d ∈ git.Path <$> (gate.gitSvc g).1)
              (formatter.Errors r).
Proof.
  unfold gate.LLMGate_Execute.
  destruct (gate.gitSvc g) as [diffs [err|]] eqn:Hsvc.
  { eexists. split; [reflexivity|]. simpl. split; [reflexivity|constructor]. }
  destruct (List.length diffs =? 0)%nat.
  { eexists. split; [reflexivity|]. simpl. split; [reflexivity|constructor]. }
  set (maxSize := gate.parseMaxFileSize ToUpper (config.MaxFileSize (gate.llm_cfg g))).
  assert (Hsub : sublist (git.FilterBySize diffs maxSize).1 diffs).
  { destruct (Z.leb_spec maxSize 0) as [Hle|Hpos].
    - unfold git.FilterBySize. destruct (Z.leb_spec maxSize 0); [reflexivity|lia].
    - rewrite (FilterBySize_filter _ _ Hpos). apply filter_sublist'. }
  set (filtered := (git.FilterBySize diffs maxSize).1) in *.
  destruct (List.length filtered =? 0)%nat.
  { eexists. split; [reflexivity|]. simpl. split; [reflexivity|constructor]. }
  destruct (gate.client g _) as [errs [err|]].
  { eexists. split; [reflexivity|]. simpl. split; [reflexivity|constructor]. }
  eexists. split; [reflexivity|]. simpl. split.
  - rewrite andb_true_r. reflexivity.
  - apply Forall_forall. intros d Hd.
    apply list_elem_of_fmap in Hd as (d0 & -> & Hd0). simpl. split; [reflexivity|].
    apply ValidateLineNumbers_spec in Hd0 as (_ & maxLine & Hl & _).
    destruct (decide (parser.File d0 ∈ git.Path <$> filtered)) as [Hin|Hout].
    + apply list_elem_of_fmap in Hin as (fd & -> & Hfd).
      apply list_elem_of_fmap. exists fd. split; [reflexivity|].
      eapply elem_of_sublist; eassumption.
    + apply buildDiffLineMap_absent in Hout. congruence.
Qed.

(** Without a staged diff within the size limit (none staged, or all of
    them too large) the gate passes and the client is not consulted. *)
Theorem LLMGate_Execute_nothing_to_review (elapsed : Z) (cfg : config.Gate)
        (client : llm.Client) (diffs : list git.FileDiff) :
  (git.FilterBySize diffs (gate.parseMaxFileSize ToUpper (config.MaxFileSize cfg))).1 = [] ->
  gate.LLMGate_Execute ToUpper elapsed (gate.mkLLMGate cfg client (diffs, None))
  = (Some (formatter.mkGateResult (config.Name cfg) (config.Type_ cfg) true
                                  (config.IsBlocking cfg) false elapsed [] "" ""),
     None).
Proof.
  intros Hnone. unfold gate.LLMGate_Execute. simpl.
  destruct (List.length diffs =? 0)%nat; [reflexivity|].
  rewrite Hnone. reflexivity.
Qed.

End Review.

End ReviewFacts.

(** A staged file of 2 KB with a limit of 1 KB is not reviewed. *)
Lemma LLMGate_Execute_nothing_to_review_witness :
  let cfg := config.mkGate "review" config.GateTypeLLM "" "" "" "" 0 None ""
                           [] [] false "gemini" "" "be strict" "1" in
  let big := git.mkFileDiff "a.go" "diff --git a/a.go b/a.go" in
  gate.LLMGate_Execute (fun s => s) 5
    (gate.mkLLMGate cfg (fun _ => ([issue "a.go" 1], None)) ([big], None))
  = (Some (formatter.mkGateResult "review" "llm" true true false 5 [] "" ""), None).
Proof.
  intros cfg big.
  apply (LLMGate_Execute_nothing_to_review (fun s => s) 5 cfg
           (fun _ => ([issue "a.go" 1], None)) [big]).
  vm_compute. reflexivity.
Defined.

(** ** The configuration file and the factory (packages [config], [gate]) *)

Section ConfigFacts.

Import configfile.

Variable quote : string -> string.

Lemma errors_Join_nil (errs : list error) : errors_Join errs = None <-> errs = [].
Proof. destruct errs; simpl; split; congruence. Qed.

Lemma flat_map_nil {A B} (f : A -> list B) (l : list A) :
  flat_map f l = [] <-> Forall (fun x => f x = []) l.
Proof.
  induction l as [|x l IH]; simpl.
  - split; auto.
  - rewrite Forall_cons, <- IH. split.
    + intros H. apply app_eq_nil in H. tauto.
    + intros [-> ->]. reflexivity.
Qed.

Lemma gateErrors_nil (g : config.Gate) : gateErrors quote g = [] <-> wellFormedGate g.
Proof.
  unfold gateErrors, wellFormedGate.
  destruct (String.eqb_spec (config.Name g) "") as [Hn|Hn].
  { split; [discriminate|]. intros [H _]. contradiction. }
  destruct (String.eqb_spec (config.Type_ g) config.GateTypeExec) as [Ht|Ht].
  { destruct (String.eqb_spec (config.Command g) "") as [Hc|Hc].
    - split; [discriminate|].
      intros [_ [[_ H]|[[H _]|[H _]]]]; [contradiction|rewrite Ht in H; discriminate..].
    - split; [|reflexivity]. intros _. split; [assumption|]. left. done. }
  destruct (String.eqb_spec (config.Type_ g) config.GateTypeScript) as [Hs|Hs].
  { destruct (String.eqb_spec (config.Path g) "") as [Hp|Hp].
    - split; [discriminate|].
      intros [_ [[H _]|[[_ [H _]]|[H _]]]];
        [contradiction|contradiction|rewrite Hs in H; discriminate].
    - destruct (gostrings2.Contains (config.Path g) "'") eqn:Hq.
      + split; [discriminate|].
        intros [_ [[H _]|[[_ [_ H]]|[H _]]]];
          [contradiction|discriminate|rewrite Hs in H; discriminate].
      + split; [|reflexivity]. intros _. split; [assumption|]. right. left. done. }
  destruct (String.eqb_spec (config.Type_ g) config.GateTypeLLM) as [Hl|Hl].
  { destruct (String.eqb_spec (config.Provider g) "") as [Hv|Hv];
      destruct (String.eqb_spec (config.Prompt g) "") as [Hm|Hm]; simpl.
    1-3: split; [discriminate|];
      intros [_ [[H _]|[[H _]|[_ [H1 H2]]]]]; contradiction.
    split; [|reflexivity]. intros _. split; [assumption|]. right. right. done. }
  destruct (String.eqb_spec (config.Type_ g) "").
  - split; [discriminate|]. intros [_ [[H _]|[[H _]|[H _]]]]; contradiction.
  - split; [discriminate|]. intros [_ [[H _]|[[H _]|[H _]]]]; contradiction.
Qed.

Lemma validate_None (cfg : GatekeeperConfig) :
  validate quote cfg = None <-> Forall wellFormedGate (Gates cfg).
Proof.
  unfold validate. rewrite errors_Join_nil, flat_map_nil.
  apply Forall_iff. intros g. apply gateErrors_nil.
Qed.

(** [validate] accepts a configuration exactly when each of its gates
    has a name, one of the types exec, script and llm, and the fields of
    its type: a command; a path without a single quote; a provider and a
    prompt. *)
Theorem validate_accepts_iff (cfg : GatekeeperConfig) :
  validate quote cfg = None <-> Forall wellFormedGate (Gates cfg).
Proof.
  unfold validate. split.
  - intros Hnone. apply errors_Join_nil, flat_map_nil in Hnone.
    eapply Forall_impl; [exact Hnone|]. intros g Hg. by apply gateErrors_nil.
  - intros Hwf. apply errors_Join_nil, flat_map_nil.
    eapply Forall_impl; [exact Hwf|]. intros g Hg. by apply gateErrors_nil.
Qed.

Lemma applyDefaultsTo_idempotent (d : Defaults) (g : config.Gate) :
  applyDefaultsTo d (applyDefaultsTo d g) = applyDefaultsTo d g.
Proof.
  unfold applyDefaultsTo. simpl. f_equal.
  - destruct (String.eqb_spec (config.Container g) "") as [Hc|Hc]; simpl.
    + destruct (String.eqb_spec (DefContainer d) "") as [Hd|Hd]; simpl.
      * rewrite Hc. reflexivity.
      * destruct (String.eqb_spec (DefContainer d) ""); [contradiction|reflexivity].
    + destruct (String.eqb_spec (config.Container g) ""); [contradiction|reflexivity].
  - destruct (Z.eqb_spec (config.Timeout g) 0) as [Hc|Hc]; simpl.
    + destruct (Z.gtb_spec (DefTimeout d) 0) as [Hd|Hd]; simpl.
      * destruct (Z.eqb_spec (DefTimeout d) 0); [lia|reflexivity].
      * rewrite Hc. reflexivity.
    + destruct (Z.eqb_spec (config.Timeout g) 0); [contradiction|reflexivity].
  - destruct (config.Blocking g), (DefBlocking d); reflexivity.
  - destruct (String.eqb_spec (config.OnError g) "") as [Hc|Hc]; simpl.
    + destruct (String.eqb_spec (DefOnError d) "") as [Hd|Hd]; simpl.
      * rewrite Hc. reflexivity.
      * destruct (String.eqb_spec (DefOnError d) ""); [contradiction|reflexivity].
    + destruct (String.eqb_spec (config.OnError g) ""); [contradiction|reflexivity].
Qed.

(** [applyDefaults] applied twice is [applyDefaults] applied once; it
    changes no gate setting that the file gives: the container, the
    timeout, the blocking flag and the error policy of a gate are its own
    when set, and those of the defaults otherwise. *)
Theorem applyDefaults_idempotent (cfg : GatekeeperConfig) :
  applyDefaults (applyDefaults cfg) = applyDefaults cfg
  /\ Forall2 (fun g g' =>
                config.Container g'
                = (if String.eqb (config.Container g) ""
                   then DefContainer (Defaults_ cfg) else config.Container g)
                /\ config.Timeout g'
                   = (if config.Timeout g =? 0
                      then Z.max 0 (DefTimeout (Defaults_ cfg)) else config.Timeout g)
                /\ config.Blocking g'
                   = match config.Blocking g with
                     | Some b => Some b
                     | None => DefBlocking (Defaults_ cfg)
                     end
                /\ config.OnError g'
                   = (if String.eqb (config.OnError g) ""
                      then DefOnError (Defaults_ cfg) else config.OnError g)
                /\ (config.Name g', config.Type_ g', config.Command g', config.Path g',
                    config.Parser g', config.Only g', config.Except g',
                    config.Writable g', config.Provider g', config.Mode g',
                    config.Prompt g', config.MaxFileSize g')
                   = (config.Name g, config.Type_ g, config.Command g, config.Path g,
                      config.Parser g, config.Only g, config.Except g,
                      config.Writable g, config.Provider g, config.Mode g,
                      config.Prompt g, config.MaxFileSize g))
             (Gates cfg) (Gates (applyDefaults cfg))
  /\ Version (applyDefaults cfg) = Version cfg
  /\ Defaults_ (applyDefaults cfg) = Defaults_ cfg.
Proof.
  split; [|split; [|split; reflexivity]].
  - unfold applyDefaults. simpl. f_equal. rewrite <- list_fmap_compose.
    apply list_fmap_ext. intros _ g _. apply applyDefaultsTo_idempotent.
  - unfold applyDefaults. simpl.
    apply Forall2_fmap_r, Forall_Forall2_diag, Forall_forall. intros g _. simpl.
    split_and!; [| | | |reflexivity].
    + destruct (String.eqb_spec (config.Container g) "") as [Hc|Hc]; simpl; [|done].
      destruct (String.eqb_spec (DefContainer (Defaults_ cfg)) ""); simpl; congruence.
    + destruct (Z.eqb_spec (config.Timeout g) 0) as [Hc|Hc]; simpl; [|done].
      destruct (Z.gtb_spec (DefTimeout (Defaults_ cfg)) 0); lia.
    + destruct (config.Blocking g), (DefBlocking (Defaults_ cfg)); reflexivity.
    + destruct (String.eqb_spec (config.OnError g) "") as [Hc|Hc]; simpl; [|done].
      destruct (String.eqb_spec (DefOnError (Defaults_ cfg)) ""); simpl; congruence.
Qed.

Section Loader.

Variable fs_ReadFile : string -> string * option error.
Variable fs_IsNotExist : error -> bool.
Variable filepath_Clean : string -> string.
Variable yaml_Unmarshal : string -> GatekeeperConfig + error.

Local Abbreviation Load :=
  (Load quote fs_ReadFile fs_IsNotExist filepath_Clean yaml_Unmarshal).

Lemma Load_ok (path : string) (cfg : GatekeeperConfig) (err : option error) :
  Load path = (Some cfg, err) ->
  err = None
  /\ Forall wellFormedGate (Gates cfg)
  /\ exists data raw,
       fs_ReadFile (filepath_Clean path) = (data, None)
       /\ yaml_Unmarshal data = inl raw
       /\ cfg = applyDefaults raw.
Proof.
  unfold configfile.Load.
  destruct (fs_ReadFile (filepath_Clean path)) as [data [e|]] eqn:Hread.
  { destruct (fs_IsNotExist e); discriminate. }
  destruct (yaml_Unmarshal data) as [raw|e] eqn:Hyaml; [|discriminate].
  destruct (validate quote (applyDefaults raw)) eqn:Hv; [discriminate|].
  intros [= <- <-]. split; [reflexivity|]. split.
  - apply validate_None. assumption.
  - eauto.
Qed.

(** [Load] returns a configuration or an error, never both and never
    neither.  A configuration that it returns is the decoded file with
    the defaults applied, and each of its gates is well formed; a file
    that does not exist gives [ErrConfigNotFound]. *)
Theorem Load_result (path : string) :
  match Load path with
  | (Some cfg, None) =>
      Forall wellFormedGate (Gates cfg)
      /\ exists data raw,
           fs_ReadFile (filepath_Clean path) = (data, None)
           /\ yaml_Unmarshal data = inl raw
           /\ cfg = applyDefaults raw
  | (None, Some err) =>
      match fs_ReadFile (filepath_Clean path) with
      | (_, Some e) => err = if fs_IsNotExist e then ErrConfigNotFound
                             else errors.Wrap "reading config file: " e
      | (_, None) => True
      end
  | _ => False
  end.
Proof.
  destruct (Load path) as [[cfg|] [err|]] eqn:HL.
  - apply Load_ok in HL as [[=] _].
  - apply Load_ok in HL as (_ & Hwf & Hraw). split; assumption.
  - unfold configfile.Load in HL.
    destruct (fs_ReadFile (filepath_Clean path)) as [data [e|]]; [|exact I].
    destruct (fs_IsNotExist e); congruence.
  - unfold configfile.Load in HL.
    destruct (fs_ReadFile (filepath_Clean path)) as [data [e|]].
    { destruct (fs_IsNotExist e); discriminate. }
    destruct (yaml_Unmarshal data); [|discriminate].
    destruct (validate quote _); discriminate.
Qed.

End Loader.

(** *** The factory *)

Lemma Create_ok (f : factory.Factory) (cfg : config.Gate) :
  creatable f cfg ->
  exists g, factory.Create quote f cfg = inl g /\ gateConfig g = cfg /\ builtBy f cfg g.
Proof.
  unfold factory.Create, creatable.
  intros [Ht|[Ht|[Ht Hc]]]; rewrite Ht; simpl.
  - eexists. split; [reflexivity|]. simpl. split; [reflexivity|].
    split; [auto|]. unfold parser.Registry_GetOrDefault, parser.Registry_Get.
    destruct (factory.registry f !! config.Parser cfg); reflexivity.
  - eexists. split; [reflexivity|]. simpl. split; [reflexivity|].
    split; [auto|]. unfold parser.Registry_GetOrDefault, parser.Registry_Get.
    destruct (factory.registry f !! config.Parser cfg); reflexivity.
  - unfold factory.createLLMGate. destruct (factory.llmClient f) as [c|] eqn:Hf; [|done].
    eexists. split; [reflexivity|]. simpl. split; [reflexivity|].
    split; [assumption|]. exists c. split; [exact Hf|reflexivity].
Qed.

Lemma CreateAllLoop_ok (f : factory.Factory) (gates : list config.Gate)
      (result : list factory.Gate) :
  Forall (creatable f) gates ->
  exists gs,
    factory.CreateAllLoop quote f gates result = (result ++ gs, None)
    /\ gateConfig <$> gs = gates
    /\ Forall2 (builtBy f) gates gs.
Proof.
  revert result. induction gates as [|cfg gates IH]; intros result Hall; simpl.
  - exists []. rewrite app_nil_r. split_and!; [reflexivity|reflexivity|constructor].
  - apply Forall_cons in Hall as [Hc Hall].
    destruct (Create_ok f cfg Hc) as (g & -> & Hcfg & Hb).
    destruct (IH (result ++ [g]) Hall) as (gs & -> & Hgs & Hbs).
    exists (g :: gs). rewrite <- app_assoc.
    split_and!; [reflexivity|rewrite fmap_cons; congruence|by constructor].
Qed.

(** When each configuration is of a known type, and an LLM client is
    configured if one of them is an LLM gate, [CreateAll] returns one
    gate per configuration, in the same order: a container gate for the
    types exec and script, with the parser of that name or, when the
    registry has none, the generic parser; an LLM gate for the type
    llm. *)
Theorem CreateAll_ok (f : factory.Factory) (gates : list config.Gate) :
  Forall (creatable f) gates ->
  exists gs,
    factory.CreateAll quote f gates = (gs, None)
    /\ gateConfig <$> gs = gates
    /\ Forall2 (builtBy f) gates gs.
Proof.
  intros Hall. destruct (CreateAllLoop_ok f gates [] Hall) as (gs & H & ?).
  exists gs. split; assumption.
Qed.

Lemma CreateAllLoop_error (f : factory.Factory) (gates : list config.Gate)
      (result gs : list factory.Gate) (err : error) :
  factory.CreateAllLoop quote f gates result = (gs, Some err) ->
  gs = []
  /\ exists cfg inner,
       cfg ∈ gates /\ ~ creatable f cfg
       /\ err = errors.Wrap ("creating gate " +:+ quote (config.Name cfg) +:+ ": ") inner.
Proof.
  revert result. induction gates as [|cfg gates IH]; intros result; simpl; [discriminate|].
  destruct (factory.Create quote f cfg) as [g|e] eqn:Hc.
  - intros H. destruct (IH _ H) as (-> & cfg' & inner & Hin & Hn & ->).
    split; [reflexivity|]. exists cfg', inner. split_and!; [by right|assumption|reflexivity].
  - intros [= <- <-]. split; [reflexivity|]. exists cfg, e.
    split_and!; [by left| |reflexivity].
    intros Hok. destruct (Create_ok f cfg Hok) as (g & Hg & _). congruence.
Qed.

(** When [CreateAll] fails it returns no gate at all, and its error
    names a gate that the factory cannot build. *)
Theorem CreateAll_error (f : factory.Factory) (gates : list config.Gate)
        (gs : list factory.Gate) (err : error) :
  factory.CreateAll quote f gates = (gs, Some err) ->
  gs = []
  /\ exists cfg inner,
       cfg ∈ gates /\ ~ creatable f cfg
       /\ err = errors.Wrap ("creating gate " +:+ quote (config.Name cfg) +:+ ": ") inner.
Proof. apply CreateAllLoop_error. Qed.

Lemma wellFormedGate_creatable (f : factory.Factory) (g : config.Gate) :
  wellFormedGate g ->
  (config.Type_ g = config.GateTypeLLM -> factory.llmClient f <> None) ->
  creatable f g.
Proof.
  intros [_ [[Ht _]|[[Ht _]|[Ht _]]]] Hc; unfold creatable; auto.
Qed.

(** The loader and the factory compose: for a configuration that [Load]
    returns, a factory with an LLM client builds every gate. *)
Theorem Load_then_CreateAll (fs_ReadFile : string -> string * option error)
        (fs_IsNotExist : error -> bool) (filepath_Clean : string -> string)
        (yaml_Unmarshal : string -> GatekeeperConfig + error)
        (path : string) (cfg : GatekeeperConfig) (f : factory.Factory) :
  Load quote fs_ReadFile fs_IsNotExist filepath_Clean yaml_Unmarshal path
  = (Some cfg, None) ->
  factory.llmClient f <> None ->
  exists gs,
    factory.CreateAll quote f (Gates cfg) = (gs, None)
    /\ gateConfig <$> gs = Gates cfg.
Proof.
  intros HL Hc. apply Load_ok in HL as (_ & Hwf & _).
  destruct (CreateAllLoop_ok f (Gates cfg) []) as (gs & H & Hcfg & _).
  - eapply Forall_impl; [exact Hwf|]. intros g Hg. apply wellFormedGate_creatable; auto.
  - exists gs. split; assumption.
Qed.

(** *** The command of a script gate *)

Lemma ReplaceAllByte_absent (s new : string) :
  gostrings2.Contains s "'" = false -> gostrings.ReplaceAllByte s "'" new = s.
Proof.
  induction s as [|a s IH]; [reflexivity|].
  cbn [gostrings2.Contains String.prefix gostrings.ReplaceAllByte].
  destruct (ascii_dec "'" a) as [<-|Hne].
  - destruct s; discriminate.
  - simpl. intros Hc. destruct (Ascii.eqb_spec a "'"%char) as [->|_]; [contradiction|].
    rewrite IH; [reflexivity|assumption].
Qed.

(** For a script gate that [validate] accepts, the command run in the
    container is [sh] with the path between single quotes, unchanged. *)
Theorem buildCommand_script (cfg : config.Gate) (pool : gate.PoolManager)
        (executor : gate.CommandExecutor) (prs : parser.Parser) (project : string) :
  wellFormedGate cfg ->
  config.Type_ cfg = config.GateTypeScript ->
  gate.buildCommand (gate.mkContainerGate cfg pool executor prs project)
  = "sh '" +:+ config.Path cfg +:+ "'".
Proof.
  intros [_ [[Ht _]|[[_ [_ Hq]]|[Ht _]]]] Hs; try (rewrite Hs in Ht; discriminate).
  unfold gate.buildCommand, gate.shellQuote. simpl. rewrite Hs. simpl.
  rewrite ReplaceAllByte_absent by assumption. reflexivity.
Qed.

End ConfigFacts.

Lemma CreateAll_ok_witness :
  exists gs,
    factory.CreateAll (fun s => s) (sampleFactory None) [gate.cfg lintGate; scriptGate]
    = (gs, None)
    /\ gateConfig <$> gs = [gate.cfg lintGate; scriptGate]
    /\ Forall2 (builtBy (sampleFactory None)) [gate.cfg lintGate; scriptGate] gs.
Proof.
  apply CreateAll_ok.
  apply Forall_cons. split; [left; reflexivity|].
  apply Forall_cons. split; [right; left; reflexivity|].
  apply Forall_nil_2.
Defined.

(** Without an LLM client the review gate cannot be built. *)
Lemma CreateAll_error_witness :
  exists cfg inner,
    cfg ∈ [gate.cfg lintGate; reviewGate]
    /\ ~ creatable (sampleFactory None) cfg
    /\ errors.Wrap "creating gate review: "
         (errors.New "gate review requires an LLM client but none is configured — set GATEKEEPER_GEMINI_KEY or add to ~/.config/gatekeeper/config.yaml")
       = errors.Wrap ("creating gate " +:+ config.Name cfg +:+ ": ") inner.
Proof.
  exact (proj2 (CreateAll_error (fun s => s) (sampleFactory None)
                                [gate.cfg lintGate; reviewGate] [] _ eq_refl)).
Defined.

Lemma Load_then_CreateAll_witness :
  exists gs,
    factory.CreateAll (fun s => s) (sampleFactory (Some (fun _ => ([], None))))
                      (configfile.Gates (configfile.applyDefaults sampleConfig))
    = (gs, None)
    /\ gateConfig <$> gs = configfile.Gates (configfile.applyDefaults sampleConfig).
Proof.
  apply (Load_then_CreateAll (fun s => s) (fun _ => ("", None)) (fun _ => false)
                             (fun s => s) (fun _ => inl sampleConfig)
                             ".gatekeeper/gates.yaml").
  - reflexivity.
  - discriminate.
Defined.

Lemma buildCommand_script_witness :
  gate.buildCommand
    (gate.mkContainerGate scriptGate (gate.pool lintGate) (gate.executor lintGate)
                          parser.GenericParser_Parse "/project")
  = "sh 'scripts/check.sh'".
Proof.
  apply (buildCommand_script scriptGate).
  - split; [discriminate|]. right. left. split_and!; [reflexivity|discriminate|reflexivity].
  - reflexivity.
Defined.

(** ** Stack detection (package [config]) and the split of a diff
       (package [git]) *)

Section DetectFacts.

Import configfile.

(** [DetectStacks] lists every stack that has a marker file among the
    files, and nothing else, each stack once. *)
Theorem DetectStacks_spec (files : list string) :
  NoDup (DetectStacks files)
  /\ forall stack,
       stack ∈ DetectStacks files
       <-> exists f, f ∈ files /\ markerFiles !! f = Some stack.
Proof.
  unfold DetectStacks.
  match goal with |- context [foldl ?F _ _] => set (F0 := F) end.
  assert (Hloop : forall fs (stacks : list string) (seen : gset string) (done : list string),
             NoDup stacks ->
             (forall s, s ∈ seen <-> s ∈ stacks) ->
             (forall s, s ∈ stacks <-> exists f, f ∈ done /\ markerFiles !! f = Some s) ->
             NoDup (foldl F0 (stacks, seen) fs).1
             /\ forall s, s ∈ (foldl F0 (stacks, seen) fs).1
                          <-> exists f, f ∈ done ++ fs /\ markerFiles !! f = Some s).
  { induction fs as [|f fs IH]; intros stacks seen done Hnd Hseen Hstacks; cbn [foldl].
    - rewrite app_nil_r. split; assumption.
    - replace (done ++ f :: fs) with ((done ++ [f]) ++ fs) by (by rewrite <- app_assoc).
      subst F0. simpl.
      destruct (markerFiles !! f) as [stack|] eqn:Hm.
      + destruct (bool_decide_reflect (stack ∈ seen)) as [Hin|Hnin].
        * apply IH; [assumption|assumption|].
          intros s. rewrite Hstacks. split.
          -- intros (f' & Hf' & Hs). exists f'. rewrite elem_of_app. auto.
          -- intros (f' & Hf' & Hs). apply elem_of_app in Hf' as [Hf'|Hf'].
             ++ eauto.
             ++ apply list_elem_of_singleton in Hf' as ->.
                apply Hstacks, Hseen. congruence.
        * apply IH.
          -- apply NoDup_app. split_and!; [assumption| |apply NoDup_singleton].
             intros s Hs Hs'. apply list_elem_of_singleton in Hs' as ->.
             apply Hnin, Hseen, Hs.
          -- intros s. rewrite elem_of_union, elem_of_singleton, elem_of_app,
               list_elem_of_singleton, Hseen. tauto.
          -- intros s. rewrite elem_of_app, list_elem_of_singleton, Hstacks. split.
             ++ intros [(f' & Hf' & Hs)| ->].
                ** exists f'. rewrite elem_of_app. auto.
                ** exists f. rewrite elem_of_app, list_elem_of_singleton. auto.
             ++ intros (f' & Hf' & Hs). apply elem_of_app in Hf' as [Hf'|Hf'].
                ** eauto.
                ** apply list_elem_of_singleton in Hf' as ->. right. congruence.
      + apply IH; [assumption|assumption|].
        intros s. rewrite Hstacks. split.
        * intros (f' & Hf' & Hs). exists f'. rewrite elem_of_app. auto.
        * intros (f' & Hf' & Hs). apply elem_of_app in Hf' as [Hf'|Hf'].
          -- eauto.
          -- apply list_elem_of_singleton in Hf' as ->. congruence. }
  apply (Hloop files [] ∅ []).
  - constructor.
  - intros s. rewrite elem_of_empty, elem_of_nil. tauto.
  - intros s. rewrite elem_of_nil. split; [tauto|].
    intros (f & Hf & _). by apply elem_of_nil in Hf.
Qed.

End DetectFacts.

Section DiffFacts.

Import gostrings.

Lemma string_app_assoc (a b c : string) : (a +:+ b) +:+ c = a +:+ (b +:+ c).
Proof. induction a as [|x a IH]; [reflexivity|]. change (String x ((a +:+ b) +:+ c) = String x (a +:+ (b +:+ c))). by rewrite IH. Qed.

Lemma IndexByte_app_none (a b : string) (c : ascii) :
  IndexByte a c = -1 -> IndexByte b c = -1 -> IndexByte (a +:+ b) c = -1.
Proof.
  intros Ha Hb. induction a as [|x a IH]; simpl in *; [assumption|].
  destruct (Ascii.eqb x c); [lia|].
  pose proof (IndexByte_ge a c).
  destruct (Z.ltb_spec (IndexByte a c) 0); [|lia].
  rewrite IH by lia. reflexivity.
Qed.

(** On a diff block whose header line is "a/<old> b/<new>",
    [extractFilePath] gives the destination path, when the source path
    has no space and neither path has a line feed. *)
Theorem extractFilePath_header (old new rest : string) :
  IndexByte old " " = -1 ->
  IndexByte old llm.LF = -1 ->
  IndexByte new llm.LF = -1 ->
  gitdiff.extractFilePath ("a/" +:+ old +:+ " b/" +:+ new +:+ llm.nl +:+ rest) = new.
Proof.
  intros Hsp Hold Hnew.
  set (header := ("a/" +:+ old) +:+ String " " ("b/" +:+ new)).
  replace ("a/" +:+ old +:+ " b/" +:+ new +:+ llm.nl +:+ rest)
    with (header +:+ String llm.LF rest).
  2:{ subst header. unfold llm.nl. rewrite !string_app_assoc. reflexivity. }
  assert (Hh : IndexByte header llm.LF = -1).
  { subst header. apply IndexByte_app_none.
    - apply (IndexByte_app_none "a/"); [reflexivity|assumption].
    - apply (IndexByte_app_none " b/"); [reflexivity|assumption]. }
  unfold gitdiff.extractFilePath.
  rewrite (IndexByte_app_absent _ _ _ Hh).
  destruct (Z.leb_spec 0 (Z.of_nat (String.length header))); [|lia].
  rewrite upto_app. unfold SplitN2, header.
  assert (Ha : IndexByte ("a/" +:+ old) " " = -1).
  { apply (IndexByte_app_none "a/"); [reflexivity|assumption]. }
  rewrite (IndexByte_app_absent _ _ _ Ha).
  destruct (Z.ltb_spec (Z.of_nat (String.length ("a/" +:+ old))) 0); [lia|].
  rewrite from_app.
  change ("b/" +:+ new) with (String "b" (String "/" new)).
  unfold HasPrefix, from. simpl. rewrite Nat.sub_0_r.
  replace (String.prefix "" new) with true by (by destruct new).
  apply substring_all.
Qed.

Lemma extractFilePath_header_witness :
  gitdiff.extractFilePath
    ("a/" +:+ "old.go" +:+ " b/" +:+ "my new.go" +:+ llm.nl +:+ "+++ b/my new.go")
  = "my new.go".
Proof. apply extractFilePath_header; reflexivity. Defined.

(** [SplitDiffs] gives no entry for a blank diff.  Each entry begins
    with "diff --git " and goes on with a piece of the input between two
    such headers, trimmed and not empty; its path is read from that
    piece; there are no more entries than pieces. *)
Theorem SplitDiffs_entries (rawDiff : string) :
  (if String.eqb (TrimSpace rawDiff) "" then gitdiff.SplitDiffs rawDiff = [] else True)
  /\ Forall (fun d =>
               exists piece,
                 piece ∈ gostrings2.Split rawDiff gitdiff.diffPrefix
                 /\ TrimSpace piece <> ""
                 /\ git.Content d = "diff --git " +:+ TrimSpace piece
                 /\ git.Path d = gitdiff.extractFilePath (TrimSpace piece))
            (gitdiff.SplitDiffs rawDiff)
  /\ (List.length (gitdiff.SplitDiffs rawDiff)
      <= List.length (gostrings2.Split rawDiff gitdiff.diffPrefix))%nat.
Proof.
  unfold gitdiff.SplitDiffs.
  destruct (String.eqb (TrimSpace rawDiff) "").
  { split_and!; [reflexivity|constructor|simpl; lia]. }
  split; [exact I|].
  generalize (gostrings2.Split rawDiff gitdiff.diffPrefix). intros pieces.
  match goal with |- context [foldl ?F _ _] => set (F0 := F) end.
  assert (Hloop : forall ps acc,
             foldl F0 acc ps
             = acc ++ omap (fun piece =>
                              if String.eqb (TrimSpace piece) "" then None
                              else Some (git.mkFileDiff
                                           (gitdiff.extractFilePath (TrimSpace piece))
                                           (gitdiff.diffPrefix +:+ TrimSpace piece)))
                           ps).
  { induction ps as [|p ps IH]; intros acc; cbn [foldl].
    - simpl. by rewrite app_nil_r.
    - rewrite IH. subst F0. simpl.
      destruct (String.eqb (TrimSpace p) ""); simpl; [reflexivity|].
      by rewrite <- app_assoc. }
  rewrite Hloop. simpl. split.
  - apply Forall_forall. intros d Hd.
    apply list_elem_of_omap in Hd as (piece & Hin & Hd).
    destruct (String.eqb_spec (TrimSpace piece) "") as [|Hne]; [discriminate|].
    injection Hd as <-. exists piece. simpl. auto.
  - clear Hloop. induction pieces as [|p ps IH]; csimpl; [lia|].
    destruct (String.eqb (TrimSpace p) ""); csimpl; lia.
Qed.

End DiffFacts.

(** ** The git service (package [git]) *)

Section GitServiceFacts.

Import gitservice.

Section Commands.

Context {W : Type}.
Variable runGit : list string -> W -> (string * option error) * W.

Local Abbreviation rec := (recording runGit).

(** Whatever git answers, [Stash] reports a stash exactly when it ran
    [git stash push] and that command succeeded; before it, it only runs
    [git diff --quiet] and [git ls-files].  A working tree that is clean
    relative to the index is left alone. *)
Theorem Stash_commands (w : W) :
  let stashed := (Stash rec (w, [])).1.1 in
  let err := (Stash rec (w, [])).1.2 in
  let log := (Stash rec (w, [])).2.2 in
  (stashed = true <-> stashPushCmd ∈ log /\ err = None)
  /\ (log = [diffQuietCmd] ++ [stashPushCmd]
      \/ log = [diffQuietCmd; lsFilesCmd] ++ [stashPushCmd]
      \/ (log = [diffQuietCmd; lsFilesCmd] /\ stashed = false)).
Proof.
  unfold Stash, stashPush, recording. simpl.
  destruct (runGit ["diff"; "--quiet"] w) as [[o1 [e1|]] w1]; simpl.
  - destruct (runGit _ w1) as [[o2 [e2|]] w2]; simpl.
    + split; [split; [discriminate|intros [_ [=]]]|]. left. reflexivity.
    + split; [split; [intros _; split; [set_solver|reflexivity]|reflexivity]|].
      left. reflexivity.
  - destruct (runGit _ w1) as [[o2 [e2|]] w2]; simpl.
    + split; [split; [discriminate|intros [_ [=]]]|]. right. right. done.
    + destruct (String.eqb (gostrings.TrimSpace o2) ""); simpl.
      * split; [split; [discriminate|]|right; right; done].
        intros [Hin _]. exfalso. revert Hin. unfold stashPushCmd, stashMessage.
        rewrite !elem_of_cons, elem_of_nil. intros [[=]|[[=]|[]]].
      * destruct (runGit _ w2) as [[o3 [e3|]] w3]; simpl.
        -- split; [split; [discriminate|intros [_ [=]]]|]. right. left. reflexivity.
        -- split; [split; [intros _; split; [set_solver|reflexivity]|reflexivity]|].
           right. left. reflexivity.
Qed.

Lemma popFirst_commands (lines : list string) (w : W) (log : list (list string)) :
  (popFirst rec lines (w, log)).2.2
  = log ++ match List.find (fun line => gostrings2.Contains line stashMessage) lines with
           | Some line => [["stash"; "pop"; stashRef line]]
           | None => []
           end
  /\ (List.find (fun line => gostrings2.Contains line stashMessage) lines = None ->
      popFirst rec lines (w, log) = (None, (w, log))).
Proof.
  induction lines as [|line lines IH]; simpl.
  - rewrite app_nil_r. split; reflexivity.
  - destruct (gostrings2.Contains line stashMessage); [|exact IH].
    unfold recording, stashRef.
    destruct (runGit _ w) as [[o [e|]] w1]; simpl; split; try reflexivity; discriminate.
Qed.

(** Whatever git answers, [StashPop] runs [git stash list] and then at
    most one [git stash pop], on the reference of the first line of the
    list that contains the marker "gatekeeper-stash"; when no line
    contains it, nothing is popped and there is no error. *)
Theorem StashPop_commands (w : W) :
  let out := (runGit ["stash"; "list"] w).1 in
  let marked :=
    List.find (fun line => gostrings2.Contains line stashMessage)
              (gostrings.Split out.1 llm.LF) in
  (StashPop rec (w, [])).2.2
  = ["stash"; "list"]
      :: match out.2, marked with
         | None, Some line => [["stash"; "pop"; stashRef line]]
         | _, _ => []
         end
  /\ match out.2, marked with
     | None, None => (StashPop rec (w, [])).1 = None
     | _, _ => True
     end.
Proof.
  unfold StashPop, recording at 1 3. simpl.
  destruct (runGit ["stash"; "list"] w) as [[o [e|]] w1]; simpl.
  - split; [reflexivity|exact I].
  - destruct (popFirst_commands (gostrings.Split o llm.LF) w1 [["stash"; "list"]])
      as [Hlog Hnone].
    split; [exact Hlog|].
    destruct (List.find _ (gostrings.Split o llm.LF)) eqn:Hf; [exact I|].
    rewrite (Hnone eq_refl). reflexivity.
Qed.

End Commands.

(** *** The pre-commit hook, on files in memory *)

Section Hooks.

Variable runGit : list string -> memFS -> (string * option error) * memFS.
Variable filepath_Join : list string -> string.
Variable filepath_IsAbs : string -> bool.
Variable WorkDir : string.

Local Abbreviation findGitDir := (findGitDir runGit filepath_Join filepath_IsAbs WorkDir).
Local Abbreviation InstallHook :=
  (InstallHook runGit mem_ReadFile mem_MkdirAll mem_WriteFile
               filepath_Join filepath_IsAbs WorkDir).
Local Abbreviation RemoveHook :=
  (RemoveHook runGit mem_ReadFile mem_Remove mem_Is_ErrNotExist
              filepath_Join filepath_IsAbs WorkDir).

(** A pre-commit hook without the marker of gatekeeper is left as it
    is: [InstallHook] and [RemoveHook] both return an error and change
    no file. *)
Theorem foreign_hook_untouched (gitDir content : string) (fs : memFS) :
  findGitDir fs = ((gitDir, None), fs) ->
  filepath_Join [filepath_Join [gitDir; "hooks"]; "pre-commit"]
  = filepath_Join [gitDir; "hooks"; "pre-commit"] ->
  fs !! filepath_Join [gitDir; "hooks"; "pre-commit"] = Some content ->
  gostrings2.Contains content hookMarker = false ->
  (exists err, InstallHook fs = (Some err, fs))
  /\ (exists err, RemoveHook fs = (Some err, fs)).
Proof.
  intros Hdir Hjoin Hfile Hforeign.
  unfold gitservice.InstallHook, gitservice.RemoveHook. rewrite Hdir, Hjoin.
  unfold mem_ReadFile. rewrite Hfile, Hforeign. simpl.
  split; eexists; reflexivity.
Qed.

(** Without a pre-commit hook, [InstallHook] writes the hook script and
    nothing else; a second [InstallHook] then changes nothing, and
    [RemoveHook] gives the files back as they were. *)
Theorem InstallHook_RemoveHook (gitDir : string) (fs : memFS) :
  (forall fs', findGitDir fs' = ((gitDir, None), fs')) ->
  filepath_Join [filepath_Join [gitDir; "hooks"]; "pre-commit"]
  = filepath_Join [gitDir; "hooks"; "pre-commit"] ->
  fs !! filepath_Join [gitDir; "hooks"; "pre-commit"] = None ->
  let hookPath := filepath_Join [gitDir; "hooks"; "pre-commit"] in
  let installed := <[hookPath := hookScript]> fs in
  InstallHook fs = (None, installed)
  /\ InstallHook installed = (None, installed)
  /\ RemoveHook installed = (None, fs)
  /\ RemoveHook fs = (None, fs).
Proof.
  intros Hdir Hjoin Hfile hookPath installed.
  unfold gitservice.InstallHook, gitservice.RemoveHook. rewrite !Hdir, Hjoin.
  fold hookPath. unfold mem_ReadFile, mem_MkdirAll, mem_WriteFile, mem_Remove.
  fold hookPath in Hfile. rewrite Hfile. subst installed.
  assert (Hl : (<[hookPath := hookScript]> fs : gmap string string) !! hookPath
               = Some hookScript) by apply lookup_insert_eq.
  unfold memFS in *. rewrite !Hl.
  change (gostrings2.Contains hookScript hookMarker) with true. simpl.
  split_and!; try reflexivity.
  f_equal. apply delete_insert_id. assumption.
Qed.

End Hooks.

End GitServiceFacts.

(** A hook of the user in a repository whose git directory is ".git". *)
Lemma foreign_hook_untouched_witness :
  let runGit := fun (_ : list string) (fs : memFS) => ((".git" +:+ llm.nl, None), fs) in
  let join := fun l => gostrings2.Join l "/" in
  let fs : memFS := {[ ".git/hooks/pre-commit" := "#!/bin/sh" ]} in
  (exists err,
      gitservice.InstallHook runGit mem_ReadFile mem_MkdirAll mem_WriteFile
                             join (fun _ => false) "" fs = (Some err, fs))
  /\ (exists err,
         gitservice.RemoveHook runGit mem_ReadFile mem_Remove mem_Is_ErrNotExist
                               join (fun _ => false) "" fs = (Some err, fs)).
Proof.
  intros runGit join fs.
  apply (foreign_hook_untouched runGit join (fun _ => false) "" ".git" "#!/bin/sh" fs);
    reflexivity.
Defined.

Lemma InstallHook_RemoveHook_witness :
  let runGit := fun (_ : list string) (fs : memFS) => ((".git" +:+ llm.nl, None), fs) in
  let join := fun l => gostrings2.Join l "/" in
  let installed : memFS := {[ ".git/hooks/pre-commit" := gitservice.hookScript ]} in
  gitservice.InstallHook runGit mem_ReadFile mem_MkdirAll mem_WriteFile
                         join (fun _ => false) "" ∅ = (None, installed)
  /\ gitservice.RemoveHook runGit mem_ReadFile mem_Remove mem_Is_ErrNotExist
                           join (fun _ => false) "" installed = (None, ∅).
Proof.
  intros runGit join installed.
  destruct (InstallHook_RemoveHook runGit join (fun _ => false) "" ".git" ∅)
    as (Hi & _ & Hr & _).
  - intros fs'. reflexivity.
  - reflexivity.
  - reflexivity.
  - split; [exact Hi|exact Hr].
Defined.

(** ** The pool on the container engine (package [pool]) *)

Section PoolEngineFacts.

Import pool.

Variable sha256_Sum256 : string -> string.
Variable formatRFC3339 : Z -> string.
Variable parseRFC3339 : string -> option Z.
Variable behaviour : list string -> string * string * Z.

Local Abbreviation rt := (engineRuntime behaviour).
Local Abbreviation GetOrCreate := (GetOrCreate sha256_Sum256 formatRFC3339 rt).

Lemma string_of_int_inj (a b : Z) :
  NilZero.string_of_int (Z.to_int a) = NilZero.string_of_int (Z.to_int b) -> a = b.
Proof.
  intros H. apply DecimalZ.to_int_inj.
  assert (Hn : forall z, Z.to_int z <> Decimal.Pos Decimal.Nil
                         /\ Z.to_int z <> Decimal.Neg Decimal.Nil).
  { intros z. destruct z; simpl; split; try discriminate.
    - intros Hp. injection Hp as Hp. exact (DecimalPos.Unsigned.to_uint_nonnil p Hp).
    - intros Hp. injection Hp as Hp. exact (DecimalPos.Unsigned.to_uint_nonnil p Hp). }
  destruct (Hn a) as [Ha1 Ha2]. destruct (Hn b) as [Hb1 Hb2].
  pose proof (NilZero.isi _ Ha1 Ha2) as Ea.
  pose proof (NilZero.isi _ Hb1 Hb2) as Eb.
  rewrite H in Ea. congruence.
Qed.

Lemma freshID_inj (pre : string) (k1 k2 : nat) :
  freshID pre k1 = freshID pre k2 -> k1 = k2.
Proof.
  unfold freshID. intros H. apply String.app_inj in H.
  apply string_of_int_inj in H. lia.
Qed.

Lemma freshID_nonempty (k : nat) : String.eqb (freshID "c" k) "" = false.
Proof.
  unfold freshID.
  change ("c" +:+ ?s) with (String "c" s). reflexivity.
Qed.

Lemma wellFormedEngine_fresh (e : Engine) (c : Container) :
  wellFormedEngine e -> c ∈ containers e -> cID c <> freshID "c" (created e).
Proof.
  intros [_ Hids] Hc Heq.
  rewrite Forall_forall in Hids. destruct (Hids c Hc) as (k & Hk & Hid).
  rewrite Hid in Heq. apply freshID_inj in Heq. lia.
Qed.

Lemma start_others (id : string) (cs : list Container) :
  (forall c, c ∈ cs -> cID c <> id) ->
  (fun c => if String.eqb (cID c) id then mkContainer (cID c) (cLabels c) true else c)
    <$> cs = cs.
Proof.
  induction cs as [|c cs IH]; intros Hne; [reflexivity|].
  rewrite fmap_cons, IH by (intros c' Hc'; apply Hne; by right).
  destruct (String.eqb_spec (cID c) id) as [Heq|_]; [|reflexivity].
  exfalso. apply (Hne c); [by left|assumption].
Qed.

Lemma find_snoc_fresh (id : string) (cs : list Container) (c : Container) :
  (forall c', c' ∈ cs -> cID c' <> id) -> cID c = id ->
  List.find (fun c' => String.eqb (cID c') id) (cs ++ [c]) = Some c.
Proof.
  intros Hne Hid. induction cs as [|c0 cs IH]; simpl.
  - rewrite Hid, String.eqb_refl. reflexivity.
  - destruct (String.eqb_spec (cID c0) id) as [Heq|_].
    + exfalso. apply (Hne c0); [by left|assumption].
    + apply IH. intros c' Hc'. apply Hne. by right.
Qed.

Lemma engine_list_key (key : string) (e : Engine) :
  ContainerList rt (mkListOptions false (labelPoolKey +:+ "=" +:+ key) (Some "running") 1) e
  = ((summaryOf <$> take 1 (List.filter (holdsKey key) (containers e)), None), e).
Proof.
  simpl. do 2 f_equal. unfold summaryOf. f_equal. f_equal.
  apply filter_ext. intros c. unfold listed, holdsKey. simpl.
  rewrite matchesLabel_key by reflexivity. f_equal. by destruct (cRunning c).
Qed.

Lemma sandboxLabels_key (now : Z) (img projectPath : string) (writable : bool)
      (key : string) :
  sandboxLabels formatRFC3339 now img projectPath writable key !! labelPoolKey = Some key
  /\ sandboxLabels formatRFC3339 now img projectPath writable key !! labelManaged
     = Some "true".
Proof.
  unfold sandboxLabels. split.
  - do 4 (rewrite lookup_insert_ne by done). apply lookup_insert_eq.
  - do 5 (rewrite lookup_insert_ne by done). apply lookup_insert_eq.
Qed.

(** What [GetOrCreate] does on a well-formed engine: it returns the
    first running container with the pool key and leaves the engine as
    it is; without one, it adds a running container with the labels of
    the sandbox, unless the gate is writable and the user lookup fails,
    in which case nothing is created. *)
Lemma GetOrCreate_engine (now : Z) (userString : string * option error)
      (img projectPath : string) (writable : bool) (e : Engine) :
  wellFormedEngine e ->
  let key := computePoolKey sha256_Sum256 img projectPath writable in
  GetOrCreate now userString img projectPath writable e
  = match List.filter (holdsKey key) (containers e) with
    | c :: _ => ((cID c, None), e)
    | [] =>
        match writable, userString with
        | true, (_, Some err) =>
            (("", Some (errors.Wrap "getting current user for writable mount: " err)), e)
        | _, _ =>
            let id := freshID "c" (created e) in
            ((id, None),
             mkEngine (containers e
                         ++ [mkContainer id (sandboxLabels formatRFC3339 now img projectPath
                                                           writable key) true])
                      (execs e) (Datatypes.S (created e)))
        end
    end.
Proof.
  intros Hwf key. unfold pool.GetOrCreate, findExistingContainer.
  fold key. rewrite engine_list_key.
  destruct (List.filter (holdsKey key) (containers e)) as [|c cs] eqn:Hf.
  - cbn [take fmap list_fmap]. cbn [String.eqb negb].
    unfold createContainer.
    cbn [ImagePull engineRuntime copyErr closeErr].
    assert (Hstart :
              forall user,
                (let '(p, s) :=
                   ContainerCreate rt
                     (mkConfig img ["sleep"; "infinity"]
                               (sandboxLabels formatRFC3339 now img projectPath writable key)
                               "/workspace" user)
                     (mkHostConfig [projectMount projectPath writable; tmpMount]) e in
                 match p with
                 | (_, Some err) =>
                     (("", Some (errors.Wrap "creating container: " err)), s)
                 | (id, None) =>
                     match ContainerStart rt id s with
                     | (Some err, s) =>
                         let '(_, s) := ContainerRemove rt id true s in
                         (("", Some (errors.Wrap "starting container: " err)), s)
                     | (None, s) => ((id, None), s)
                     end
                 end)
                = ((freshID "c" (created e), None),
                   mkEngine (containers e
                               ++ [mkContainer (freshID "c" (created e))
                                               (sandboxLabels formatRFC3339 now img
                                                              projectPath writable key)
                                               true])
                            (execs e) (Datatypes.S (created e)))).
    { intros user. cbn [ContainerCreate engineRuntime Labels].
      cbn [ContainerStart engineRuntime]. unfold findContainer.
      cbn [containers execs created].
      rewrite (find_snoc_fresh (freshID "c" (created e)) (containers e))
        by (try reflexivity; intros c' Hc'; by apply wellFormedEngine_fresh).
      f_equal. f_equal. rewrite fmap_app, start_others
        by (intros c' Hc'; by apply wellFormedEngine_fresh).
      cbn [fmap list_fmap cID cLabels]. rewrite String.eqb_refl. reflexivity. }
    destruct writable.
    + destruct userString as [uidGid [err|]]; [reflexivity|]. apply Hstart.
    + destruct userString as [uidGid [err|]]; apply Hstart.
  - cbn [take fmap list_fmap summaryOf ID].
    assert (Hc : c ∈ containers e).
    { apply list_elem_of_In. eapply proj1. apply filter_In.
      rewrite Hf. by left. }
    destruct Hwf as [_ Hids]. rewrite Forall_forall in Hids.
    destruct (Hids c Hc) as (k & _ & ->).
    rewrite freshID_nonempty. reflexivity.
Qed.

Lemma GetOrCreate_wellFormed (now : Z) (userString : string * option error)
      (img projectPath : string) (writable : bool) (e : Engine) :
  wellFormedEngine e ->
  wellFormedEngine (GetOrCreate now userString img projectPath writable e).2.
Proof.
  intros Hwf. rewrite GetOrCreate_engine by assumption.
  destruct (List.filter _ (containers e)); [|assumption].
  assert (Hnew : wellFormedEngine
                   (mkEngine (containers e
                                ++ [mkContainer (freshID "c" (created e))
                                      (sandboxLabels formatRFC3339 now img projectPath writable
                                         (computePoolKey sha256_Sum256 img projectPath
                                                         writable)) true])
                             (execs e) (Datatypes.S (created e)))).
  { pose proof Hwf as [Hnd Hids]. split; simpl.
    - rewrite fmap_app. apply NoDup_app. split_and!; [assumption| |apply NoDup_singleton].
      intros id Hid Hid'. simpl in Hid'. apply list_elem_of_singleton in Hid' as ->.
      apply list_elem_of_fmap in Hid as (c & Hc & Hin).
      symmetry in Hc. revert Hc. by apply wellFormedEngine_fresh.
    - rewrite Forall_app, Forall_singleton. split.
      + eapply Forall_impl; [exact Hids|]. intros c (k & Hk & Hc). exists k. split; [lia|done].
      + exists (created e). split; [lia|reflexivity]. }
  destruct writable; [|exact Hnew].
  destruct userString as [uidGid [err|]]; [assumption|exact Hnew].
Qed.

(** On the engine, a sandbox that [GetOrCreate] has returned is returned
    again for the same image, project and mode, at any later time and
    whatever the user lookup gives then: the second call creates nothing
    and leaves the engine as it is. *)
Theorem GetOrCreate_reuses (now now' : Z) (userString userString' : string * option error)
        (img projectPath : string) (writable : bool) (e e' : Engine) (id : string) :
  wellFormedEngine e ->
  GetOrCreate now userString img projectPath writable e = ((id, None), e') ->
  GetOrCreate now' userString' img projectPath writable e' = ((id, None), e')
  /\ wellFormedEngine e'.
Proof.
  intros Hwf Hfirst.
  assert (Hwf' : wellFormedEngine e').
  { pose proof (GetOrCreate_wellFormed now userString img projectPath writable e Hwf) as H.
    by rewrite Hfirst in H. }
  split; [|assumption].
  rewrite GetOrCreate_engine in Hfirst by assumption.
  rewrite GetOrCreate_engine by assumption.
  set (key := computePoolKey sha256_Sum256 img projectPath writable) in *.
  destruct (List.filter (holdsKey key) (containers e)) as [|c cs] eqn:Hf.
  - assert (Hcreated :
              e' = mkEngine (containers e
                               ++ [mkContainer (freshID "c" (created e))
                                     (sandboxLabels formatRFC3339 now img projectPath
                                                    writable key) true])
                            (execs e) (Datatypes.S (created e))
              /\ id = freshID "c" (created e)).
    { destruct writable; [destruct userString as [uidGid [err|]]|];
        simpl in Hfirst; try discriminate; by injection Hfirst as <- <-. }
    destruct Hcreated as [-> ->]. cbn [containers].
    rewrite List.filter_app, Hf. cbn [List.filter app].
    unfold holdsKey at 1. cbn [cLabels cRunning].
    rewrite (proj1 (sandboxLabels_key _ _ _ _ _)).
    rewrite bool_decide_eq_true_2 by reflexivity. reflexivity.
  - injection Hfirst as <- <-. rewrite Hf. reflexivity.
Qed.

End PoolEngineFacts.

(** ** The removal of sandboxes on the container engine (package [pool]) *)

Section CleanupFacts.

Import pool.

Variable parseRFC3339 : string -> option Z.
Variable behaviour : list string -> string * string * Z.

Local Abbreviation rt := (engineRuntime behaviour).

Lemma wrap64_id (z : Z) :
  goint.MinInt64 <= z <= goint.MaxInt64 -> goint.wrap64 z = z.
Proof.
  unfold goint.wrap64, goint.MinInt64, goint.MaxInt64. intros Hz.
  rewrite Z.mod_small; lia.
Qed.

Lemma filter_all {A} (f : A -> bool) (l : list A) :
  (forall x, x ∈ l -> f x = true) -> List.filter f l = l.
Proof.
  induction l as [|x l IH]; intros Hall; simpl; [reflexivity|].
  rewrite (Hall x) by (by left). f_equal. apply IH. intros y Hy. apply Hall. by right.
Qed.

Lemma filter_filter_and {A} (f g : A -> bool) (l : list A) :
  List.filter f (List.filter g l) = List.filter (fun x => g x && f x) l.
Proof.
  induction l as [|x l IH]; simpl; [reflexivity|].
  destruct (g x); simpl; [destruct (f x)|]; by rewrite IH.
Qed.

Lemma NoDup_fmap_eq {A B} (f : A -> B) (l : list A) (x y : A) :
  NoDup (f <$> l) -> x ∈ l -> y ∈ l -> f x = f y -> x = y.
Proof.
  induction l as [|a l IH]; intros Hnd Hx Hy Hf; [by apply elem_of_nil in Hx|].
  rewrite fmap_cons in Hnd. apply NoDup_cons in Hnd as [Ha Hnd].
  apply elem_of_cons in Hx as [->|Hx]; apply elem_of_cons in Hy as [->|Hy].
  - reflexivity.
  - exfalso. apply Ha. rewrite Hf. apply list_elem_of_fmap. eauto.
  - exfalso. apply Ha. rewrite <- Hf. apply list_elem_of_fmap. eauto.
  - by apply IH.
Qed.

Lemma findContainer_present (id : string) (e : Engine) :
  id ∈ cID <$> containers e -> exists c, findContainer id e = Some c.
Proof.
  intros Hid. unfold findContainer.
  destruct (List.find _ (containers e)) as [c|] eqn:Hf; [eauto|].
  apply list_elem_of_fmap in Hid as (c & -> & Hc).
  apply list_elem_of_In in Hc.
  pose proof (find_none _ _ Hf c Hc) as Hn. simpl in Hn.
  by rewrite String.eqb_refl in Hn.
Qed.

Lemma engine_list_managed (e : Engine) :
  ContainerList rt poolcleanup.managedOpts e
  = ((summaryOf <$> List.filter managed (containers e), None), e).
Proof.
  simpl. do 2 f_equal. unfold summaryOf. f_equal.
  apply filter_ext. intros c. unfold listed, managed. simpl.
  rewrite (matchesLabel_key labelManaged "true") by reflexivity.
  apply andb_true_r.
Qed.

Lemma engine_removeEach (sel : list Container) :
  forall (e : Engine) (count : Z),
    NoDup (cID <$> sel) ->
    (forall c, c ∈ sel -> cID c ∈ cID <$> containers e) ->
    0 <= count ->
    count + Z.of_nat (List.length sel) <= goint.MaxInt64 ->
    poolcleanup.removeEach rt (summaryOf <$> sel) count e
    = (count + Z.of_nat (List.length sel),
       mkEngine (List.filter (fun c => bool_decide (cID c ∉ cID <$> sel)) (containers e))
                (execs e) (created e)).
Proof.
  induction sel as [|c0 sel IH]; intros e count Hnd Hin Hcount Hmax.
  - simpl. rewrite Z.add_0_r. f_equal. destruct e as [cs xs n]. simpl. f_equal.
    symmetry. apply filter_all. intros c _. reflexivity.
  - rewrite fmap_cons in Hnd. apply NoDup_cons in Hnd as [Hc0 Hnd].
    rewrite fmap_cons. cbn [poolcleanup.removeEach summaryOf ID].
    cbn [ContainerRemove engineRuntime].
    destruct (findContainer_present (cID c0) e) as [c Hc]; [apply Hin; by left|].
    rewrite Hc. unfold goint.add.
    rewrite wrap64_id by (unfold goint.MinInt64; simpl in Hmax; lia).
    rewrite IH; [|assumption| |lia|simpl in Hmax; lia].
    + f_equal; [simpl; lia|]. cbn [containers execs created]. f_equal.
      rewrite filter_filter_and. apply filter_ext. intros c'.
      rewrite fmap_cons.
      destruct (String.eqb_spec (cID c') (cID c0)) as [Heq|Hne]; simpl.
      * symmetry. apply bool_decide_eq_false_2. intros Hn. apply Hn. rewrite Heq. by left.
      * apply bool_decide_ext. rewrite not_elem_of_cons. tauto.
    + intros c' Hc'. cbn [containers].
      destruct (proj1 (list_elem_of_fmap _ _ _) (Hin c' ltac:(by right)))
        as (c'' & Hid & Hc'').
      apply list_elem_of_fmap. exists c''. split; [assumption|].
      apply list_elem_of_In, filter_In. split; [by apply list_elem_of_In|].
      apply negb_true_iff. apply String.eqb_neq. intros Heq. apply Hc0.
      rewrite <- Heq, <- Hid. apply list_elem_of_fmap. eauto.
Qed.

Lemma removeStale_removeEach {S : Type} (runtime : ContainerRuntime S) (threshold : Z)
      (cs : list Summary) :
  forall (count : Z) (s : S),
    poolcleanup.removeStale parseRFC3339 runtime threshold cs count s
    = poolcleanup.removeEach
        runtime (List.filter (poolcleanup.stale parseRFC3339 threshold) cs) count s.
Proof.
  induction cs as [|c cs IH]; intros count s; simpl; [reflexivity|].
  destruct (poolcleanup.stale parseRFC3339 threshold c); simpl; [|apply IH].
  destruct (ContainerRemove runtime (ID c) true s) as [[err|] s']; apply IH.
Qed.

Lemma engine_remove_selection (f : Container -> bool) (e : Engine) :
  NoDup (cID <$> containers e) ->
  Z.of_nat (List.length (containers e)) <= goint.MaxInt64 ->
  poolcleanup.removeEach rt (summaryOf <$> List.filter f (containers e)) 0 e
  = (Z.of_nat (List.length (List.filter f (containers e))),
     mkEngine (List.filter (fun c => negb (f c)) (containers e)) (execs e) (created e)).
Proof.
  intros Hnd Hmax.
  pose proof (filter_length_le f (containers e)) as Hlen.
  rewrite engine_removeEach; [| |  |lia|lia].
  - f_equal. f_equal. apply filter_ext_in. intros c Hc.
    apply list_elem_of_In in Hc.
    destruct (f c) eqn:Hf; simpl.
    + apply bool_decide_eq_false_2. intros Hn. apply Hn.
      apply list_elem_of_fmap. exists c. split; [reflexivity|].
      apply list_elem_of_In, filter_In. split; [by apply list_elem_of_In|assumption].
    + apply bool_decide_eq_true_2. intros Hin.
      apply list_elem_of_fmap in Hin as (c' & Hid & Hc').
      apply list_elem_of_In, filter_In in Hc' as [Hc' Hf'].
      apply list_elem_of_In in Hc'.
      assert (c = c') by (eapply NoDup_fmap_eq; eassumption). congruence.
  - eapply sublist_NoDup; [exact Hnd|]. apply fmap_sublist, filter_sublist'.
  - intros c Hc. apply list_elem_of_fmap. exists c. split; [reflexivity|].
    apply list_elem_of_In, filter_In in Hc as [Hc _]. by apply list_elem_of_In.
Qed.

(** On the engine, [CleanupAll] removes exactly the containers with the
    label [gatekeeper.managed=true], running or not, keeps every other
    container and counts what it removed. *)
Theorem CleanupAll_engine (e : Engine) :
  NoDup (cID <$> containers e) ->
  Z.of_nat (List.length (containers e)) <= goint.MaxInt64 ->
  poolcleanup.CleanupAll rt e
  = ((Z.of_nat (List.length (List.filter managed (containers e))), None),
     mkEngine (List.filter (fun c => negb (managed c)) (containers e))
              (execs e) (created e)).
Proof.
  intros Hnd Hmax. unfold poolcleanup.CleanupAll.
  rewrite engine_list_managed, engine_remove_selection by assumption. reflexivity.
Qed.

(** On the engine, [CleanupStale] removes exactly the managed containers
    whose [last_used] label is a time before [now - ttl]; a container
    without the label, or with a label that is not a time, is kept. *)
Theorem CleanupStale_engine (now ttl : Z) (e : Engine) :
  NoDup (cID <$> containers e) ->
  Z.of_nat (List.length (containers e)) <= goint.MaxInt64 ->
  let threshold := now + goint.wrap64 (- ttl) in
  poolcleanup.CleanupStale parseRFC3339 rt now ttl e
  = ((Z.of_nat (List.length
                  (List.filter (staleSandbox parseRFC3339 threshold) (containers e))),
      None),
     mkEngine (List.filter (fun c => negb (staleSandbox parseRFC3339 threshold c))
                           (containers e))
              (execs e) (created e)).
Proof.
  intros Hnd Hmax threshold. unfold poolcleanup.CleanupStale.
  rewrite engine_list_managed. fold threshold.
  rewrite removeStale_removeEach.
  change (summaryOf <$> List.filter managed (containers e))
    with (map summaryOf (List.filter managed (containers e))).
  rewrite filter_map_swap, filter_filter_and.
  change (map summaryOf ?l) with (summaryOf <$> l).
  rewrite (engine_remove_selection
             (fun c => managed c && poolcleanup.stale parseRFC3339 threshold (summaryOf c)))
    by assumption.
  reflexivity.
Qed.

End CleanupFacts.

(** A writable sandbox is handed out again although the user lookup
    fails at the second request. *)
Lemma GetOrCreate_reuses_witness :
  let rt := pool.engineRuntime (fun _ => ("", "", 0)) in
  let first :=
    pool.GetOrCreate (fun s => s) (fun _ => "t") rt 0 ("1000:1000", None)
                     "alpine" "/p" true pool.emptyEngine in
  pool.GetOrCreate (fun s => s) (fun _ => "t") rt 5 ("", Some (errors.New "no user"))
                   "alpine" "/p" true first.2
  = (("c0", None), first.2).
Proof.
  intros rt first.
  refine (proj1 (GetOrCreate_reuses (fun s => s) (fun _ => "t") (fun _ => ("", "", 0))
                                    0 5 ("1000:1000", None) _ "alpine" "/p" true
                                    pool.emptyEngine first.2 "c0" _ _)).
  - split; constructor.
  - reflexivity.
Defined.

Lemma CleanupAll_engine_witness :
  poolcleanup.CleanupAll (pool.engineRuntime (fun _ => ("", "", 0))) sampleEngine
  = ((1, None),
     pool.mkEngine [pool.mkContainer "db" {[ "app" := "postgres" ]} true] [] 1).
Proof.
  rewrite CleanupAll_engine.
  - reflexivity.
  - apply NoDup_cons. split; [|apply NoDup_singleton].
    intros H. apply list_elem_of_singleton in H. discriminate.
  - vm_compute. discriminate.
Defined.

(** At time 200 with a time to live of 50 the sandbox of time 100 is
    stale. *)
Lemma CleanupStale_engine_witness :
  poolcleanup.CleanupStale (fun s => if String.eqb s "t100" then Some 100 else None)
                           (pool.engineRuntime (fun _ => ("", "", 0))) 200 50 sampleEngine
  = ((1, None),
     pool.mkEngine [pool.mkContainer "db" {[ "app" := "postgres" ]} true] [] 1).
Proof.
  rewrite CleanupStale_engine.
  - reflexivity.
  - apply NoDup_cons. split; [|apply NoDup_singleton].
    intros H. apply list_elem_of_singleton in H. discriminate.
  - vm_compute. discriminate.
Defined.

(** ** The Gemini client (package [llm]) *)

Section ReviewClientFacts.

Import gemini.

Variable json_Unmarshal : string -> list parser.StructuredError + error.
Variable model : string.
Variable GenerateContent : Z -> option Response * option error.
Variable ctxDone : Z -> option error.

Local Abbreviation attempts := (attempts json_Unmarshal model GenerateContent ctxDone).
Local Abbreviation Review := (Review json_Unmarshal model GenerateContent ctxDone).

Lemma attempts_spec (n : nat) :
  forall (attempt backoff : Z) (lastErr : option error),
    match attempts n attempt backoff lastErr with
    | Some ((result, err), effects) =>
        effects `prefix_of` retrySchedule n attempt backoff
        /\ Forall (fun e => parser.Tool e = model) result
        /\ (err = None \/ result = [])
    | None => True
    end.
Proof.
  induction n as [|n IH]; intros attempt backoff lastErr; simpl.
  - split_and!; [done|constructor|by right].
  - destruct (GenerateContent attempt) as [resp [e|]].
    + destruct (ctxDone attempt) as [ctxErr|].
      * split_and!; [|constructor|by right].
        by exists (Wait backoff :: retrySchedule n (attempt + 1) (goint.mul backoff 2)).
      * specialize (IH (attempt + 1) (goint.mul backoff 2)
                       (Some (errors.Wrap ("attempt " +:+ formatter.fmt_d (attempt + 1)
                                             +:+ ": ") e))).
        destruct (gemini.attempts _ _ _ _ n _ _ _) as [[[result err] effects]|];
          simpl; [|exact I].
        destruct IH as (Hp & Hf & He). split_and!; [|assumption|assumption].
        by do 2 apply prefix_cons.
    + destruct (extractText resp) as [[text [e|]]|]; simpl; [| |exact I].
      * split_and!; [|constructor|by right].
        by exists (Wait backoff :: retrySchedule n (attempt + 1) (goint.mul backoff 2)).
      * destruct (json_Unmarshal text) as [result|e].
        -- split_and!; [| |by left].
           ++ by exists (Wait backoff
                           :: retrySchedule n (attempt + 1) (goint.mul backoff 2)).
           ++ apply Forall_fmap, Forall_forall. intros x _. reflexivity.
        -- split_and!; [|constructor|by right].
           by exists (Wait backoff :: retrySchedule n (attempt + 1) (goint.mul backoff 2)).
Qed.

(** Whatever the API and the context do, [Review] sends at most three
    requests, waits 1 s, 2 s and 4 s after the failed ones and does
    nothing else; it returns diagnostics or an error, not both, and every
    diagnostic carries the model of the client as its tool. *)
Theorem Review_attempts (factory : option error) :
  match Review factory with
  | Some ((result, err), effects) =>
      effects `prefix_of`
        [Request 0; Wait (1 * gate.second); Request 1; Wait (2 * gate.second);
         Request 2; Wait (4 * gate.second)]
      /\ Forall (fun e => parser.Tool e = model) result
      /\ (err = None \/ result = [])
  | None => True
  end.
Proof.
  unfold gemini.Review. destruct factory as [err|].
  - split_and!; [apply prefix_nil|constructor|by right].
  - apply (attempts_spec maxRetries 0 initialBackoff None).
Qed.

(** When the three requests fail and the context stays live, [Review]
    waits after each of them, also after the last, and returns the error
    of the third attempt. *)
Theorem Review_gives_up (resp0 resp1 resp2 : option Response) (e0 e1 e2 : error) :
  GenerateContent 0 = (resp0, Some e0) ->
  GenerateContent 1 = (resp1, Some e1) ->
  GenerateContent 2 = (resp2, Some e2) ->
  ctxDone 0 = None -> ctxDone 1 = None -> ctxDone 2 = None ->
  Review None
  = Some (([], Some (errors.Wrap "LLM review failed after 3 attempts: "
                                 (errors.Wrap "attempt 3: " e2))),
          [Request 0; Wait (1 * gate.second); Request 1; Wait (2 * gate.second);
           Request 2; Wait (4 * gate.second)]).
Proof.
  intros H0 H1 H2 C0 C1 C2. unfold gemini.Review, maxRetries. simpl.
  change (0 + 1 + 1) with 2. change (0 + 1) with 1.
  rewrite H0, C0. simpl. rewrite H1, C1. simpl. rewrite H2, C2. reflexivity.
Qed.

(** The first answer of the API ends the retries: after [k] failed
    requests, an answer whose text decodes gives the decoded diagnostics
    with the model as their tool; an answer that does not decode is an
    error, without another request. *)
Theorem Review_first_answer (k : nat) (resp : option Response) (text : string) :
  (k < 3)%nat ->
  (forall i, (i < k)%nat ->
             (GenerateContent (Z.of_nat i)).2 <> None /\ ctxDone (Z.of_nat i) = None) ->
  GenerateContent (Z.of_nat k) = (resp, None) ->
  extractText resp = Some (text, None) ->
  exists ret,
    Review None
    = Some (ret, take (2 * k + 1)
                      [Request 0; Wait (1 * gate.second); Request 1;
                       Wait (2 * gate.second); Request 2])
    /\ ret = match json_Unmarshal text with
             | inl result =>
                 ((fun e =>
                     parser.mkStructuredError
                       (parser.File e) (parser.Line e) (parser.Column e)
                       (parser.Severity e) (parser.Rule e) (parser.Message e)
                       (parser.Hint e) model) <$> result, None)
             | inr err => ([], Some (errors.Wrap "parsing LLM response: " err))
             end.
Proof.
  intros Hk Hfail Hanswer Htext. unfold gemini.Review, maxRetries.
  assert (Hf : forall i, (i < k)%nat ->
                         exists r e, GenerateContent (Z.of_nat i) = (r, Some e)
                                     /\ ctxDone (Z.of_nat i) = None).
  { intros i Hi. destruct (Hfail i Hi) as [Hg Hc].
    destruct (GenerateContent (Z.of_nat i)) as [r [e|]]; [eauto|done]. }
  destruct k as [|[|[|k]]]; [| | |lia].
  - change (Z.of_nat 0) with 0 in Hanswer.
    simpl. rewrite Hanswer. simpl. rewrite Htext. simpl.
    destruct (json_Unmarshal text); eexists; split; reflexivity.
  - destruct (Hf 0%nat ltac:(lia)) as (r0 & e0 & G0 & C0).
    change (Z.of_nat 0) with 0 in G0, C0. change (Z.of_nat 1) with 1 in Hanswer.
    simpl. change (0 + 1) with 1. rewrite G0, C0. simpl.
    rewrite Hanswer. simpl. rewrite Htext. simpl.
    destruct (json_Unmarshal text); eexists; split; reflexivity.
  - destruct (Hf 0%nat ltac:(lia)) as (r0 & e0 & G0 & C0).
    destruct (Hf 1%nat ltac:(lia)) as (r1 & e1 & G1 & C1).
    change (Z.of_nat 0) with 0 in G0, C0. change (Z.of_nat 1) with 1 in G1, C1.
    change (Z.of_nat 2) with 2 in Hanswer.
    simpl. change (0 + 1 + 1) with 2. change (0 + 1) with 1. rewrite G0, C0. simpl.
    rewrite G1, C1. simpl. rewrite Hanswer. simpl. rewrite Htext. simpl.
    destruct (json_Unmarshal text); eexists; split; reflexivity.
Qed.

End ReviewClientFacts.

Lemma Review_gives_up_witness :
  gemini.Review (fun _ => inl []) "gemini-3-pro"
                (fun _ => (None, Some (errors.New "503"))) (fun _ => None) None
  = Some (([], Some (errors.Wrap "LLM review failed after 3 attempts: "
                                 (errors.Wrap "attempt 3: " (errors.New "503")))),
          [gemini.Request 0; gemini.Wait (1 * gate.second); gemini.Request 1;
           gemini.Wait (2 * gate.second); gemini.Request 2;
           gemini.Wait (4 * gate.second)]).
Proof.
  apply (Review_gives_up (fun _ => inl []) "gemini-3-pro"
                         (fun _ => (None, Some (errors.New "503"))) (fun _ => None)
                         None None None (errors.New "503") (errors.New "503")
                         (errors.New "503"));
    reflexivity.
Defined.

(** The API fails once and then answers with one diagnostic. *)
Lemma Review_first_answer_witness :
  let answer :=
    gemini.mkResponse
      [Some (gemini.mkCandidate (Some (gemini.mkContent [Some "[...]"])))] in
  exists ret,
    gemini.Review (fun _ => inl [issue "a.go" 3]) "gemini-3-pro"
                  (fun i => if i =? 0 then (None, Some (errors.New "503"))
                            else (Some answer, None))
                  (fun _ => None) None
    = Some (ret, [gemini.Request 0; gemini.Wait (1 * gate.second); gemini.Request 1])
    /\ ret = ([parser.mkStructuredError "a.go" 3 0 "error" "" "issue" "" "gemini-3-pro"],
              None).
Proof.
  intros answer.
  apply (Review_first_answer
           (fun _ => inl [issue "a.go" 3]) "gemini-3-pro"
           (fun i => if i =? 0 then (None, Some (errors.New "503"))
                     else (Some answer, None))
           (fun _ => None) 1 (Some answer) "[...]").
  - lia.
  - intros i Hi. assert (i = 0%nat) as -> by lia. split; [discriminate|reflexivity].
  - reflexivity.
  - reflexivity.
Defined.

(** ** Runs without cancellation (package [runner]) *)

Section ScheduleFacts.

Import runner.

Variable gates : list Gate.
Variable failFast : bool.

Local Abbreviation step := (step gates failFast).

Lemma step_length (st : state) (ev : event) :
  List.length (pcs (step st ev)) = List.length (pcs st).
Proof.
  destruct ev as [i|]; simpl; [|reflexivity].
  destruct (pcs st !! i) as [[| |]|]; try reflexivity;
    destruct (gates !! i) as [g|]; try reflexivity.
  - destruct (cancelled st); simpl; by rewrite length_insert.
  - destruct (g (cancelled st)). simpl. by rewrite length_insert.
Qed.

Lemma steps_length (evs : list event) (st : state) :
  List.length (pcs (foldl step st evs)) = List.length (pcs st).
Proof.
  revert st. induction evs as [|ev evs IH]; intros st; simpl; [reflexivity|].
  by rewrite IH, step_length.
Qed.

Lemma step_done_stable (st : state) (ev : event) (j : nat) :
  pcs st !! j = Some Done -> pcs (step st ev) !! j = Some Done.
Proof.
  intros Hj. destruct ev as [i|]; simpl; [|assumption].
  destruct (decide (i = j)) as [->|Hne].
  - rewrite Hj. assumption.
  - destruct (pcs st !! i) as [[| |]|]; try assumption;
      destruct (gates !! i) as [g|]; try assumption.
    + destruct (cancelled st); simpl; by rewrite list_lookup_insert_ne.
    + destruct (g (cancelled st)). simpl. by rewrite list_lookup_insert_ne.
Qed.

Lemma step_twice_done (st : state) (i : nat) :
  List.length (pcs st) = List.length gates ->
  (i < List.length gates)%nat ->
  pcs (step (step st (Step i)) (Step i)) !! i = Some Done.
Proof.
  intros Hlen Hi.
  destruct (lookup_lt_is_Some_2 (pcs st) i) as [p Hp]; [lia|].
  assert (Hrun : forall st', pcs st' !! i = Some Running ->
                             pcs (step st' (Step i)) !! i = Some Done).
  { intros st' Hp'. simpl. rewrite Hp'.
    destruct (gates !! i) as [g|] eqn:Hg.
    - destruct (g (cancelled st')). simpl.
      apply list_lookup_insert_eq. eapply lookup_lt_Some. eassumption.
    - apply lookup_ge_None_1 in Hg. change (List.length gates <= i)%nat in Hg. lia. }
  destruct p.
  - assert (Hfirst : pcs (step st (Step i)) !! i = Some Running
                     \/ pcs (step st (Step i)) !! i = Some Done).
    { simpl. rewrite Hp. destruct (gates !! i) as [g|] eqn:Hg.
      - destruct (cancelled st); simpl; [right|left];
          apply list_lookup_insert_eq; lia.
      - apply lookup_ge_None_1 in Hg. change (List.length gates <= i)%nat in Hg. lia. }
    destruct Hfirst as [H|H]; [by apply Hrun|by apply step_done_stable].
  - apply step_done_stable. by apply Hrun.
  - by do 2 apply step_done_stable.
Qed.

Lemma complete_all_done (n : nat) :
  forall st,
    (n <= List.length gates)%nat ->
    List.length (pcs st) = List.length gates ->
    forall i, (i < n)%nat -> pcs (foldl step st (complete n)) !! i = Some Done.
Proof.
  induction n as [|n IH]; intros st Hn Hlen i Hi; [lia|].
  unfold complete. rewrite seq_S, flat_map_app, foldl_app. fold (complete n).
  cbn [flat_map app foldl Nat.add]. destruct (decide (i = n)) as [->|Hne].
  - apply step_twice_done; [|lia]. by rewrite steps_length.
  - do 2 apply step_done_stable. apply IH; [lia|assumption|lia].
Qed.

Lemma complete_steps (n : nat) : Forall (fun ev => ev <> CancelParent) (complete n).
Proof.
  apply Forall_forall. intros ev Hev. unfold complete in Hev.
  apply list_elem_of_In, in_flat_map in Hev as (i & _ & [<-|[<-|[]]]); discriminate.
Qed.

Hypothesis Hquiet : Forall (quiet failFast) gates.

Lemma quiet_step (st : state) (ev : event) :
  ev <> CancelParent -> quietInv gates st -> quietInv gates (step st ev).
Proof.
  intros Hev (Hc & Hlen & Hnd & Hch & Hdone).
  destruct ev as [i|]; [|contradiction]. simpl.
  destruct (pcs st !! i) as [p|] eqn:Hp; [|by split_and!].
  assert (Hi : (i < List.length (pcs st))%nat) by (eapply lookup_lt_Some; eauto).
  assert (Hother : forall ir, ir ∈ resultsCh st -> p <> Done -> i <> idx ir).
  { intros ir Hir Hne ->. destruct (Hch ir Hir) as [Hd _]. congruence. }
  destruct p.
  - destruct (gates !! i) as [g|] eqn:Hg; [|by split_and!].
    rewrite Hc. split_and!; simpl; [reflexivity|by rewrite length_insert|assumption| |].
    + intros ir Hir. destruct (Hch ir Hir) as [Hd Hex]. split; [|assumption].
      by rewrite list_lookup_insert_ne by (by apply Hother).
    + intros j Hj. destruct (decide (i = j)) as [->|Hne].
      * rewrite list_lookup_insert_eq in Hj by assumption. discriminate.
      * rewrite list_lookup_insert_ne in Hj by assumption. by apply Hdone.
  - destruct (gates !! i) as [g|] eqn:Hg; [|by split_and!].
    rewrite Hc. destruct (g false) as [r e] eqn:Hrun.
    assert (Hff : failsFast failFast r = false).
    { rewrite Forall_forall in Hquiet.
      pose proof (Hquiet g ltac:(eapply list_elem_of_lookup_2; eassumption)) as Hq.
      unfold quiet in Hq. by rewrite Hrun in Hq. }
    rewrite Hff. split_and!; simpl.
    + reflexivity.
    + by rewrite length_insert.
    + rewrite fmap_app. simpl. apply NoDup_app.
      split_and!; [assumption| |apply NoDup_singleton].
      intros j Hj Hj'. apply list_elem_of_singleton in Hj'. subst j.
      apply list_elem_of_fmap in Hj as (ir & Heq & Hir).
      by apply (Hother ir Hir).
    + intros ir Hir. apply elem_of_app in Hir as [Hir|Hir].
      * destruct (Hch ir Hir) as [Hd Hex]. split; [|assumption].
        by rewrite list_lookup_insert_ne by (by apply Hother).
      * apply list_elem_of_singleton in Hir. subst ir. simpl. split.
        -- by apply list_lookup_insert_eq.
        -- eauto.
    + intros j Hj. destruct (decide (i = j)) as [->|Hne].
      * exists (mkIndexedResult j r e). split; [|reflexivity].
        apply elem_of_app. right. by apply list_elem_of_singleton.
      * rewrite list_lookup_insert_ne in Hj by assumption.
        destruct (Hdone j Hj) as (ir & Hir & Hidx). exists ir. split; [|assumption].
        apply elem_of_app. by left.
  - by split_and!.
Qed.

Lemma quiet_steps (evs : list event) (st : state) :
  Forall (fun ev => ev <> CancelParent) evs ->
  quietInv gates st -> quietInv gates (foldl step st evs).
Proof.
  revert st. induction evs as [|ev evs IH]; intros st Hevs Hst; simpl; [assumption|].
  apply Forall_cons in Hevs as [Hev Hevs]. apply IH; [assumption|].
  by apply quiet_step.
Qed.

(** Without cancellation the closed channel holds, for every gate, what
    the gate returned on a live context, once. *)
Lemma fanOut_quiet (sched : list event) :
  Forall (fun ev => ev <> CancelParent) sched ->
  let ch := fanOut false sched gates failFast in
  NoDup (idx <$> ch)
  /\ (forall ir, ir ∈ ch ->
        (idx ir < List.length gates)%nat
        /\ exists g, gates !! idx ir = Some g /\ g false = (result ir, err ir))
  /\ (forall i, (i < List.length gates)%nat -> exists ir, ir ∈ ch /\ idx ir = i).
Proof.
  intros Hsched. unfold fanOut.
  set (init := mkState false [] (replicate (List.length gates) Ready)).
  assert (Hinit : quietInv gates init).
  { split_and!; simpl.
    - reflexivity.
    - by rewrite length_replicate.
    - constructor.
    - intros ir Hir. by apply elem_of_nil in Hir.
    - intros i Hi. apply lookup_replicate in Hi as [[=] _]. }
  pose proof (quiet_steps _ _ Hsched Hinit) as Hmid.
  pose proof (quiet_steps _ _ (complete_steps (List.length gates)) Hmid)
    as (Hc & Hlen & Hnd & Hch & Hdone).
  simpl. split_and!; [assumption| |].
  - intros ir Hir. destruct (Hch ir Hir) as [Hd Hex]. split; [|assumption].
    rewrite <- Hlen. eapply lookup_lt_Some; eauto.
  - intros i Hi. apply Hdone. apply complete_all_done; [lia| |assumption].
    destruct Hmid as (_ & Hl & _). exact Hl.
Qed.

Lemma collect_untouched (n : nat) (ch : list indexedResult) (i : nat) :
  i ∉ idx <$> ch -> (i < n)%nat -> collect n ch !! i = Some None.
Proof.
  induction ch as [|x ch IH] using rev_ind; intros Hi Hn.
  - unfold collect. simpl. by apply lookup_replicate_2.
  - rewrite fmap_app in Hi. apply not_elem_of_app in Hi as [Hi Hx].
    simpl in Hx. rewrite list_elem_of_singleton in Hx.
    rewrite collect_snoc. destruct (slot x); [|by apply IH].
    rewrite list_lookup_insert_ne by congruence. by apply IH.
Qed.

Lemma collect_lookup_slot (n : nat) (ch : list indexedResult) (ir : indexedResult) :
  NoDup (idx <$> ch) ->
  (forall x, x ∈ ch -> (idx x < n)%nat) ->
  ir ∈ ch -> collect n ch !! idx ir = Some (slot ir).
Proof.
  intros Hnd Hlt Hir. destruct (slot ir) as [r|] eqn:Hslot.
  - by apply collect_lookup.
  - revert Hnd Hlt Hir. induction ch as [|x ch IH] using rev_ind; intros Hnd Hlt Hir.
    + by apply elem_of_nil in Hir.
    + rewrite fmap_app in Hnd. simpl in Hnd.
      apply NoDup_app in Hnd as (Hnd & Hdisj & _).
      rewrite collect_snoc. apply elem_of_app in Hir as [Hir|Hir].
      * assert (Hne : idx x <> idx ir).
        { intros E. apply (Hdisj (idx ir)).
          - apply list_elem_of_fmap. eauto.
          - rewrite E. by apply list_elem_of_singleton. }
        assert (Hrec : collect n ch !! idx ir = Some None).
        { apply IH; auto. intros y Hy. apply Hlt. apply elem_of_app. by left. }
        destruct (slot x); [by rewrite list_lookup_insert_ne|assumption].
      * apply list_elem_of_singleton in Hir. subst x. rewrite Hslot.
        apply collect_untouched.
        -- intros Hin. apply (Hdisj (idx ir)); [assumption|].
           by apply list_elem_of_singleton.
        -- apply Hlt. apply elem_of_app. right. by apply list_elem_of_singleton.
Qed.

Lemma collect_quiet (sched : list event) :
  Forall (fun ev => ev <> CancelParent) sched ->
  collect (List.length gates) (fanOut false sched gates failFast)
  = (fun g => outcomeSlot (g false)) <$> gates.
Proof.
  intros Hsched. destruct (fanOut_quiet sched Hsched) as (Hnd & Hch & Hall).
  apply list_eq. intros i.
  destruct (decide (i < List.length gates)%nat) as [Hi|Hi].
  - destruct (Hall i Hi) as (ir & Hir & <-).
    rewrite collect_lookup_slot; [|assumption| |assumption].
    2:{ intros x Hx. by destruct (Hch x Hx). }
    destruct (Hch ir Hir) as (_ & g & Hg & Hrun).
    transitivity ((fun g => outcomeSlot (g false)) <$> Some g).
    + simpl. unfold outcomeSlot, slot. rewrite Hrun. reflexivity.
    + rewrite list_lookup_fmap. f_equal. symmetry. exact Hg.
  - rewrite !lookup_ge_None_2; [reflexivity| |].
    + rewrite length_fmap. change (List.length gates <= i)%nat. lia.
    + rewrite collect_length. change (List.length gates <= i)%nat. lia.
Qed.

Lemma omap_id_fmap {A B} (f : A -> option B) (l : list A) :
  omap id (f <$> l) = omap f l.
Proof.
  induction l as [|x l IH]; [reflexivity|].
  csimpl. destruct (f x); csimpl; by rewrite IH.
Qed.

(** When the context is not cancelled and no gate's result cancels the
    run, the result of [RunAll] does not depend on the interleaving of
    the goroutines: the gates of the run are what each gate returned, in
    the order of the configuration, whatever the order of completion. *)
Theorem RunAll_schedule_independent (sched : list event) (elapsed : Z)
        (gateNames : list string) :
  Forall (fun ev => ev <> CancelParent) sched ->
  exists r,
    RunAll false sched elapsed gates failFast gateNames = (Some r, None)
    /\ formatter.Gates r = omap (fun g => outcomeSlot (g false)) gates
    /\ RunAll false [] elapsed gates failFast [] = (Some r, None).
Proof.
  intros Hsched. unfold RunAll.
  destruct (List.length gates =? 0)%nat eqn:Hn.
  - eexists. split; [reflexivity|]. split; [|reflexivity].
    apply Nat.eqb_eq, nil_length_inv in Hn. rewrite Hn. reflexivity.
  - eexists. split; [reflexivity|]. split.
    + destruct (build_spec elapsed
                  (collect (List.length gates) (fanOut false sched gates failFast)))
        as (Hg & _).
      rewrite Hg, collect_quiet by assumption. apply omap_id_fmap.
    + rewrite !collect_quiet by (assumption || constructor). reflexivity.
Qed.

End ScheduleFacts.

(** Three gates that complete in the reverse order. *)
Lemma RunAll_schedule_independent_witness :
  exists r,
    runner.RunAll false [runner.Step 2; runner.Step 2; runner.Step 1; runner.Step 1]
                  4 [newPassGate "lint"; newFailGate "test" true; newErrorGate]
                  false ["lint"; "test"; "vet"]
    = (Some r, None)
    /\ formatter.Gates r
       = [passResult "lint"; failResult "test" true;
          runner.placeholder (errors.New "system error")].
Proof.
  destruct (RunAll_schedule_independent
              [newPassGate "lint"; newFailGate "test" true; newErrorGate] false
              ltac:(repeat constructor)
              [runner.Step 2; runner.Step 2; runner.Step 1; runner.Step 1] 4
              ["lint"; "test"; "vet"])
    as (r & Hr & Hg & _).
  - repeat constructor; discriminate.
  - exists r. split; [exact Hr|exact Hg].
Defined.

(** ** The orchestration of a run (package [commands]) *)

Section OrchestrationFacts.

Import commands.

Variable filepath_Match : string -> string -> bool.
Variable filepath_Base : string -> string.
Variable indent : formatter.json -> string.

Local Abbreviation Pipeline_Execute :=
  (Pipeline_Execute filepath_Match filepath_Base indent).
Local Abbreviation afterStash := (afterStash filepath_Match filepath_Base indent).

Lemma filterSkippedGates_filter (gates : list config.Gate) (skipNames : list string)
      (skipLLM : bool) :
  filterSkippedGates gates skipNames skipLLM
  = List.filter (fun g =>
                   negb (bool_decide (config.Name g ∈ skipNames))
                   && negb (skipLLM && String.eqb (config.Type_ g) config.GateTypeLLM))
                gates.
Proof.
  unfold filterSkippedGates.
  destruct ((List.length skipNames =? 0)%nat && negb skipLLM) eqn:Hnone.
  - apply andb_true_iff in Hnone as [Hlen Hllm].
    apply Nat.eqb_eq, nil_length_inv in Hlen. subst skipNames.
    apply negb_true_iff in Hllm. subst skipLLM.
    symmetry. apply filter_all. intros g _.
    rewrite bool_decide_eq_false_2 by apply not_elem_of_nil. reflexivity.
  - match goal with |- context [foldl ?F _ _] => set (F0 := F) end.
    set (f := fun g => negb (bool_decide (config.Name g ∈ skipNames))
                       && negb (skipLLM
                                && String.eqb (config.Type_ g) config.GateTypeLLM)).
    assert (Hloop : forall gs acc, foldl F0 acc gs = acc ++ List.filter f gs).
    { induction gs as [|g gs IH]; intros acc; cbn [foldl].
      - simpl. by rewrite app_nil_r.
      - rewrite IH. subst F0 f. simpl.
        destruct (bool_decide_reflect (config.Name g ∈ (list_to_set skipNames : gset string)))
          as [Hin|Hnin].
        + rewrite bool_decide_eq_true_2 by (by apply elem_of_list_to_set in Hin).
          reflexivity.
        + rewrite bool_decide_eq_false_2
            by (intros Hin; apply Hnin; by apply elem_of_list_to_set).
          simpl.
          destruct (skipLLM && String.eqb (config.Type_ g) config.GateTypeLLM); simpl;
            [reflexivity|by rewrite <- app_assoc]. }
    apply Hloop.
Qed.

(** [filterSkippedGates] keeps, in their order, the gates whose name
    is not skipped and, with [--skip-llm], whose type is not llm; applied
    twice it is as applied once; and it commutes with the file filter of
    the next step. *)
Theorem filterSkippedGates_spec (gates : list config.Gate) (skipNames : list string)
        (skipLLM : bool) :
  sublist (filterSkippedGates gates skipNames skipLLM) gates
  /\ (forall g,
         g ∈ filterSkippedGates gates skipNames skipLLM
         <-> g ∈ gates /\ (config.Name g ∉ skipNames)
             /\ (skipLLM && String.eqb (config.Type_ g) config.GateTypeLLM) = false)
  /\ filterSkippedGates (filterSkippedGates gates skipNames skipLLM) skipNames skipLLM
     = filterSkippedGates gates skipNames skipLLM
  /\ (forall files,
         gate.FilterGates filepath_Match filepath_Base
                          (filterSkippedGates gates skipNames skipLLM) files
         = filterSkippedGates
             (gate.FilterGates filepath_Match filepath_Base gates files)
             skipNames skipLLM).
Proof.
  rewrite !filterSkippedGates_filter. split_and!.
  - apply filter_sublist'.
  - intros g. rewrite list_elem_of_In, filter_In, <- list_elem_of_In.
    rewrite andb_true_iff, !negb_true_iff, bool_decide_eq_false. tauto.
  - apply filter_twice.
  - intros files. destruct files as [|f files].
    + by rewrite !FilterGates_no_files, filterSkippedGates_filter.
    + rewrite !FilterGates_nonempty by discriminate.
      rewrite filterSkippedGates_filter, !filter_filter_and.
      apply filter_ext. intros g. apply andb_comm.
Qed.



Lemma afterStash_dryRun {G : Type} (p : Pipeline G) (opts : PipelineOpts)
      (gates0 : list config.Gate) :
  match afterStash p (withDryRun false opts) gates0,
        afterStash p (withDryRun true opts) gates0 with
  | Some (ret, effects), Some (retDry, effectsDry) =>
      effectsDry = effects
      /\ (retDry = ret \/ (retDry = None /\ ret = Some ErrGatesFailed))
  | None, None => True
  | _, _ => False
  end.
Proof.
  unfold commands.afterStash. simpl.
  destruct (match stagedFiles p with
            | Some files => (files, None)
            | None => Git_StagedFiles p
            end) as [files [err|]]; [auto|].
  destruct (List.length _ =? 0)%nat; [auto|].
  destruct (CreateAll p _) as [gateInstances [err|]]; [auto|].
  destruct (RunAll p _ _ _) as [[result|] [err|]]; auto.
  split; [reflexivity|]. unfold exitStatus. simpl.
  destruct (formatter.RunPassed result); simpl; auto.
Qed.

(** A dry run does everything that a run does: it stashes, runs the
    gates, cleans the files of writable gates and prints the same
    report; the only difference is that failed gates do not make it
    return [ErrGatesFailed]. *)
Theorem Pipeline_Execute_dry_run {G : Type} (p : Pipeline G) (opts : PipelineOpts) :
  match Pipeline_Execute p (withDryRun false opts),
        Pipeline_Execute p (withDryRun true opts) with
  | Some (ret, effects), Some (retDry, effectsDry) =>
      effectsDry = effects
      /\ (retDry = ret \/ (retDry = None /\ ret = Some ErrGatesFailed))
  | None, None => True
  | _, _ => False
  end.
Proof.
  unfold commands.Pipeline_Execute.
  destruct (LoadConfig p) as [[gates0|] [err|]]; simpl; auto.
  destruct (GlobalConfig p); simpl; auto.
  destruct (CheckDocker p) as [err|]; simpl; auto.
  destruct (Git_Stash p) as [stashed [err|]]; simpl; auto.
  pose proof (afterStash_dryRun p opts gates0) as H.
  destruct (afterStash p (withDryRun false opts) gates0) as [[ret effects]|];
    destruct (afterStash p (withDryRun true opts) gates0) as [[retDry effectsDry]|];
    simpl; try contradiction; [|exact I].
  destruct H as [-> Hret]. split; [reflexivity|assumption].
Qed.

End OrchestrationFacts.

(** ** Decimal numbers and hunk headers (packages [strconv], [llm]) *)

Section DecimalFacts.

Import gostrings.

Lemma decValue_of_uint_acc (d : Decimal.uint) :
  forall acc : positive, decValue d (Z.pos acc) = Z.pos (Pos.of_uint_acc d acc).
Proof.
  induction d; intros acc; simpl; [reflexivity|..];
    rewrite <- IHd; f_equal; lia.
Qed.

Lemma decValue_of_uint (d : Decimal.uint) : decValue d 0 = Z.of_uint d.
Proof.
  unfold Z.of_uint. induction d; simpl; [reflexivity|assumption|..];
    apply (decValue_of_uint_acc d).
Qed.

Lemma decValue_ge (d : Decimal.uint) : forall acc, 0 <= acc -> acc <= decValue d acc.
Proof.
  induction d; intros acc Hacc; simpl; [lia|..];
    (etransitivity; [|apply IHd]; lia).
Qed.

Lemma parseUintLoop_digits (d : Decimal.uint) :
  forall acc,
    0 <= acc -> decValue d acc <= goint.MaxInt64 ->
    strconv.parseUintLoop (list_ascii_of_string (NilEmpty.string_of_uint d)) acc
    = (decValue d acc, None).
Proof.
  assert (Hcut : goint.MaxUint64 / 10 + 1 = 1844674407370955162) by reflexivity.
  induction d; intros acc Hacc Hmax; [reflexivity|..];
    (cbn [NilEmpty.string_of_uint list_ascii_of_string strconv.parseUintLoop decValue] in *;
     match goal with
     | H : decValue _ ?acc' <= _ |- _ =>
         pose proof (decValue_ge d acc' ltac:(lia)) as Hge;
         change (strconv.isDigit _) with true; cbv iota;
         rewrite Hcut;
         repeat match goal with
                | |- context [code ?a] =>
                    let v := eval vm_compute in (code a) in
                    change (code a) with v
                end;
         match goal with
         | |- context [strconv.parseUintLoop _ ?x] => replace x with acc' by lia
         end;
         unfold goint.MaxInt64, goint.MaxUint64 in *;
         destruct (Z.geb_spec acc 1844674407370955162); [lia|];
         destruct (Z.gtb_spec acc' 18446744073709551615); [lia|];
         apply IHd; lia
     end).
Qed.

(** [strconv.Atoi] reads back the decimal form that [%d] prints of a
    non-negative [int]. *)
Lemma Atoi_fmt_d (n : Z) :
  0 <= n <= goint.MaxInt64 -> strconv.Atoi (formatter.fmt_d n) = (n, None).
Proof.
  intros Hn. unfold strconv.Atoi, strconv.ParseInt, formatter.fmt_d.
  pose proof (DecimalZ.of_to n) as Hof.
  destruct n as [|p|p]; [reflexivity| |lia].
  simpl in Hof |- *.
  pose proof (DecimalPos.Unsigned.to_uint_nonnil p) as Hnil.
  set (d := Pos.to_uint p) in *.
  assert (Hloop := parseUintLoop_digits d 0 ltac:(lia)).
  rewrite decValue_of_uint, Hof in Hloop. specialize (Hloop ltac:(lia)).
  unfold NilZero.string_of_uint.
  destruct d; [contradiction|..];
    (cbn [NilEmpty.string_of_uint bytes_of list_ascii_of_string] in *;
     change (code _ =? 45) with false; change (code _ =? 43) with false;
     cbv iota; cbn [orb negb andb]; unfold strconv.ParseUint;
     rewrite Hloop;
     destruct (Z.geb_spec (Z.pos p) 9223372036854775808);
     [unfold goint.MaxInt64 in Hn; lia|reflexivity]).
Qed.

Lemma string_of_uint_digits (d : Decimal.uint) (c : ascii) :
  strconv.isDigit c = false -> IndexByte (NilEmpty.string_of_uint d) c = -1.
Proof.
  intros Hc. induction d; [reflexivity|..];
    (cbn [NilEmpty.string_of_uint IndexByte];
     match goal with
     | |- context [Ascii.eqb ?a c] =>
         destruct (Ascii.eqb_spec a c) as [<-|_]; [discriminate Hc|]
     end;
     rewrite IHd; reflexivity).
Qed.

Lemma fmt_d_digits (n : Z) (c : ascii) :
  0 <= n -> strconv.isDigit c = false -> IndexByte (formatter.fmt_d n) c = -1.
Proof.
  intros Hn Hc. unfold formatter.fmt_d.
  assert (Hzero : IndexByte "0" c = -1).
  { cbn [IndexByte].
    destruct (Ascii.eqb_spec "0" c) as [<-|_]; [discriminate Hc|reflexivity]. }
  destruct n as [|p|p]; [exact Hzero| |lia].
  change (Z.to_int (Z.pos p)) with (Decimal.Pos (Pos.to_uint p)).
  cbn [NilZero.string_of_int]. unfold NilZero.string_of_uint.
  pose proof (string_of_uint_digits (Pos.to_uint p) c Hc) as H.
  destruct (Pos.to_uint p); [exact Hzero|exact H..].
Qed.

(** [parseHunkHeader] reads back the start line and the line count that
    a hunk header "@@ -a,b +c,d @@" gives for the new side of the file. *)
Theorem parseHunkHeader_reads (pre rest : string) (start count : Z) :
  IndexByte pre "+" = -1 ->
  0 <= start <= goint.MaxInt64 ->
  0 <= count <= goint.MaxInt64 ->
  llm.parseHunkHeader (pre +:+ "+" +:+ formatter.fmt_d start +:+ ","
                         +:+ formatter.fmt_d count +:+ " " +:+ rest)
  = (start, count).
Proof.
  intros Hpre Hs Hc. unfold llm.parseHunkHeader.
  set (s := formatter.fmt_d start). set (c := formatter.fmt_d count).
  change (pre +:+ "+" +:+ s +:+ "," +:+ c +:+ " " +:+ rest)
    with (pre +:+ String "+" (s +:+ "," +:+ c +:+ " " +:+ rest)).
  rewrite (IndexByte_app_absent _ _ _ Hpre).
  destruct (Z.ltb_spec (Z.of_nat (String.length pre)) 0); [lia|].
  rewrite from_app.
  assert (Hhunk : IndexByte (s +:+ "," +:+ c) " " = -1).
  { apply IndexByte_app_none; [apply fmt_d_digits; [lia|reflexivity]|].
    apply (IndexByte_app_none ","); [reflexivity|].
    apply fmt_d_digits; [lia|reflexivity]. }
  replace (s +:+ "," +:+ c +:+ " " +:+ rest)
    with ((s +:+ "," +:+ c) +:+ String " " rest)
    by (rewrite !string_app_assoc; reflexivity).
  rewrite (IndexByte_app_absent _ _ _ Hhunk).
  destruct (Z.ltb_spec (Z.of_nat (String.length (s +:+ "," +:+ c))) 0); [lia|].
  rewrite upto_app. unfold SplitN2.
  change (s +:+ "," +:+ c) with (s +:+ String "," c).
  rewrite (IndexByte_app_absent s c ","%char)
    by (apply fmt_d_digits; [lia|reflexivity]).
  destruct (Z.ltb_spec (Z.of_nat (String.length s)) 0); [lia|].
  rewrite upto_app, from_app. subst s c.
  rewrite !Atoi_fmt_d by assumption. reflexivity.
Qed.

Lemma parseHunkHeader_reads_witness :
  llm.parseHunkHeader ("@@ -1,3 " +:+ "+" +:+ formatter.fmt_d 10 +:+ ","
                         +:+ formatter.fmt_d 20 +:+ " " +:+ "@@ func main()")
  = (10, 20).
Proof.
  apply parseHunkHeader_reads; [reflexivity|vm_compute; split; discriminate..].
Defined.

End DecimalFacts.

(** ** A container gate over the executor (packages [gate], [pool]) *)

Section GateExecutorFacts.



Lemma GoTestParser_wellBehaved (scanLines : string -> list string * option error)
      (json_Unmarshal : string -> parser.testEvent + error) (quote : string -> string) :
  wellBehaved (parser.GoTestParser_Parse scanLines json_Unmarshal quote).
Proof.
  intros stdout stderr exitCode. unfold parser.GoTestParser_Parse.
  destruct (String.eqb _ ""); [destruct (negb _); eauto|].
  destruct (parser.parseEvents _ _ _ stdout) as [events|e]; [|eauto].
  destruct (parser.testFailures _ events). eauto.
Qed.


End GateExecutorFacts.


(** ** The report without colours (package [formatter]) *)

Section NoColorFacts.

Import formatter.

Lemma noEscape_app (a b : string) : noEscape a -> noEscape b -> noEscape (a +:+ b).
Proof. apply IndexByte_app_none. Qed.

Lemma noEscape_fmt_d (n : Z) : noEscape (fmt_d n).
Proof.
  unfold noEscape, fmt_d. destruct n as [|p|p]; [reflexivity|..].
  - apply (fmt_d_digits (Z.pos p)); [lia|reflexivity].
  - change (Z.to_int (Z.neg p)) with (Decimal.Neg (Pos.to_uint p)).
    cbn [NilZero.string_of_int].
    change (String "-" ?s) with ("-" +:+ s).
    apply IndexByte_app_none; [reflexivity|].
    apply (fmt_d_digits (Z.pos p)); [lia|reflexivity].
Qed.

Lemma noEscape_Split (s : string) (c : ascii) :
  noEscape s -> Forall noEscape (gostrings.Split s c).
Proof.
  unfold noEscape. induction s as [|a s IH]; intros Hs.
  - apply Forall_singleton. reflexivity.
  - cbn [gostrings.IndexByte] in Hs.
    destruct (Ascii.eqb_spec a (ascii_of_nat 27)) as [|Hne]; [discriminate|].
    pose proof (IndexByte_ge s (ascii_of_nat 27)).
    destruct (Z.ltb_spec (gostrings.IndexByte s (ascii_of_nat 27)) 0); [|lia].
    assert (Hrec : Forall noEscape (gostrings.Split s c)) by (apply IH; lia).
    cbn [gostrings.Split]. destruct (Ascii.eqb a c).
    + apply Forall_cons. split; [reflexivity|assumption].
    + destruct (gostrings.Split s c) as [|w ws].
      * apply Forall_singleton. unfold noEscape. cbn [gostrings.IndexByte].
        destruct (Ascii.eqb_spec a (ascii_of_nat 27)); [contradiction|reflexivity].
      * apply Forall_cons in Hrec as [Hw Hws]. apply Forall_cons. split; [|assumption].
        unfold noEscape in *. cbn [gostrings.IndexByte].
        destruct (Ascii.eqb_spec a (ascii_of_nat 27)); [contradiction|].
        rewrite Hw. reflexivity.
Qed.

Ltac plain :=
  repeat first
         [ assumption
         | apply noEscape_fmt_d
         | apply noEscape_app
         | reflexivity ].

Lemma writeError_plain (verbose : bool) (b : string) (e : parser.StructuredError) :
  noEscape b -> plainDiagnostic e ->
  noEscape (writeError (mkCLIFormatter false verbose) b e).
Proof.
  intros Hb (Hfile & Hrule & Hmsg & Hhint). unfold writeError, colorize. simpl.
  assert (Hloc : noEscape
                   (if negb (String.eqb (parser.File e) "") then
                      (if parser.Line e >? 0 then
                         if parser.Column e >? 0
                         then (parser.File e +:+ ":" +:+ fmt_d (parser.Line e))
                                +:+ ":" +:+ fmt_d (parser.Column e)
                         else parser.File e +:+ ":" +:+ fmt_d (parser.Line e)
                       else parser.File e) +:+ " "
                    else "")).
  { destruct (negb (String.eqb (parser.File e) "")); [|reflexivity].
    destruct (parser.Line e >? 0); [destruct (parser.Column e >? 0)|]; plain. }
  assert (Hr : noEscape (if negb (String.eqb (parser.Rule e) "")
                         then ("[" +:+ parser.Rule e +:+ "]") +:+ " " else "")).
  { destruct (negb (String.eqb (parser.Rule e) "")); plain. }
  destruct (String.eqb (parser.Severity e) "error");
    [|destruct (String.eqb (parser.Severity e) "warning")];
    destruct (negb (String.eqb (parser.Hint e) "")); plain.
Qed.

Lemma writeGate_plain (verbose : bool) (b : string) (g : GateResult) :
  noEscape b -> plainGate g ->
  noEscape (writeGate (mkCLIFormatter false verbose) b g).
Proof.
  intros Hb (Hname & Hsys & Hraw & Herrs). unfold writeGate.
  set (f := mkCLIFormatter false verbose).
  assert (Hicon : noEscape (gateIcon f g)).
  { unfold gateIcon, colorize. simpl.
    destruct (Skipped g); [reflexivity|].
    destruct (negb (String.eqb (SystemError g) "")); [reflexivity|].
    destruct (Passed g); reflexivity. }
  assert (Hhead : noEscape
                    (let b := b +:+ "  " +:+ gateIcon f g +:+ " "
                                +:+ colorize f (Name g) ansiBold +:+ " "
                                +:+ colorize f (fmt_d (DurationMs g) +:+ "ms") ansiDim
                                +:+ LF in
                     if negb (String.eqb (SystemError g) "") then
                       b +:+ "    💥 " +:+ colorize f (SystemError g) ansiRed +:+ LF
                     else b)).
  { unfold colorize. simpl. destruct (negb (String.eqb (SystemError g) "")); plain. }
  assert (Hfold : forall errs acc,
             noEscape acc -> Forall plainDiagnostic errs ->
             noEscape (foldl (writeError f) acc errs)).
  { induction errs as [|e errs IH]; intros acc Hacc Hall; cbn [foldl]; [assumption|].
    apply Forall_cons in Hall as [He Hall]. apply IH; [|assumption].
    by apply writeError_plain. }
  pose proof (Hfold _ _ Hhead Herrs) as Hbody. cbv zeta in Hbody.
  cbv zeta. destruct (Verbose f && negb (String.eqb (RawOutput g) "")); [|exact Hbody].
  pose proof (noEscape_Split _ (ascii_of_nat 10) Hraw) as Hlines.
  match goal with |- noEscape (foldl ?F ?init ?lines) =>
    assert (Hinit : noEscape init) by (unfold colorize; simpl; plain);
    revert Hinit; generalize init; revert Hlines; generalize lines
  end.
  induction l as [|line l IH]; intros Hall acc Hacc; cbn [foldl]; [assumption|].
  apply Forall_cons in Hall as [Hline Hall]. apply IH; [assumption|].
  unfold colorize. simpl. plain.
Qed.

(** With colours off, the report has no ANSI escape sequence of its
    own: when the names, the system errors, the diagnostics and the raw
    output of the gates have no ESC byte, the whole report has none. *)
Theorem CLIFormatter_Format_no_color (verbose : bool) (result : RunResult) :
  Forall plainGate (Gates result) ->
  noEscape (CLIFormatter_Format (mkCLIFormatter false verbose) result).
Proof.
  intros Hgates. unfold CLIFormatter_Format.
  set (f := mkCLIFormatter false verbose).
  assert (Hfold : forall gs acc,
             noEscape acc -> Forall plainGate gs ->
             noEscape (foldl (writeGate f) acc gs)).
  { induction gs as [|g gs IH]; intros acc Hacc Hall; cbn [foldl]; [assumption|].
    apply Forall_cons in Hall as [Hg Hall]. apply IH; [|assumption].
    by apply writeGate_plain. }
  destruct (negb (RunPassed result)); apply Hfold; try assumption;
    unfold colorize; simpl; plain.
Qed.

End NoColorFacts.

Lemma CLIFormatter_Format_no_color_witness :
  noEscape
    (formatter.CLIFormatter_Format
       (formatter.mkCLIFormatter false true)
       (formatter.mkRunResult
          false 12
          [formatter.mkGateResult "lint" "exec" false true false 12
                                  [issue "a.go" 3] "" "a.go:3: issue"])).
Proof.
  apply CLIFormatter_Format_no_color.
  apply Forall_singleton. split_and!; try reflexivity.
  apply Forall_singleton. split_and!; reflexivity.
Defined.
